(** * Local Authority Lead Engine: lead intake, outreach trigger, site generation

    A shallow embedding of

    - [backend/database.py]          (the [Site] and [Lead] tables),
    - [backend/app.py]               (the [/api/lead] handler [create_lead]),
    - [backend/sales_automation.py]  ([check_leads_and_trigger_outreach]),
    - [site_generator/generate_site.py] ([load_top_niche], [render_pages], [main]),
    - [scale_engine.py]              ([main]),
    - [niche_selection.py]           ([get_seed_data], [filter_niches],
                                      [export_results], [main]),

    together with the properties the specification states about them and
    further properties read off the code.

    Conventions.  A Python [str] is modelled by the [string] of the bytes of
    its UTF-8 encoding.  [strip] knows every whitespace character of
    Unicode; [lower] and [title] follow the interpreter's algorithm, exact on
    ASCII letters and taking the case data of the other characters from
    the Unicode database, a parameter.  Nullable columns are [option]s.  A
    point in time (a naive UTC [datetime]) is the number of microseconds
    since the epoch, a [Z].  The file system is a map from paths to texts
    and a set of directories; [open], [os.mkdir] and [os.makedirs] fail as
    the operating system makes them fail. *)

From Stdlib Require Import ZArith Lia Ascii SpecFloat.
From stdpp Require Import base list strings pretty gmap sorting.

Open Scope string_scope.
Open Scope list_scope.
Open Scope Z_scope.

(** ** Python [str] methods *)

Module PyStr.

(** *** Text as UTF-8 *)

(** The UTF-8 encoding of a code point. *)
Definition utf8 (cp : N) : string :=
  (if cp <? 128 then String (ascii_of_N cp) EmptyString
   else if cp <? 2048 then
     String (ascii_of_N (192 + cp / 64))
       (String (ascii_of_N (128 + cp mod 64)) EmptyString)
   else if cp <? 65536 then
     String (ascii_of_N (224 + cp / 4096))
       (String (ascii_of_N (128 + (cp / 64) mod 64))
          (String (ascii_of_N (128 + cp mod 64)) EmptyString))
   else
     String (ascii_of_N (240 + cp / 262144))
       (String (ascii_of_N (128 + (cp / 4096) mod 64))
          (String (ascii_of_N (128 + (cp / 64) mod 64))
             (String (ascii_of_N (128 + cp mod 64)) EmptyString))))%N.

(** The characters of a text, each as the bytes of its encoding: the first
    byte of a character tells how many bytes it has.  (A byte sequence cut
    short, which no [str] encodes to, is kept as one last character.) *)
Fixpoint chars (s : string) : list string :=
  match s with
  | EmptyString => []
  | String b1 r1 =>
      if (N_of_ascii b1 <? 192)%N then String b1 EmptyString :: chars r1
      else
        match r1 with
        | EmptyString => [String b1 EmptyString]
        | String b2 r2 =>
            if (N_of_ascii b1 <? 224)%N
            then String b1 (String b2 EmptyString) :: chars r2
            else
              match r2 with
              | EmptyString => [String b1 (String b2 EmptyString)]
              | String b3 r3 =>
                  if (N_of_ascii b1 <? 240)%N
                  then String b1 (String b2 (String b3 EmptyString)) :: chars r3
                  else
                    match r3 with
                    | EmptyString => [String b1 (String b2 (String b3 EmptyString))]
                    | String b4 r4 =>
                        String b1 (String b2 (String b3 (String b4 EmptyString)))
                          :: chars r4
                    end
              end
        end
  end.

(** The text made of a sequence of characters. *)
Definition unchars (cs : list string) : string := foldr String.append EmptyString cs.

(** The character when it is an ASCII one. *)
Definition ascii_char (ch : string) : option ascii :=
  match ch with
  | String b EmptyString => if (N_of_ascii b <? 128)%N then Some b else None
  | _ => None
  end.

(** Whether every byte of [s] satisfies [p]. *)
Fixpoint all_chars (p : ascii → bool) (s : string) : bool :=
  match s with
  | EmptyString => true
  | String c s' => p c && all_chars p s'
  end.

(** [s.isascii()] *)
Definition is_ascii (s : string) : bool := all_chars (λ b, (N_of_ascii b <? 128)%N) s.

(** *** Whitespace and [strip] *)

(** The code points for which [str.isspace] holds, the ones [str.strip]
    removes: TAB, LF, VT, FF, CR, FS, GS, RS, US, SPACE, NEL, NO-BREAK
    SPACE, OGHAM SPACE MARK, EN QUAD to HAIR SPACE, LINE and PARAGRAPH
    SEPARATOR, NARROW NO-BREAK SPACE, MEDIUM MATHEMATICAL SPACE,
    IDEOGRAPHIC SPACE. *)
Definition whitespace : list N :=
  [ 9; 10; 11; 12; 13; 28; 29; 30; 31; 32; 133; 160; 5760;
    8192; 8193; 8194; 8195; 8196; 8197; 8198; 8199; 8200; 8201; 8202;
    8232; 8233; 8239; 8287; 12288 ]%N.

(** [ch.isspace()] for one character. *)
Definition isspace (ch : string) : bool := bool_decide (ch ∈ utf8 <$> whitespace).

(** Dropping the whitespace characters a sequence starts with. *)
Fixpoint drop_space (cs : list string) : list string :=
  match cs with
  | [] => []
  | ch :: rest => if isspace ch then drop_space rest else cs
  end.

(** [s.strip()] with no argument: leading whitespace removed, then
    trailing whitespace. *)
Definition strip (s : string) : string :=
  unchars (reverse (drop_space (reverse (drop_space (chars s))))).

(** Whether [s] holds whitespace characters only (the empty text included). *)
Definition all_whitespace (s : string) : bool := forallb isspace (chars s).

(** *** Splitting, replacing, counting *)

(** [s.split(sep)] for a one-character ASCII separator: one field more than
    there are separators, empty fields kept. *)
Fixpoint split (sep : ascii) (s : string) : list string :=
  match s with
  | EmptyString => [EmptyString]
  | String c s' =>
      if decide (c = sep) then EmptyString :: split sep s'
      else match split sep s' with
           | w :: ws => String c w :: ws
           | [] => [String c EmptyString]
           end
  end.

(** [s.replace(old, new)] for one-character ASCII [old] and [new]. *)
Fixpoint replace (old new : ascii) (s : string) : string :=
  match s with
  | EmptyString => EmptyString
  | String c s' => String (if decide (c = old) then new else c) (replace old new s')
  end.

(** Number of occurrences of an ASCII character, [s.count(c)]. *)
Fixpoint count (c : ascii) (s : string) : nat :=
  match s with
  | EmptyString => 0%nat
  | String d s' => (if decide (d = c) then 1 else 0) + count c s'
  end%nat.

(** Truth value of a [str]: the empty string is false. *)
Definition truthy (s : string) : bool :=
  match s with EmptyString => false | _ => true end.

(** [str(n)] for an [int]. *)
Definition of_int (n : Z) : string := pretty n.

(** The one-character string holding a double quote. *)
Definition dquote : string := String (ascii_of_nat 34) EmptyString.

(** [s.startswith(p)]. *)
Definition startswith (p s : string) : bool := String.prefix p s.

(** [s.endswith(c)] for one ASCII character [c]. *)
Fixpoint endswith (c : ascii) (s : string) : bool :=
  match s with
  | EmptyString => false
  | String d EmptyString => bool_decide (d = c)
  | String _ s' => endswith c s'
  end.

(** [s.removeprefix(p)], with [None] when [p] is not a prefix of [s]. *)
Fixpoint removeprefix (p s : string) : option string :=
  match p, s with
  | EmptyString, _ => Some s
  | String a p', String b s' => if decide (a = b) then removeprefix p' s' else None
  | String _ _, EmptyString => None
  end.

(** [sep.join(parts)]. *)
Fixpoint join (sep : string) (parts : list string) : string :=
  match parts with
  | [] => EmptyString
  | [x] => x
  | x :: rest => x +:+ sep +:+ join sep rest
  end.

(** *** Case: the ASCII letters *)

Definition isupper (c : ascii) : bool :=
  let n := nat_of_ascii c in ((65 <=? n) && (n <=? 90))%nat.

Definition islower (c : ascii) : bool :=
  let n := nat_of_ascii c in ((97 <=? n) && (n <=? 122))%nat.

Definition to_upper (c : ascii) : ascii :=
  if islower c then ascii_of_nat (nat_of_ascii c - 32) else c.

Definition to_lower (c : ascii) : ascii :=
  if isupper c then ascii_of_nat (nat_of_ascii c + 32) else c.

(** [s.lower()] and [s.title()] as they act on ASCII text, byte by byte.
    [prev] records whether the previous character was a letter. *)
Fixpoint ascii_lower (s : string) : string :=
  match s with
  | EmptyString => EmptyString
  | String c s' => String (to_lower c) (ascii_lower s')
  end.

Fixpoint ascii_title_from (prev : bool) (s : string) : string :=
  match s with
  | EmptyString => EmptyString
  | String c s' =>
      String (if prev then to_lower c else to_upper c)
             (ascii_title_from (isupper c || islower c) s')
  end.

Definition ascii_title (s : string) : string := ascii_title_from false s.

(** [s.capitalize()] on ASCII text: first character upper-cased, the rest
    lower-cased. *)
Definition capitalize (s : string) : string :=
  match s with
  | EmptyString => EmptyString
  | String c s' => String (to_upper c) (ascii_lower s')
  end.

(** Capitalizing each word of an ASCII text whose words are separated by
    single spaces: the reading of "each word capitalized" word by word, to
    be compared with [title]. *)
Definition capitalize_words (s : string) : string :=
  join " " (capitalize <$> split " " s).

(** *** Case: every character *)

(** The interpreter's Unicode character database for the characters above
    U+007F: whether a character is cased, whether it is case-ignorable, its
    full lower-case and title-case mappings.  No mapping makes or removes
    an underscore. *)
Class UnicodeData : Type := {
  ucd_cased : string → bool;
  ucd_case_ignorable : string → bool;
  ucd_lower : string → string;
  ucd_title : string → string;
  ucd_lower_underscore : ∀ ch, count "_" (ucd_lower ch) = count "_" ch
}.

(** The database of an interpreter that knows no case above U+007F; the
    examples, whose texts are ASCII, are evaluated with it. *)
Definition no_case_above_ascii : UnicodeData :=
  {| ucd_cased := λ _, false;
     ucd_case_ignorable := λ _, false;
     ucd_lower := λ ch, ch;
     ucd_title := λ ch, ch;
     ucd_lower_underscore := λ ch, eq_refl |}.

Section Case.
Context `{!UnicodeData}.

(** Whether a character is cased: an ASCII letter, or cased by the
    database. *)
Definition iscased (ch : string) : bool :=
  match ascii_char ch with
  | Some b => isupper b || islower b
  | None => ucd_cased ch
  end.

(** Whether a character is case-ignorable: among the ASCII characters the
    apostrophe, the full stop, the colon, the circumflex and the grave
    accent. *)
Definition case_ignorable (ch : string) : bool :=
  match ascii_char ch with
  | Some b => bool_decide (b ∈ ["'"; "."; ":"; "^"; "`"]%char)
  | None => ucd_case_ignorable ch
  end.

Definition to_lower_full (ch : string) : string :=
  match ascii_char ch with
  | Some b => String (to_lower b) EmptyString
  | None => ucd_lower ch
  end.

Definition to_title_full (ch : string) : string :=
  match ascii_char ch with
  | Some b => String (to_upper b) EmptyString
  | None => ucd_title ch
  end.

(** Dropping the case-ignorable characters a sequence starts with. *)
Fixpoint drop_case_ignorable (cs : list string) : list string :=
  match cs with
  | [] => []
  | ch :: rest => if case_ignorable ch then drop_case_ignorable rest else cs
  end.

(** Whether a capital sigma is in final position: before it, skipping
    case-ignorable characters, comes a cased character, and after it,
    skipping case-ignorable characters, comes none.  [before] holds the
    preceding characters, nearest first. *)
Definition final_sigma (before after : list string) : bool :=
  match drop_case_ignorable before with
  | c :: _ =>
      iscased c &&
      match drop_case_ignorable after with
      | c' :: _ => negb (iscased c')
      | [] => true
      end
  | [] => false
  end.

(** The lower-casing of one character in its context: the capital sigma
    U+03A3 becomes the final sigma U+03C2 or the small sigma U+03C3, every
    other character takes its full lower-case mapping. *)
Definition lower_char (before : list string) (ch : string) (after : list string) : string :=
  if decide (ch = utf8 931)
  then if final_sigma before after then utf8 962 else utf8 963
  else to_lower_full ch.

Fixpoint lower_chars (before cs : list string) : list string :=
  match cs with
  | [] => []
  | ch :: after => lower_char before ch after :: lower_chars (ch :: before) after
  end.

(** [s.lower()] *)
Definition lower (s : string) : string := unchars (lower_chars [] (chars s)).

(** [s.title()]: a character that follows an uncased one (or starts the
    text) takes its title-case mapping, every other one is lower-cased.
    [prev] records whether the previous character was cased. *)
Fixpoint title_chars (prev : bool) (before cs : list string) : list string :=
  match cs with
  | [] => []
  | ch :: after =>
      (if prev then lower_char before ch after else to_title_full ch)
        :: title_chars (iscased ch) (ch :: before) after
  end.

Definition title (s : string) : string := unchars (title_chars false [] (chars s)).

End Case.

End PyStr.

(** ** [backend/database.py]: the two tables *)

Module Site.
(** A row of [sites]. *)
Record t : Type := mk {
  id : Z;
  slug : string;
  niche : string;
  city : string;
  partner_email : option string
}.
End Site.

Module Lead.
(** A row of [leads].  [timestamp] is nullable in the schema; the intake
    handler always fills it from the column default [datetime.utcnow]. *)
Record t : Type := mk {
  id : Z;
  site_id : Z;
  name : string;
  phone : string;
  email : option string;
  service : option string;
  message : option string;
  timestamp : option Z;
  routed : bool
}.
End Lead.

Module Database.

(** The persistent state: both tables, rows in insertion order. *)
Record DB : Type := mkDB {
  sites : list Site.t;
  leads : list Lead.t
}.

(** The key SQLite gives to a row inserted without an explicit
    [INTEGER PRIMARY KEY]: one more than the largest key in the table,
    and 1 in an empty table. *)
Definition next_rowid (ids : list Z) : Z :=
  match ids with
  | [] => 1
  | i :: rest => 1 + foldr Z.max i rest
  end.

(** [db.query(Site).filter_by(slug=...).first()] *)
Definition query_site_by_slug (db : DB) (slug : string) : option Site.t :=
  head (filter (λ s, Site.slug s = slug) (sites db)).

(** [db.add(site); db.commit(); db.refresh(site)] for a new [Site]:
    the row is appended and comes back with its generated key. *)
Definition add_site (db : DB) (slug niche city : string)
    (partner_email : option string) : DB * Site.t :=
  let site := Site.mk (next_rowid (Site.id <$> sites db)) slug niche city partner_email in
  (mkDB (sites db ++ [site]) (leads db), site).

(** [db.add(lead); db.commit(); db.refresh(lead)] for a new [Lead];
    [now] is the value of [datetime.utcnow()] taken by the column default. *)
Definition add_lead (db : DB) (now : Z) (site_id : Z) (name phone : string)
    (email service message : option string) (routed : bool) : DB * Lead.t :=
  let lead := Lead.mk (next_rowid (Lead.id <$> leads db)) site_id name phone
                      email service message (Some now) routed in
  (mkDB (sites db) (leads db ++ [lead]), lead).

(** [lead.routed = ...; db.commit()]: an UPDATE of the row with that key. *)
Definition set_lead_routed (db : DB) (lead_id : Z) (routed : bool) : DB :=
  mkDB (sites db)
       ((λ l, if decide (Lead.id l = lead_id)
              then Lead.mk (Lead.id l) (Lead.site_id l) (Lead.name l) (Lead.phone l)
                           (Lead.email l) (Lead.service l) (Lead.message l)
                           (Lead.timestamp l) routed
              else l) <$> leads db).

End Database.

(** ** [backend/app.py]: the intake handler *)

Module App.
Import Database.

Record HTTPException : Type := mkHTTPException {
  status_code : Z;
  detail : string
}.

Record LeadResponse : Type := mkLeadResponse { message : string }.

(** What one call of the handler leaves behind: the database, the lines
    printed, and either the exception raised or the response returned. *)
Record Outcome : Type := mkOutcome {
  db_after : DB;
  printed : list string;
  result : HTTPException + LeadResponse
}.

(** Truth value of [site.partner_email]: [None] and the empty string are
    false. *)
Definition partner_assigned (partner_email : option string) : bool :=
  match partner_email with
  | None => false
  | Some e => PyStr.truthy e
  end.

(** [str(x)] for an optional string inside an f-string. *)
Definition str_of_optional (o : option string) : string :=
  match o with None => "None" | Some s => s end.

Definition routed_message : string :=
  "Thank you! Your request has been routed to our local partner.".

Definition unrouted_message : string :=
  "Thank you for contacting us. We will reach out shortly.".

Section Handler.
Context `{!PyStr.UnicodeData}.

(** The niche and the city given to a site created from its slug alone:
    the [try] block of the handler with its [except ValueError] branch. *)
Definition niche_city_of_slug (site_slug : string) : string * string :=
  match PyStr.split "_" site_slug with
  | [niche_part; city_part] =>
      (PyStr.title (PyStr.replace "-" " " niche_part),
       PyStr.title (PyStr.replace "-" " " city_part))
  | _ => (site_slug, "Unknown")
  end.

(** The block "find or create site entry" of the handler: the site with
    that slug, or a new one with no partner, and the database after it. *)
Definition find_or_create_site (db : DB) (site_slug : string) : DB * Site.t :=
  match query_site_by_slug db site_slug with
  | Some site => (db, site)
  | None =>
      let '(niche, city) := niche_city_of_slug site_slug in
      add_site db site_slug niche city None
  end.

(** [create_lead], the handler of [POST /api/lead]; [now] is the clock
    read when the lead row is inserted. *)
Definition create_lead (db : DB) (now : Z)
    (site_slug name phone : string)
    (email service message : option string) : Outcome :=
  if negb (PyStr.truthy (PyStr.strip name)) || negb (PyStr.truthy (PyStr.strip phone))
  then mkOutcome db [] (inl (mkHTTPException 400 "Name and phone are required."))
  else
    let '(db1, site) := find_or_create_site db site_slug in
    (* create the new lead record *)
    let '(db2, lead) :=
      add_lead db1 now (Site.id site) name phone email service message false in
    (* routing logic *)
    if partner_assigned (Site.partner_email site)
    then
      mkOutcome (set_lead_routed db2 (Lead.id lead) true)
        ["Routed lead " +:+ PyStr.of_int (Lead.id lead) +:+ " to partner "
           +:+ str_of_optional (Site.partner_email site) +:+ " for site "
           +:+ Site.slug site]
        (inr (mkLeadResponse routed_message))
    else
      mkOutcome db2
        ["Lead " +:+ PyStr.of_int (Lead.id lead) +:+ " received for site "
           +:+ Site.slug site +:+ ". No partner assigned."]
        (inr (mkLeadResponse unrouted_message)).

(** The form fields of a request; [None] stands for a field the body does
    not carry. *)
Record LeadForm : Type := mkLeadForm {
  form_site_slug : option string;
  form_name : option string;
  form_phone : option string;
  form_email : option string;
  form_service : option string;
  form_message : option string
}.

(** What FastAPI hands over for a form field: an empty value counts as a
    field that was not sent. *)
Definition form_value (field : option string) : option string :=
  match field with
  | Some EmptyString => None
  | other => other
  end.

(** What the client gets back: the response of the handler, the error it
    raised, or the validation error for required fields that were not
    sent. *)
Inductive Response : Type :=
  | Response200 (body : LeadResponse)
  | ResponseError (status_code : Z) (detail : string)
  | Response422 (missing : list string).

Definition status (r : Response) : Z :=
  match r with
  | Response200 _ => 200
  | ResponseError code _ => code
  | Response422 _ => 422
  end.

Record Served : Type := mkServed {
  served_db : DB;
  served_printed : list string;
  response : Response
}.

(** The required fields a request does not carry, in the order the handler
    declares them. *)
Definition missing_fields (form : LeadForm) : list string :=
  let missing (field : string) (value : option string) : list string :=
    match form_value value with Some _ => [] | None => [field] end in
  missing "site_slug" (form_site_slug form) ++ missing "name" (form_name form)
    ++ missing "phone" (form_phone form).

(** [POST /api/lead]: [site_slug], [name] and [phone] are declared
    [Form(...)], required, and [email], [service] and [message] are declared
    [Form(None)], optional; the handler runs only when the required fields
    were sent. *)
Definition post_api_lead (db : DB) (now : Z) (form : LeadForm) : Served :=
  match form_value (form_site_slug form), form_value (form_name form),
        form_value (form_phone form) with
  | Some site_slug, Some name, Some phone =>
      let out := create_lead db now site_slug name phone
                             (form_value (form_email form))
                             (form_value (form_service form))
                             (form_value (form_message form)) in
      mkServed (db_after out) (printed out)
               match result out with
               | inl e => ResponseError (status_code e) (detail e)
               | inr body => Response200 body
               end
  | _, _, _ => mkServed db [] (Response422 (missing_fields form))
  end.

End Handler.

End App.

(** ** [backend/sales_automation.py]: the outreach trigger *)

Module SalesAutomation.
Import Database.

(** Threshold: number of leads in the past 30 days to trigger outreach. *)
Definition LEAD_THRESHOLD : Z := 5.

(** [timedelta(days=d)] in microseconds. *)
Definition timedelta_days (d : Z) : Z := d * 86400 * 1000000.

(** [Lead.timestamp >= cutoff]; a NULL timestamp satisfies no comparison. *)
Definition timestamp_ge (l : Lead.t) (cutoff : Z) : bool :=
  match Lead.timestamp l with
  | Some t => cutoff <=? t
  | None => false
  end.

(** Whether the lead was created in the window from [lo] to [hi], both
    ends included: the trailing window of the specification read with its
    upper end, to be compared with [timestamp_ge]. *)
Definition timestamp_within (l : Lead.t) (lo hi : Z) : bool :=
  match Lead.timestamp l with
  | Some t => (lo <=? t) && (t <=? hi)
  | None => false
  end.

(** A lead stamped at [since] or later: created in the window that starts
    at [since] and has no upper end, to be compared with [timestamp_ge]. *)
Definition stamped_since (since : Z) (l : Lead.t) : Prop :=
  ∃ t, Lead.timestamp l = Some t ∧ since ≤ t.

#[global] Instance stamped_since_dec since l : Decision (stamped_since since l).
Proof.
  unfold stamped_since. destruct (Lead.timestamp l) as [t|].
  - destruct (decide (since ≤ t)) as [Hle|Hgt].
    + left. by exists t.
    + right. by intros (? & [= <-] & ?).
  - right. by intros (? & ? & _).
Defined.

(** The per-site query
    [db.query(Lead).filter(site_id == site.id).filter(timestamp >= cutoff).count()]. *)
Definition recent_lead_count (db : DB) (site : Site.t) (cutoff : Z) : Z :=
  Z.of_nat (length (filter (λ l, Lead.site_id l = Site.id site ∧ timestamp_ge l cutoff = true)
                           (leads db))).

(** The outreach drafted for one site: the console line and the email body. *)
Record Outreach : Type := mkOutreach {
  site : Site.t;
  count : Z;
  announcement : string;
  email_body : string
}.

Definition draft_outreach (site : Site.t) (count : Z) : Outreach :=
  mkOutreach site count
    ("Sales Automation: Site '" +:+ Site.slug site +:+ "' generated "
       +:+ PyStr.of_int count +:+ " leads in the last 30 days. "
       +:+ "Initiating outreach to potential partners in " +:+ Site.city site +:+ ".")
    ("Hello,

We operate " +:+ Site.niche site +:+ " websites in " +:+ Site.city site
       +:+ " and have generated " +:+ PyStr.of_int count +:+ " high-intent leads "
       +:+ "over the past 30 days. We are looking for a local business partner to take these leads on a "
       +:+ "pay-per-lead or subscription basis. If you are interested, please reply to discuss pricing.

"
       +:+ "Regards,
Local Authority Lead Engine").

(** [check_leads_and_trigger_outreach]: the outreach drafted by one run
    started at time [now], in the order of the loop. *)
Definition check_leads_and_trigger_outreach (db : DB) (now : Z) : list Outreach :=
  let cutoff := now - timedelta_days 30 in
  let sites := filter (λ s, Site.partner_email s = None) (sites db) in
  sites ≫= (λ site,
    let count := recent_lead_count db site cutoff in
    if LEAD_THRESHOLD <=? count then [draft_outreach site count] else []).

(** What the run prints: two [print] calls for every outreach. *)
Definition printed (out : list Outreach) : list string :=
  out ≫= (λ o, [announcement o; "Email content:
" +:+ email_body o +:+ "
"]).

End SalesAutomation.

(** ** [site_generator/generate_site.py] *)

Module GenerateSite.

#[local] Set Warnings "-register-all".

(** The values [json.load] produces, which are also the values put into a
    template context. *)
Inductive json : Type :=
  | JNull
  | JBool (b : bool)
  | JInt (n : Z)
  | JFloat (f : spec_float)
  | JStr (s : string)
  | JList (items : list json)
  | JDict (items : list (string * json)).

(** Truth value of such a value, as tested by [if not data]. *)
Definition truthy (v : json) : bool :=
  match v with
  | JNull => false
  | JBool b => b
  | JInt n => negb (n =? 0)
  | JFloat (S754_zero _) => false
  | JFloat _ => true
  | JStr s => PyStr.truthy s
  | JList [] => false
  | JList _ => true
  | JDict [] => false
  | JDict _ => true
  end.

Inductive PyError : Type :=
  | FileNotFoundError (msg : string)
  | FileExistsError (path : string)
  | IsADirectoryError (path : string)
  | NotADirectoryError (path : string)
  | JSONDecodeError
  | ValueError (msg : string)
  | KeyError (key : string)
  | IndexError
  | TypeError
  | AttributeError
  | TemplateNotFound (name : string).

(** The part of the machine the script touches: regular files with their
    text, directories, and the console.  An entry is known under the path
    the scripts name it by, built with [os.path.join] from the configured
    directories; the root is always there, and so is the working
    directory, named by the empty head of a relative path. *)
Record World : Type := mkWorld {
  files : gmap string string;
  dirs : gset string;
  stdout : list string
}.

(** A computation that may raise, over the world. *)
Definition Run (A : Type) : Type := World → World * (PyError + A).

Definition ret {A} (a : A) : Run A := λ w, (w, inr a).
Definition raise {A} (e : PyError) : Run A := λ w, (w, inl e).
Definition bind {A B} (m : Run A) (k : A → Run B) : Run B :=
  λ w, match m w with
       | (w', inr a) => k a w'
       | (w', inl e) => (w', inl e)
       end.
Definition lift {A} (r : PyError + A) : Run A := λ w, (w, r).

Notation "x <- m ;; k" := (bind m (λ x, k))
  (at level 100, m at next level, right associativity).
Notation "m ;;; k" := (bind m (λ _, k))
  (at level 100, right associativity).

(** [os.path.join(a, b)] *)
Definition path_join (a b : string) : string :=
  if PyStr.startswith "/" b then b
  else if negb (PyStr.truthy a) || PyStr.endswith "/" a then a +:+ b
  else a +:+ "/" +:+ b.

(** [os.path.exists(path)] *)
Definition path_exists (path : string) : Run bool :=
  λ w, (w, inr (bool_decide (is_Some (files w !! path)) || bool_decide (path ∈ dirs w))).

(** [open(path).read()] *)
Definition read_file (path : string) : Run string :=
  λ w, match files w !! path with
       | Some text => (w, inr text)
       | None => if bool_decide (path ∈ dirs w)
                 then (w, inl (IsADirectoryError path))
                 else (w, inl (FileNotFoundError path))
       end.

(** Splitting a path at its last slash: what precedes it, slash included,
    and what follows it. *)
Fixpoint rsplit_slash (path : string) : option (string * string) :=
  match path with
  | EmptyString => None
  | String c rest =>
      match rsplit_slash rest with
      | Some (head, tail) => Some (String c head, tail)
      | None => if decide (c = "/"%char) then Some ("/", rest) else None
      end
  end.

(** [s.rstrip("/")] *)
Fixpoint rstrip_slashes (s : string) : string :=
  match s with
  | EmptyString => EmptyString
  | String c rest =>
      match rstrip_slashes rest with
      | EmptyString => if decide (c = "/"%char) then EmptyString else String c EmptyString
      | rest' => String c rest'
      end
  end.

(** [os.path.split(path)]: the head loses its trailing slashes unless it is
    made of slashes only. *)
Definition path_split (path : string) : string * string :=
  match rsplit_slash path with
  | None => (EmptyString, path)
  | Some (head, tail) =>
      (match rstrip_slashes head with
       | EmptyString => head
       | head' => head'
       end, tail)
  end.

(** The directory under which the last component of [path] is created:
    the head of the path, a trailing slash put aside. *)
Definition parent_of (path : string) : string :=
  let '(head, tail) := path_split path in
  if decide (tail = EmptyString) then (path_split head).1 else head.

(** Whether [path] names the root: slashes only. *)
Definition is_root (path : string) : bool :=
  PyStr.truthy path && PyStr.all_chars (λ c, bool_decide (c = "/"%char)) path.

(** [os.path.isdir(path)]: a directory of the world, or the root. *)
Definition isdir (path : string) (w : World) : bool :=
  bool_decide (path ∈ dirs w) || is_root path.

Definition isfile (path : string) (w : World) : bool :=
  bool_decide (is_Some (files w !! path)).

(** Whether the directory that is to hold a new entry is there: the
    working directory (the empty head) is. *)
Definition holds_entries (parent : string) (w : World) : bool :=
  negb (PyStr.truthy parent) || isdir parent w.

(** The error of creating an entry under [parent] when that is no
    directory. *)
Definition no_parent_error (parent path : string) (w : World) : PyError :=
  if isfile parent w then NotADirectoryError path else FileNotFoundError path.

(** [open(path, "w").write(text)]: the path must not be a directory and its
    parent must be one. *)
Definition write_file (path text : string) : Run unit :=
  λ w, if isdir path w || negb (PyStr.truthy (path_split path).2)
       then (w, inl (IsADirectoryError path))
       else if holds_entries (path_split path).1 w
       then (mkWorld (<[path := text]> (files w)) (dirs w) (stdout w), inr tt)
       else (w, inl (no_parent_error (path_split path).1 path w)).

(** [os.mkdir(name)] *)
Definition mkdir (name : string) : Run unit :=
  λ w, if negb (PyStr.truthy name) then (w, inl (FileNotFoundError name))
       else if isfile name w || isdir name w then (w, inl (FileExistsError name))
       else if holds_entries (parent_of name) w
       then (mkWorld (files w) ({[name]} ∪ dirs w) (stdout w), inr tt)
       else (w, inl (no_parent_error (parent_of name) name w)).

(** [try: os.mkdir(name)], with an [OSError] let through only when [name]
    is not a directory: the last step of [os.makedirs(name, exist_ok=True)]. *)
Definition mkdir_exist_ok (name : string) : Run unit :=
  λ w, match mkdir name w with
       | (w', inl e) => if isdir name w' then (w', inr tt) else (w', inl e)
       | done => done
       end.

(** [try: m], with a [FileExistsError] passed over. *)
Definition pass_file_exists (m : Run unit) : Run unit :=
  λ w, match m w with
       | (w', inl (FileExistsError _)) => (w', inr tt)
       | other => other
       end.

(** [os.makedirs(name, exist_ok=True)]: the missing parents first, by a
    call on the head of the path, then the directory itself.  The head is
    shorter than the path, so the length of the path bounds the depth of
    the calls. *)
Fixpoint makedirs_within (depth : nat) (name : string) : Run unit :=
  let '(head, tail) := path_split name in
  let '(head, tail) := if decide (tail = EmptyString) then path_split head
                       else (head, tail) in
  head_exists <- (if PyStr.truthy head && PyStr.truthy tail
                  then path_exists head else ret true) ;;
  if head_exists then mkdir_exist_ok name
  else
    match depth with
    | S depth' => pass_file_exists (makedirs_within depth' head)
    | O => ret tt
    end ;;;
    if decide (tail = ".") then ret tt else mkdir_exist_ok name.

Definition makedirs (path : string) : Run unit :=
  makedirs_within (String.length path) path.

(** [print(line)] *)
Definition print (line : string) : Run unit :=
  λ w, (mkWorld (files w) (dirs w) (stdout w ++ [line]), inr tt).

(** Whether [path] lies strictly below directory [dir]. *)
Definition below (dir path : string) : bool :=
  bool_decide (is_Some (PyStr.removeprefix (dir +:+ "/") path)).

(** [shutil.rmtree(dir, ignore_errors=True)] *)
Definition rmtree (dir : string) : Run unit :=
  λ w, (mkWorld (filter (λ kv, below dir kv.1 = false) (files w))
                (filter (λ d, d ≠ dir ∧ below dir d = false) (dirs w))
                (stdout w), inr tt).

(** Where [path] below [src] lands when [src] is copied to [dst]. *)
Definition relocate (src dst path : string) : option string :=
  rel ← PyStr.removeprefix (src +:+ "/") path; Some (dst +:+ "/" +:+ rel).

(** [shutil.copytree(src, dst)]: the source must be a directory and the
    destination must not exist. *)
Definition copytree (src dst : string) : Run unit :=
  λ w, if bool_decide (src ∈ dirs w)
       then if isfile dst w || isdir dst w then (w, inl (FileExistsError dst)) else
            (mkWorld
               (list_to_map (omap (λ kv, p ← relocate src dst kv.1; Some (p, kv.2))
                                  (map_to_list (files w))) ∪ files w)
               ({[dst]} ∪ list_to_set (omap (relocate src dst) (elements (dirs w)))
                       ∪ dirs w)
               (stdout w), inr tt)
       else (w, inl (NotADirectoryError src)).

(** [obj[key]] for a string key. *)
Definition getitem (obj : json) (key : string) : PyError + json :=
  match obj with
  | JDict kvs =>
      match list_find (λ kv, kv.1 = key) kvs with
      | Some (_, (_, v)) => inr v
      | None => inl (KeyError key)
      end
  | _ => inl TypeError
  end.

(** [obj[0]] *)
Definition getitem0 (obj : json) : PyError + json :=
  match obj with
  | JList (x :: _) => inr x
  | JList [] => inl IndexError
  | JStr s =>
      match PyStr.chars s with
      | ch :: _ => inr (JStr ch)
      | [] => inl IndexError
      end
  | JDict _ => inl (KeyError "0")
  | _ => inl TypeError
  end.

Section Text.
Context `{!PyStr.UnicodeData}.

(** [obj.lower()]: only a [str] has the method. *)
Definition str_lower (obj : json) : PyError + string :=
  match obj with
  | JStr s => inr (PyStr.lower s)
  | _ => inl AttributeError
  end.

(** [f"{obj}"] once [obj] is known to be a [str]. *)
Definition str_of (obj : json) : string :=
  match obj with JStr s => s | _ => EmptyString end.

(** The slug [render_pages] builds from a niche and a city that are
    strings: each lower-cased with spaces turned into hyphens, joined by an
    underscore. *)
Definition site_slug_of (niche city : string) : string :=
  PyStr.replace " " "-" (PyStr.lower niche) +:+ "_"
    +:+ PyStr.replace " " "-" (PyStr.lower city).

End Text.

(** The files [render_pages] writes into the site directory, in the order
    it writes them. *)
Definition page_names : list string :=
  [ "index.html"; "water-extraction.html"; "structural-drying.html";
    "mold-remediation.html"; "faq.html"; "sitemap.xml"; "robots.txt" ].

(** The text [render_pages] writes to [robots.txt] for a site slug. *)
Definition robots_txt (site_slug : string) : string :=
  "User-agent: *
Allow: /
Sitemap: /" +:+ site_slug +:+ "/sitemap.xml
".

(** The text [render_pages] writes to [sitemap.xml] for a site slug: one
    entry for the homepage, one per sub-service, one for the FAQ. *)
Definition sitemap_xml (site_slug : string) : string :=
  "<?xml version=" +:+ PyStr.dquote +:+ "1.0" +:+ PyStr.dquote
    +:+ " encoding=" +:+ PyStr.dquote +:+ "UTF-8" +:+ PyStr.dquote +:+ "?>
<urlset xmlns=" +:+ PyStr.dquote +:+ "http://www.sitemaps.org/schemas/sitemap/0.9" +:+ PyStr.dquote +:+ ">
" +:+ PyStr.join "
" [ "  <url><loc>/" +:+ site_slug +:+ "/index.html</loc></url>";
    "  <url><loc>/" +:+ site_slug +:+ "/water-extraction.html</loc></url>";
    "  <url><loc>/" +:+ site_slug +:+ "/structural-drying.html</loc></url>";
    "  <url><loc>/" +:+ site_slug +:+ "/mold-remediation.html</loc></url>";
    "  <url><loc>/" +:+ site_slug +:+ "/faq.html</loc></url>" ] +:+ "
</urlset>".

(** [for x in obj]: what iterating over a loaded JSON value yields. *)
Definition iterate (obj : json) : PyError + list json :=
  match obj with
  | JList items => inr items
  | JDict kvs => inr ((λ kv, JStr kv.1) <$> kvs)
  | JStr s => inr (JStr <$> PyStr.chars s)
  | _ => inl TypeError
  end.

(** The loop [for x in xs: body(x)]. *)
Fixpoint for_each {A} (xs : list A) (body : A → Run unit) : Run unit :=
  match xs with
  | [] => ret tt
  | x :: rest => body x ;;; for_each rest body
  end.

Section Script.
Context `{!PyStr.UnicodeData}.

(** Where the script is installed. *)
Variables DATA_DIR TEMPLATE_DIR OUTPUT_DIR STATIC_SRC : string.

(** [json.loads] ([None] for text that is not JSON) and
    [json.dumps(_, indent=2)], from the standard library. *)
Variable json_loads : string → option json.
Variable json_dumps : json → string.

(** Jinja2: the rendering of a template source under a context. *)
Variable jinja_render : string → gmap string json → PyError + string.

(** [load_top_niche] *)
Definition load_top_niche (data_path : string) : Run json :=
  text <- read_file data_path ;;
  match json_loads text with
  | None => raise JSONDecodeError
  | Some data =>
      if negb (truthy data)
      then raise (ValueError "No niche data found. Run niche_selection.py first.")
      else lift (getitem0 data)
  end.

(** [env.get_template(name)]: the template source, read from
    [TEMPLATE_DIR]. *)
Definition get_template (name : string) : Run string :=
  λ w, match files w !! path_join TEMPLATE_DIR name with
       | None => (w, inl (TemplateNotFound name))
       | Some source => (w, inr source)
       end.

(** [template.render(context)], the context passed as keywords. *)
Definition render (source : string) (context : gmap string json) : Run string :=
  lift (jinja_render source context).

Definition sub_services : list (list (string * json)) :=
  [ [("name", JStr "Water Extraction"); ("slug", JStr "water-extraction");
     ("description", JStr "Rapid removal of standing water using industrial pumps and vacuums.")];
    [("name", JStr "Structural Drying"); ("slug", JStr "structural-drying");
     ("description", JStr "Drying and dehumidification of walls, floors and other structural elements.")];
    [("name", JStr "Mold Remediation"); ("slug", JStr "mold-remediation");
     ("description", JStr "Safe removal and prevention of mold and mildew growth.")] ].

(** [service['slug']] of one of the literal dictionaries above. *)
Definition service_slug (service : list (string * json)) : string :=
  match getitem (JDict service) "slug" with
  | inr v => str_of v
  | inl _ => EmptyString
  end.

(** [render_pages]; [year] is [datetime.now().year]. *)
Definition render_pages (niche_data : json) (year : Z) : Run unit :=
  niche <- lift (getitem niche_data "niche") ;;
  niche_lower <- lift (str_lower niche) ;;
  let niche_slug := PyStr.replace " " "-" niche_lower in
  city <- lift (getitem niche_data "city") ;;
  city_lower <- lift (str_lower city) ;;
  let city_slug := PyStr.replace " " "-" city_lower in
  let site_slug := niche_slug +:+ "_" +:+ city_slug in
  let site_dir := path_join OUTPUT_DIR site_slug in
  makedirs site_dir ;;;
  (* common context for all templates *)
  let context : gmap string json :=
    list_to_map
      [ ("niche", niche);
        ("city", city);
        ("phone", JStr "(555) 123-4567");
        ("sub_services", JList (JDict <$> sub_services));
        ("year", JInt year);
        ("site_slug", JStr site_slug);
        ("schema_business", JStr (json_dumps (JDict
           [ ("@context", JStr "https://schema.org");
             ("@type", JStr "LocalBusiness");
             ("name", JStr (str_of niche +:+ " " +:+ str_of city));
             ("address", JDict
                [ ("@type", JStr "PostalAddress");
                  ("addressLocality", city);
                  ("addressRegion", JStr "");
                  ("postalCode", JStr "");
                  ("streetAddress", JStr "") ]);
             ("telephone", JStr "(555) 123-4567");
             ("priceRange", JStr "$$$");
             ("areaServed", JDict [ ("@type", JStr "City"); ("name", city) ]);
             ("url", JStr ("/" +:+ site_slug +:+ "/index.html")) ]))) ] in
  (* homepage *)
  template <- get_template "home.html" ;;
  html <- render template context ;;
  write_file (path_join site_dir "index.html") html ;;;
  (* sub-service pages *)
  service_template <- get_template "service.html" ;;
  for_each sub_services (λ service,
    let service_ctx := list_to_map service ∪ context in
    html <- render service_template service_ctx ;;
    write_file (path_join site_dir (service_slug service +:+ ".html")) html) ;;;
  (* FAQ page *)
  faq_template <- get_template "faq.html" ;;
  let faq_ctx : gmap string json :=
    <[ "faqs" := JList
         [ JDict [ ("question", JStr ("How quickly can you respond to " +:+ niche_lower +:+ " emergencies?"));
                   ("answer", JStr "We offer 24/7 emergency response and aim to arrive within one hour of your call.") ];
           JDict [ ("question", JStr "Are your technicians certified?");
                   ("answer", JStr "Yes, all of our technicians are IICRC‑certified and trained in the latest restoration techniques.") ];
           JDict [ ("question", JStr ("Do you work with insurance companies for " +:+ niche_lower +:+ " claims?"));
                   ("answer", JStr "We can coordinate directly with your insurer to streamline the claims process.") ] ] ]>
    context in
  html <- render faq_template faq_ctx ;;
  write_file (path_join site_dir "faq.html") html ;;;
  (* sitemap.xml *)
  let urls := (["index.html"] ++ ((λ s, service_slug s +:+ ".html") <$> sub_services)
                 ++ ["faq.html"])%list in
  let sitemap_items :=
    PyStr.join "
" ((λ url, "  <url><loc>/" +:+ site_slug +:+ "/" +:+ url +:+ "</loc></url>") <$> urls) in
  let sitemap :=
    "<?xml version=" +:+ PyStr.dquote +:+ "1.0" +:+ PyStr.dquote
      +:+ " encoding=" +:+ PyStr.dquote +:+ "UTF-8" +:+ PyStr.dquote +:+ "?>
<urlset xmlns=" +:+ PyStr.dquote +:+ "http://www.sitemaps.org/schemas/sitemap/0.9" +:+ PyStr.dquote +:+ ">
" +:+ sitemap_items +:+ "
</urlset>" in
  write_file (path_join site_dir "sitemap.xml") sitemap ;;;
  (* robots.txt *)
  let robots := "User-agent: *
Allow: /
Sitemap: /" +:+ site_slug +:+ "/sitemap.xml
" in
  write_file (path_join site_dir "robots.txt") robots ;;;
  (* static assets, if available *)
  static_exists <- path_exists STATIC_SRC ;;
  (if static_exists
   then let static_dest := path_join site_dir "static" in
        rmtree static_dest ;;; copytree STATIC_SRC static_dest
   else ret tt) ;;;
  print ("Generated site for " +:+ str_of niche +:+ " in " +:+ str_of city
           +:+ " at " +:+ site_dir).

(** [main] *)
Definition main (year : Z) : Run unit :=
  let json_path := path_join DATA_DIR "top_niches.json" in
  json_exists <- path_exists json_path ;;
  if negb json_exists
  then raise (FileNotFoundError (json_path +:+ " not found. Run niche_selection.py first."))
  else niche_data <- load_top_niche json_path ;;
       render_pages niche_data year.

End Script.

End GenerateSite.

(** ** [scale_engine.py] *)

Module ScaleEngine.
Import GenerateSite.

Section Script.
Context `{!PyStr.UnicodeData}.

Variables DATA_DIR TEMPLATE_DIR OUTPUT_DIR STATIC_SRC : string.
Variable json_loads : string → option json.
Variable json_dumps : json → string.
Variable jinja_render : string → gmap string json → PyError + string.

(** [str(v)] for a loaded value that is not a string, from the interpreter. *)
Variable py_str : json → string.

(** [f"{v}"] *)
Definition format_value (v : json) : string :=
  match v with
  | JStr s => s
  | _ => py_str v
  end.

(** The body of the loop of [main] for one entry of the ranking. *)
Definition generate_one (year : Z) (niche_data : json) : Run unit :=
  niche <- lift (getitem niche_data "niche") ;;
  city <- lift (getitem niche_data "city") ;;
  print ("Generating site for " +:+ format_value niche +:+ " in "
           +:+ format_value city +:+ "...") ;;;
  render_pages TEMPLATE_DIR OUTPUT_DIR STATIC_SRC json_dumps jinja_render niche_data year.

(** [main]; [year] is the calendar year during the run. *)
Definition main (year : Z) : Run unit :=
  let json_path := path_join DATA_DIR "top_niches.json" in
  json_exists <- path_exists json_path ;;
  if negb json_exists
  then raise (FileNotFoundError "top_niches.json not found. Run niche_selection.py first.")
  else text <- read_file json_path ;;
       match json_loads text with
       | None => raise JSONDecodeError
       | Some niches =>
           entries <- lift (iterate niches) ;;
           for_each entries (generate_one year) ;;;
           print "All sites generated."
       end.

End Script.

End ScaleEngine.

(** ** [niche_selection.py] *)

Module NicheSelection.
Import GenerateSite.

(** The dataclass [Niche].  A [float] is a binary64 value in canonical
    form. *)
Record Niche : Type := mkNiche {
  rank : Z;
  niche : string;
  city : string;
  cpc : spec_float;
  difficulty : Z;
  rationale : string
}.

(** A positive binary64 value given by its 53-bit mantissa and exponent. *)
Definition float_lit (m : positive) (e : Z) : spec_float := S754_finite false m e.

(** [get_seed_data] *)
Definition get_seed_data : list Niche :=
  [ mkNiche 1 "Water Damage Restoration" "Dallas" (float_lit 8823888676158177 (-45)) 18
      "Highest CPC in home services; low keyword difficulty";
    mkNiche 2 "Flood Restoration" "Chicago" (float_lit 5340635839363809 (-45)) 22
      "High emergency intent and strong demand";
    mkNiche 3 "Emergency Plumbing" "Houston" (float_lit 5827939392794132 (-46)) 25
      "Urgent need; high CPC and transactional intent";
    mkNiche 4 "HVAC Repair Services" "Phoenix" (float_lit 4984921837545718 (-46)) 31
      "Seasonal demand; CPC around $70; moderate competition";
    mkNiche 5 "Roof Leak Repair" "Las Vegas" (float_lit 7881299347898368 (-49)) 30
      "Emergency roof repair keywords cost $12–18";
    mkNiche 6 "Garage Door Repair" "Los Angeles" (float_lit 8136034201821512 (-47)) 28
      "High conversion rate and mid‑level SEO difficulty";
    mkNiche 7 "Pest Control" "Miami" (float_lit 4785074604081152 (-47)) 20
      "Average CPC $34 in competitive markets";
    mkNiche 8 "Window Replacement" "Orlando" (float_lit 5704090403041444 (-47)) 27
      "High‑value home renovation term with good intent";
    mkNiche 9 "Home Security Installation" "San Francisco" (float_lit 6409185219701637 (-47)) 32
      "Growing demand for smart home systems";
    mkNiche 10 "Duct Cleaning Services" "Charlotte" (float_lit 4790704103615365 (-47)) 24
      "Seasonal service with CPC around $34" ].

(** [a >= b] on floats: false as soon as one side is NaN. *)
Definition float_ge (a b : spec_float) : bool := SFleb b a.

(** The defaults of [filter_niches]: [min_cpc = 10.0], [max_difficulty = 40]. *)
Definition default_min_cpc : spec_float := float_lit 5629499534213120 (-49).
Definition default_max_difficulty : Z := 40.

(** [filter_niches] *)
Definition filter_niches (niches : list Niche) (min_cpc : spec_float)
    (max_difficulty : Z) : list Niche :=
  filter (λ n, float_ge (cpc n) min_cpc = true ∧ difficulty n ≤ max_difficulty) niches.

(** The order of the ranking: [a] comes no later than [b]. *)
Definition by_rank : relation Niche := λ a b, rank a ≤ rank b.

(** [list.sort(key=lambda n: n.rank)]: the stable sort by rank, as an
    insertion sort. *)
Fixpoint insert_by_rank (n : Niche) (sorted : list Niche) : list Niche :=
  match sorted with
  | [] => [n]
  | m :: rest => if rank n <=? rank m then n :: m :: rest
                 else m :: insert_by_rank n rest
  end.

Definition sort_by_rank (niches : list Niche) : list Niche :=
  foldr insert_by_rank [] niches.

(** [dataclasses.asdict] *)
Definition asdict (n : Niche) : json :=
  JDict [ ("rank", JInt (rank n)); ("niche", JStr (niche n)); ("city", JStr (city n));
          ("cpc", JFloat (cpc n)); ("difficulty", JInt (difficulty n));
          ("rationale", JStr (rationale n)) ].

Section Script.

(** The directory holding [niche_selection.py]. *)
Variable HERE : string.

(** [json.dumps(_, indent=2)] and the text [csv.DictWriter] produces for a
    header and rows, from the standard library. *)
Variable json_dumps : json → string.
Variable csv_text : list string → list json → string.

(** [export_results] *)
Definition export_results (niches : list Niche) (json_path csv_path : string) : Run unit :=
  let data := asdict <$> niches in
  write_file json_path (json_dumps (JList data)) ;;;
  write_file csv_path
    (csv_text ["rank"; "niche"; "city"; "cpc"; "difficulty"; "rationale"] data).

(** [main] *)
Definition main : Run unit :=
  let niches := get_seed_data in
  let filtered := filter_niches niches default_min_cpc default_max_difficulty in
  let filtered := sort_by_rank filtered in
  let outdir := path_join HERE "data" in
  makedirs outdir ;;;
  let json_path := path_join outdir "top_niches.json" in
  let csv_path := path_join outdir "top_niches.csv" in
  export_results filtered json_path csv_path ;;;
  print ("Wrote " +:+ PyStr.of_int (Z.of_nat (length filtered)) +:+ " niches to "
           +:+ json_path +:+ " and " +:+ csv_path +:+ ".").

End Script.

End NicheSelection.

(** ** Clients of the intake handler, and the schema's constraints *)

Module Traffic.
Import Database.

(** One form post: the six fields and the clock at the insert. *)
Record Submission : Type := mkSubmission {
  at_time : Z;
  site_slug : string;
  name : string;
  phone : string;
  email : option string;
  service : option string;
  message : option string
}.

Section Client.
Context `{!PyStr.UnicodeData}.

Definition submit (db : DB) (s : Submission) : App.Outcome :=
  App.create_lead db (at_time s) (site_slug s) (name s) (phone s)
                  (email s) (service s) (message s).

(** The database after a client posted the forms one after another. *)
Definition submit_all (db : DB) (subs : list Submission) : DB :=
  foldl (λ db s, App.db_after (submit db s)) db subs.

End Client.

(** The constraints [database.py] declares: primary keys, the unique slug,
    and the foreign key from [leads.site_id] to [sites.id]. *)
Record consistent (db : DB) : Prop := mkConsistent {
  site_keys_unique : NoDup (Site.id <$> sites db);
  slugs_unique : NoDup (Site.slug <$> sites db);
  lead_keys_unique : NoDup (Lead.id <$> leads db);
  leads_reference_sites : ∀ l, l ∈ leads db → Lead.site_id l ∈ Site.id <$> sites db
}.

End Traffic.

(** * Properties *)

(** The examples are evaluated with the database that knows no case above
    U+007F: their texts are ASCII, on which every database agrees.  Every
    other statement holds of every database. *)
#[local] Existing Instance PyStr.no_case_above_ascii.

(** ** Strings *)

Section StringFacts.
Import PyStr.

Example strip_ex : strip "  Jane Doe	 " = "Jane Doe".
Proof. reflexivity. Qed.

Example title_ex {UCD : UnicodeData} :
  title (replace "-" " " "water-damage-restoration") = "Water Damage Restoration".
Proof. reflexivity. Qed.

Example title_lowers_tail {UCD : UnicodeData} : title "hVAC don't 3d" = "Hvac Don'T 3D".
Proof. reflexivity. Qed.

(** With a database in which U+00E9 is a cased letter that is its own
    lower case, as it is in Unicode, a letter that follows it is
    lower-cased. *)
Example title_cased_letter {UCD : UnicodeData} :
  ucd_cased (utf8 233) = true → ucd_lower (utf8 233) = utf8 233 →
  title ("montr" +:+ utf8 233 +:+ "al") = "Montr" +:+ utf8 233 +:+ "al".
Proof.
  intros Hc Hl. unfold title.
  change (chars ("montr" +:+ utf8 233 +:+ "al"))
    with ["m"; "o"; "n"; "t"; "r"; utf8 233; "a"; "l"].
  cbn [title_chars]. unfold lower_char.
  change (iscased (utf8 233)) with (ucd_cased (utf8 233)).
  change (to_lower_full (utf8 233)) with (ucd_lower (utf8 233)).
  rewrite Hc, Hl. reflexivity.
Qed.

Example split_ex : split "_" "a__b_" = ["a"; ""; "b"; ""].
Proof. reflexivity. Qed.

(** A text has a first character, which is not empty, and the characters of
    what follows it. *)
Lemma chars_step s :
  s ≠ "" →
  ∃ ch rest, ch ≠ "" ∧ s = ch +:+ rest ∧ chars s = ch :: chars rest
             ∧ (String.length rest < String.length s)%nat.
Proof.
  destruct s as [|b1 r1]; [done|]. intros _. cbn [chars].
  destruct (N_of_ascii b1 <? 192)%N.
  { exists (String b1 ""), r1. simpl. split_and!; [done|done|done|lia]. }
  destruct r1 as [|b2 r2].
  { exists (String b1 ""), "". simpl. split_and!; [done|done|done|lia]. }
  destruct (N_of_ascii b1 <? 224)%N.
  { exists (String b1 (String b2 "")), r2. simpl. split_and!; [done|done|done|lia]. }
  destruct r2 as [|b3 r3].
  { exists (String b1 (String b2 "")), "". simpl. split_and!; [done|done|done|lia]. }
  destruct (N_of_ascii b1 <? 240)%N.
  { exists (String b1 (String b2 (String b3 ""))), r3. simpl.
    split_and!; [done|done|done|lia]. }
  destruct r3 as [|b4 r4].
  { exists (String b1 (String b2 (String b3 ""))), "". simpl.
    split_and!; [done|done|done|lia]. }
  exists (String b1 (String b2 (String b3 (String b4 "")))), r4. simpl.
  split_and!; [done|done|done|lia].
Qed.

(** Induction on a text, character by character. *)
Lemma chars_ind (P : string → Prop) :
  P "" →
  (∀ ch rest, ch ≠ "" → chars (ch +:+ rest) = ch :: chars rest → P rest → P (ch +:+ rest)) →
  ∀ s, P s.
Proof.
  intros Hnil Hcons s. remember (String.length s) as n eqn:Hn.
  revert s Hn. induction (lt_wf n) as [n _ IH]. intros s ->.
  destruct (decide (s = "")) as [->|Hs]; [done|].
  destruct (chars_step s Hs) as (ch & rest & Hch & -> & Hcs & Hlen).
  apply Hcons; [done|done|]. by eapply IH.
Qed.

(** The characters of a text, put together, give the text back. *)
Lemma unchars_chars s : unchars (chars s) = s.
Proof.
  induction s as [|ch rest Hch Hcs IH] using chars_ind; [done|].
  rewrite Hcs. simpl. by rewrite IH.
Qed.

Lemma chars_nonempty s : Forall (λ ch, ch ≠ "") (chars s).
Proof.
  induction s as [|ch rest Hch Hcs IH] using chars_ind; [constructor|].
  rewrite Hcs. by constructor.
Qed.

Lemma unchars_empty_iff cs :
  Forall (λ ch, ch ≠ "") cs → unchars cs = "" ↔ cs = [].
Proof.
  intros Hcs. destruct Hcs as [|ch cs Hch _]; [done|]. simpl.
  split; [|done]. by destruct ch.
Qed.

Lemma truthy_false_iff s : truthy s = false ↔ s = "".
Proof. destruct s; simpl; split; congruence. Qed.

Lemma truthy_true_iff s : truthy s = true ↔ s ≠ "".
Proof. destruct s; simpl; split; congruence. Qed.

Lemma drop_space_Forall (P : string → Prop) cs :
  Forall P cs → Forall P (drop_space cs).
Proof.
  induction 1 as [|ch cs Hch Hcs IH]; simpl; [done|].
  destruct (isspace ch); [done|by constructor].
Qed.

Lemma drop_space_nil_iff cs : drop_space cs = [] ↔ forallb isspace cs = true.
Proof.
  induction cs as [|ch cs IH]; simpl; [done|].
  destruct (isspace ch); simpl; [done|]. split; congruence.
Qed.

(** What [drop_space] leaves is empty or starts with a character that is
    not whitespace. *)
Lemma drop_space_all_space cs :
  forallb isspace (drop_space cs) = true → drop_space cs = [].
Proof.
  induction cs as [|ch cs IH]; simpl; [done|].
  destruct (isspace ch) eqn:Hch; [done|]. simpl. by rewrite Hch.
Qed.

Lemma forallb_reverse {A} (p : A → bool) (l : list A) :
  forallb p (reverse l) = forallb p l.
Proof.
  induction l as [|x l IH]; [done|]. rewrite reverse_cons, forallb_app. simpl.
  rewrite IH. by destruct (p x), (forallb p l).
Qed.

Lemma reverse_nil_iff {A} (l : list A) : reverse l = [] ↔ l = [].
Proof.
  split; [|by intros ->].
  intros H%(f_equal reverse). by rewrite reverse_involutive in H.
Qed.

(** A text strips to the empty string exactly when it holds whitespace
    only. *)
Lemma strip_empty_iff s : strip s = "" ↔ all_whitespace s = true.
Proof.
  unfold strip, all_whitespace. rewrite unchars_empty_iff.
  - rewrite reverse_nil_iff, drop_space_nil_iff, forallb_reverse.
    split.
    + intros H. by apply drop_space_nil_iff, drop_space_all_space.
    + intros H%drop_space_nil_iff. by rewrite H.
  - apply Forall_reverse, drop_space_Forall, Forall_reverse, drop_space_Forall,
      chars_nonempty.
Qed.

Example strip_no_break_space : strip (utf8 160 +:+ utf8 8195 +:+ utf8 12288) = "".
Proof. reflexivity. Qed.

Lemma split_nonempty sep s : split sep s ≠ [].
Proof.
  destruct s as [|c s]; simpl; [done|].
  case_decide; [done|]. by destruct (split sep s).
Qed.

(** [split] yields one field more than there are separators. *)
Lemma split_length sep s : length (split sep s) = S (count sep s).
Proof.
  induction s as [|c s IH]; simpl; [done|].
  case_decide; simpl; [by rewrite IH|].
  destruct (split sep s); simpl in *; lia.
Qed.

Lemma split_no_sep sep s : count sep s = 0%nat → split sep s = [s].
Proof.
  induction s as [|c s IH]; simpl; [done|].
  case_decide; [done|]. intros Hc. by rewrite IH.
Qed.

(** Splitting a text with exactly one separator gives its two sides. *)
Lemma split_two sep a b :
  count sep a = 0%nat → count sep b = 0%nat →
  split sep (a +:+ String sep b) = [a; b].
Proof.
  intros Ha Hb. induction a as [|c a IH]; simpl in *.
  - rewrite decide_True by done. by rewrite split_no_sep.
  - case_decide; [done|]. by rewrite IH.
Qed.

Lemma count_app c a b : count c (a +:+ b) = (count c a + count c b)%nat.
Proof. induction a as [|d a IH]; simpl; [done|]. rewrite IH. lia. Qed.

(** A text with exactly one separator is its two sides around it. *)
Lemma count_one_sides sep s :
  count sep s = 1%nat →
  ∃ a b, s = a +:+ String sep b ∧ count sep a = 0%nat ∧ count sep b = 0%nat.
Proof.
  induction s as [|c s IH]; simpl; [done|].
  case_decide as Hc; intros Hn.
  - subst c. exists "", s. simpl. split_and!; [done|done|lia].
  - destruct IH as (a & b & -> & Ha & Hb); [lia|].
    exists (String c a), b. simpl. rewrite decide_False by done. done.
Qed.

Lemma join_cons_char sep c w ws :
  join sep (String c w :: ws) = String c (join sep (w :: ws)).
Proof. by destruct ws. Qed.

(** [ascii_title], started inside or outside a word, on a text of letters
    and spaces: the word under way is lower-cased, every later word is
    capitalized. *)
Lemma ascii_title_from_words prev s :
  all_chars (λ c, isupper c || islower c || bool_decide (c = " "%char)) s = true →
  ascii_title_from prev s =
    join " " (match split " " s with
              | w :: ws => (if prev then ascii_lower w else capitalize w) :: (capitalize <$> ws)
              | [] => []
              end).
Proof.
  revert prev. induction s as [|c s IH]; intros prev.
  - by destruct prev.
  - cbn [all_chars ascii_title_from split]. intros [Hc Hs]%andb_prop. case_decide as Hsp.
    + subst c. replace (isupper " " || islower " ") with false by done.
      replace (to_lower " ") with " "%char by done.
      replace (to_upper " ") with " "%char by done.
      rewrite (IH false Hs).
      pose proof (split_nonempty " " s) as Hne.
      destruct (split " " s) as [|w ws]; [done|].
      by destruct prev.
    + rewrite orb_true_iff, bool_decide_eq_true in Hc.
      destruct Hc as [Hc|?]; [|done]. rewrite Hc, (IH true Hs).
      destruct (split " " s) as [|w ws]; [by destruct prev|].
      rewrite decide_False by done.
      by destruct prev; cbn [ascii_lower capitalize]; rewrite join_cons_char.
Qed.

(** *** ASCII text *)

Lemma chars_ascii_cons b s :
  (N_of_ascii b <? 128)%N = true → chars (String b s) = String b "" :: chars s.
Proof.
  intros Hb. cbn [chars].
  replace (N_of_ascii b <? 192)%N with true; [done|].
  symmetry. apply N.ltb_lt. apply N.ltb_lt in Hb. lia.
Qed.

Lemma utf8_sigma_not_ascii b : String b "" ≠ utf8 931.
Proof. done. Qed.

Section Case.
Context {UCD : UnicodeData}.

Lemma lower_chars_ascii before s :
  is_ascii s = true → unchars (lower_chars before (chars s)) = ascii_lower s.
Proof.
  revert before. induction s as [|b s IH]; intros before; [done|].
  cbn [is_ascii all_chars]. intros [Hb Hs]%andb_prop.
  rewrite chars_ascii_cons by done. cbn [lower_chars unchars foldr ascii_lower].
  fold (unchars (lower_chars (String b "" :: before) (chars s))).
  rewrite IH by done. unfold lower_char.
  rewrite decide_False by apply utf8_sigma_not_ascii.
  unfold to_lower_full, ascii_char. by rewrite Hb.
Qed.

(** On ASCII text [lower] works byte by byte. *)
Lemma lower_ascii s : is_ascii s = true → lower s = ascii_lower s.
Proof. apply lower_chars_ascii. Qed.

Lemma title_chars_ascii prev before s :
  is_ascii s = true →
  unchars (title_chars prev before (chars s)) = ascii_title_from prev s.
Proof.
  revert prev before. induction s as [|b s IH]; intros prev before; [done|].
  cbn [is_ascii all_chars]. intros [Hb Hs]%andb_prop.
  rewrite chars_ascii_cons by done. cbn [title_chars unchars foldr ascii_title_from].
  fold (unchars (title_chars (iscased (String b "")) (String b "" :: before) (chars s))).
  rewrite IH by done. unfold lower_char.
  rewrite decide_False by apply utf8_sigma_not_ascii.
  unfold to_lower_full, to_title_full, iscased, ascii_char. rewrite Hb.
  by destruct prev.
Qed.

(** On ASCII text [title] works byte by byte. *)
Lemma title_ascii s : is_ascii s = true → title s = ascii_title s.
Proof. apply title_chars_ascii. Qed.

(** On an ASCII text made of letters and single spaces, [title]
    capitalizes each word. *)
Lemma title_capitalize_words s :
  all_chars (λ c, isupper c || islower c || bool_decide (c = " "%char)) s = true →
  title s = capitalize_words s.
Proof.
  intros Hs. rewrite title_ascii.
  - unfold ascii_title, capitalize_words. rewrite ascii_title_from_words by done.
    pose proof (split_nonempty " " s). by destruct (split " " s).
  - unfold is_ascii. clear -Hs. induction s as [|c s IH]; [done|].
    cbn [all_chars] in *. apply andb_prop in Hs as [Hc Hs]. rewrite IH by done.
    rewrite andb_true_r. clear -Hc.
    destruct c as [[] [] [] [] [] [] [] []]; done.
Qed.

(** Lower-casing neither makes nor removes an underscore. *)
Lemma lower_char_underscore before ch after :
  ch ≠ "" → count "_" (lower_char before ch after) = count "_" ch.
Proof.
  intros Hch. unfold lower_char. case_decide as Hs.
  { subst ch. by destruct (final_sigma _ _). }
  unfold to_lower_full. destruct (ascii_char ch) as [b|] eqn:Hb.
  - destruct ch as [|b' [|]]; simpl in Hb; try done.
    destruct (N_of_ascii b' <? 128)%N; [|done]. injection Hb as ->.
    destruct b as [[] [] [] [] [] [] [] []]; done.
  - apply ucd_lower_underscore.
Qed.

Lemma count_unchars_lower before cs :
  Forall (λ ch, ch ≠ "") cs →
  count "_" (unchars (lower_chars before cs)) = count "_" (unchars cs).
Proof.
  intros Hcs. revert before. induction Hcs as [|ch cs Hch _ IH]; intros before; [done|].
  cbn [lower_chars unchars foldr].
  fold (unchars (lower_chars (ch :: before) cs)). fold (unchars cs).
  by rewrite !count_app, IH, lower_char_underscore.
Qed.

Lemma count_lower s : count "_" (lower s) = count "_" s.
Proof.
  unfold lower. rewrite count_unchars_lower by apply chars_nonempty.
  by rewrite unchars_chars.
Qed.

End Case.

End StringFacts.

(** ** The tables *)

Section DatabaseFacts.
Import Database.

Lemma foldr_max_ge (i : Z) (rest : list Z) (j : Z) :
  j = i ∨ j ∈ rest → j ≤ foldr Z.max i rest.
Proof.
  induction rest as [|k rest IH]; simpl.
  - intros [->|H]; [lia|by apply elem_of_nil in H].
  - intros [->|[->|H]%elem_of_cons]; [specialize (IH (or_introl eq_refl))|
                                       |specialize (IH (or_intror H))]; lia.
Qed.

(** A generated key is larger than every key already in the table. *)
Lemma next_rowid_fresh (ids : list Z) (i : Z) : i ∈ ids → i < next_rowid ids.
Proof.
  destruct ids as [|k rest]; simpl; [by intros ?%elem_of_nil|].
  intros H%elem_of_cons. pose proof (foldr_max_ge k rest i H). lia.
Qed.

Lemma query_site_by_slug_Some db slug site :
  query_site_by_slug db slug = Some site → site ∈ sites db ∧ Site.slug site = slug.
Proof.
  unfold query_site_by_slug. intros H.
  assert (site ∈ filter (λ s, Site.slug s = slug) (sites db)) as Hin.
  { destruct (filter _ _); simplify_eq/=. apply elem_of_cons. by left. }
  by apply list_elem_of_filter in Hin as [? ?].
Qed.

Lemma query_site_by_slug_None db slug :
  query_site_by_slug db slug = None ↔ ∀ site, site ∈ sites db → Site.slug site ≠ slug.
Proof.
  unfold query_site_by_slug. split.
  - intros H site Hin Heq.
    assert (site ∈ filter (λ s, Site.slug s = slug) (sites db)) as Hf
      by by apply list_elem_of_filter.
    destruct (filter _ _); [by apply elem_of_nil in Hf|done].
  - intros H. destruct (filter _ _) as [|s l] eqn:Hf; [done|].
    assert (s ∈ filter (λ s, Site.slug s = slug) (sites db)) as Hin
      by (rewrite Hf; apply elem_of_cons; by left).
    apply list_elem_of_filter in Hin as [? ?]. by destruct (H s).
Qed.

Lemma filter_all_False {A} (P : A → Prop) `{!∀ x, Decision (P x)} (l : list A) :
  (∀ x, x ∈ l → ¬ P x) → filter P l = [].
Proof.
  induction l as [|a l IH]; [done|]. intros Hall.
  rewrite filter_cons_False by (apply Hall, elem_of_cons; by left).
  apply IH. intros x Hx. apply Hall, elem_of_cons. by right.
Qed.

Lemma filter_slug_none db slug :
  query_site_by_slug db slug = None →
  filter (λ s, Site.slug s = slug) (sites db) = [].
Proof. unfold query_site_by_slug. by destruct (filter _ _). Qed.

(** The routed-flag update touches only the row just inserted, whose key is
    fresh. *)
Lemma set_lead_routed_last db l routed :
  Lead.id l = next_rowid (Lead.id <$> leads db) →
  leads (set_lead_routed (mkDB (sites db) (leads db ++ [l])) (Lead.id l) routed) =
  leads db ++ [Lead.mk (Lead.id l) (Lead.site_id l) (Lead.name l) (Lead.phone l)
                       (Lead.email l) (Lead.service l) (Lead.message l)
                       (Lead.timestamp l) routed].
Proof.
  intros Hid. simpl. rewrite fmap_app. simpl. rewrite decide_True by done.
  f_equal. rewrite <- (list_fmap_id (leads db)) at 2.
  apply list_fmap_ext. intros i l' Hl'. simpl.
  rewrite decide_False; [done|].
  assert (Lead.id l' ∈ Lead.id <$> leads db) as Hin.
  { apply list_elem_of_fmap. exists l'. split; [done|]. by eapply list_elem_of_lookup_2. }
  apply next_rowid_fresh in Hin. lia.
Qed.

End DatabaseFacts.

(** ** The intake handler *)

Section IntakeFacts.
Import Database App.

Lemma partner_assigned_true_iff (partner_email : option string) :
  partner_assigned partner_email = true ↔ ∃ e, partner_email = Some e ∧ e ≠ "".
Proof.
  destruct partner_email as [e|]; simpl.
  - rewrite truthy_true_iff. split; [by exists e|by intros (? & [= <-] & ?)].
  - split; [done|by intros (? & ? & _)].
Qed.

Lemma find_or_create_site_found {UCD : PyStr.UnicodeData} db site_slug site :
  query_site_by_slug db site_slug = Some site →
  find_or_create_site db site_slug = (db, site).
Proof. unfold find_or_create_site. by intros ->. Qed.

Lemma find_or_create_site_new {UCD : PyStr.UnicodeData} db site_slug :
  query_site_by_slug db site_slug = None →
  find_or_create_site db site_slug =
    (mkDB (sites db ++ [Site.mk (next_rowid (Site.id <$> sites db)) site_slug
                                (niche_city_of_slug site_slug).1
                                (niche_city_of_slug site_slug).2 None])
          (leads db),
     Site.mk (next_rowid (Site.id <$> sites db)) site_slug
             (niche_city_of_slug site_slug).1 (niche_city_of_slug site_slug).2 None).
Proof.
  unfold find_or_create_site. intros ->.
  by destruct (niche_city_of_slug site_slug).
Qed.

Lemma find_or_create_site_leads {UCD : PyStr.UnicodeData} db site_slug :
  leads (find_or_create_site db site_slug).1 = leads db.
Proof.
  destruct (query_site_by_slug db site_slug) as [site|] eqn:Hq.
  - by rewrite (find_or_create_site_found _ _ _ Hq).
  - by rewrite (find_or_create_site_new _ _ Hq).
Qed.

(** After the block, the slug resolves to the site the block returned. *)
Lemma find_or_create_site_resolves {UCD : PyStr.UnicodeData} db site_slug :
  query_site_by_slug (find_or_create_site db site_slug).1 site_slug =
  Some (find_or_create_site db site_slug).2.
Proof.
  destruct (query_site_by_slug db site_slug) as [site|] eqn:Hq.
  - by rewrite (find_or_create_site_found _ _ _ Hq).
  - rewrite (find_or_create_site_new _ _ Hq). unfold query_site_by_slug. simpl.
    rewrite filter_app, (filter_slug_none _ _ Hq). simpl.
    by rewrite filter_cons_True.
Qed.

(** What the handler does with a submission that passes validation. *)
Lemma create_lead_accepted {UCD : PyStr.UnicodeData} db now site_slug name phone email service message :
  PyStr.strip name ≠ "" → PyStr.strip phone ≠ "" →
  let site := (find_or_create_site db site_slug).2 in
  let assigned := partner_assigned (Site.partner_email site) in
  let out := create_lead db now site_slug name phone email service message in
  sites (db_after out) = sites (find_or_create_site db site_slug).1 ∧
  leads (db_after out) =
    leads db ++ [Lead.mk (next_rowid (Lead.id <$> leads db)) (Site.id site)
                         name phone email service message (Some now) assigned] ∧
  result out =
    inr (mkLeadResponse (if assigned then routed_message else unrouted_message)).
Proof.
  intros Hn%truthy_true_iff Hp%truthy_true_iff. unfold create_lead.
  rewrite Hn, Hp. simpl negb. simpl orb. cbv iota.
  pose proof (find_or_create_site_leads db site_slug) as Hl.
  destruct (find_or_create_site db site_slug) as [db1 site]. simpl in Hl |- *.
  unfold add_lead. rewrite Hl.
  destruct (partner_assigned (Site.partner_email site)); [|done].
  split_and!; [done| |done].
  destruct db1 as [ss ls]. simpl in Hl. subst ls.
  exact (set_lead_routed_last (mkDB ss (leads db)) (Lead.mk _ _ _ _ _ _ _ _ _) true eq_refl).
Qed.

(** A submission that fails validation: the error, and nothing else
    happens. *)
Lemma create_lead_blank_unchanged {UCD : PyStr.UnicodeData} db now site_slug name phone email service message :
  PyStr.strip name = "" ∨ PyStr.strip phone = "" →
  create_lead db now site_slug name phone email service message =
    mkOutcome db [] (inl (mkHTTPException 400 "Name and phone are required.")).
Proof.
  intros H. unfold create_lead.
  assert (negb (PyStr.truthy (PyStr.strip name))
          || negb (PyStr.truthy (PyStr.strip phone)) = true) as ->; [|done].
  apply orb_true_iff. destruct H as [H|H]; [left|right];
    apply negb_true_iff, truthy_false_iff, H.
Qed.

End IntakeFacts.

(** ** The stated properties of the intake handler *)

Section IntakeClaims.
Import Database App.

(** C2 as stated fails.  A request whose [phone] is the empty string has a
    [phone] that trims to the empty string, and it is answered with status
    422, not 400: the form validation turns it down before the handler
    runs. *)
Lemma post_api_lead_empty_phone_422 :
  let db := mkDB [Site.mk 1 "roofing_denver" "Roofing" "Denver" None]
                 [Lead.mk 1 1 "Al" "555" None None None (Some 10) false] in
  let form := mkLeadForm (Some "roofing_denver") (Some "Jane Doe") (Some "")
                         None None None in
  PyStr.strip "" = "" ∧
  response (post_api_lead db 20 form) = Response422 ["phone"] ∧
  status (response (post_api_lead db 20 form)) ≠ 400.
Proof. done. Qed.

(** C2, amended.  A request whose [name] or [phone] trims to the empty
    string is turned down and leaves the database as it was, with nothing
    printed: neither a Lead nor a Site row is created.  When
    [site_slug], [name] and [phone] were all sent and not empty, the
    handler raises the HTTP 400 error "Name and phone are required.";
    otherwise the answer is the 422 of the form validation, naming the
    fields not sent. *)
Theorem post_api_lead_blank_rejected {UCD : PyStr.UnicodeData} db now form :
  (∃ name, form_name form = Some name ∧ PyStr.strip name = "") ∨
  (∃ phone, form_phone form = Some phone ∧ PyStr.strip phone = "") →
  let served := post_api_lead db now form in
  served_db served = db ∧
  served_printed served = [] ∧
  response served =
    match missing_fields form with
    | [] => ResponseError 400 "Name and phone are required."
    | missing => Response422 missing
    end.
Proof.
  intros Hblank. unfold post_api_lead, missing_fields.
  destruct (form_value (form_site_slug form)) as [site_slug|];
    destruct (form_value (form_name form)) as [name|] eqn:Hname;
    destruct (form_value (form_phone form)) as [phone|] eqn:Hphone; try done.
  rewrite create_lead_blank_unchanged; [done|].
  destruct Hblank as [(name' & Hn & Hs)|(phone' & Hp & Hs)]; [left|right].
  - rewrite Hn in Hname. destruct name'; [done|]. by injection Hname as <-.
  - rewrite Hp in Hphone. destruct phone'; [done|]. by injection Hphone as <-.
Qed.

Lemma post_api_lead_blank_rejected_witness :
  let db := mkDB [Site.mk 1 "roofing_denver" "Roofing" "Denver" None]
                 [Lead.mk 1 1 "Al" "555" None None None (Some 10) false] in
  let form := mkLeadForm (Some "water-damage-restoration_dallas") (Some "Jane Doe")
                         (Some (" " +:+ PyStr.utf8 160 +:+ PyStr.utf8 8195))
                         None None None in
  let served := post_api_lead db 20 form in
  served_db served = db ∧
  served_printed served = [] ∧
  response served = ResponseError 400 "Name and phone are required.".
Proof.
  apply (post_api_lead_blank_rejected
           (mkDB [Site.mk 1 "roofing_denver" "Roofing" "Denver" None]
                 [Lead.mk 1 1 "Al" "555" None None None (Some 10) false]) 20
           (mkLeadForm (Some "water-damage-restoration_dallas") (Some "Jane Doe")
                       (Some (" " +:+ PyStr.utf8 160 +:+ PyStr.utf8 8195))
                       None None None)).
  right. eexists. split; reflexivity.
Defined.

(** C3.  An accepted submission whose slug is unknown and has exactly one
    underscore, between the parts [a] and [b], appends one Site: its slug is
    the submitted slug, its niche is [a] with hyphens turned into spaces and
    title-cased, its city is [b] transformed the same way, and it has no
    partner contact. *)
Theorem create_lead_new_site_two_parts {UCD : PyStr.UnicodeData} db now a b name phone email service message :
  PyStr.strip name ≠ "" → PyStr.strip phone ≠ "" →
  PyStr.count "_" a = 0%nat → PyStr.count "_" b = 0%nat →
  query_site_by_slug db (a +:+ "_" +:+ b) = None →
  let out := create_lead db now (a +:+ "_" +:+ b) name phone email service message in
  sites (db_after out) =
    sites db ++ [Site.mk (next_rowid (Site.id <$> sites db))
                         (a +:+ "_" +:+ b)
                         (PyStr.title (PyStr.replace "-" " " a))
                         (PyStr.title (PyStr.replace "-" " " b))
                         None].
Proof.
  intros Hn Hp Ha Hb Hq out.
  destruct (create_lead_accepted db now (a +:+ "_" +:+ b) name phone email service
              message Hn Hp) as (Hs & _ & _).
  fold out in Hs. rewrite Hs, (find_or_create_site_new _ _ Hq).
  unfold niche_city_of_slug.
  change (a +:+ "_" +:+ b) with (a +:+ String "_" b).
  by rewrite (split_two _ _ _ Ha Hb).
Qed.

Lemma create_lead_new_site_two_parts_witness :
  let out := create_lead (mkDB [] []) 0 "water-damage-restoration_dallas"
                         "Jane Doe" "555-123-4567" None None None in
  sites (db_after out) =
    [Site.mk 1 "water-damage-restoration_dallas" "Water Damage Restoration" "Dallas" None].
Proof.
  apply (create_lead_new_site_two_parts (mkDB [] []) 0 "water-damage-restoration" "dallas"
           "Jane Doe" "555-123-4567" None None None); by vm_compute.
Defined.

(** A slug with a letter above U+007F: with U+00E9 cased, as it is in
    Unicode, the city of "plumbing_montréal" is "Montréal". *)
Example create_lead_cased_letter {UCD : PyStr.UnicodeData} :
  PyStr.ucd_cased (PyStr.utf8 233) = true →
  PyStr.ucd_lower (PyStr.utf8 233) = PyStr.utf8 233 →
  sites (db_after (create_lead (mkDB [] []) 0
                               ("plumbing_montr" +:+ PyStr.utf8 233 +:+ "al")
                               "Jane Doe" "555" None None None)) =
    [Site.mk 1 ("plumbing_montr" +:+ PyStr.utf8 233 +:+ "al") "Plumbing"
             ("Montr" +:+ PyStr.utf8 233 +:+ "al") None].
Proof.
  intros Hc Hl.
  destruct (create_lead_accepted (mkDB [] []) 0
              ("plumbing_montr" +:+ PyStr.utf8 233 +:+ "al") "Jane Doe" "555"
              None None None) as (Hs & _ & _); [done|done|].
  rewrite Hs, find_or_create_site_new by done.
  unfold niche_city_of_slug.
  change (PyStr.split "_" ("plumbing_montr" +:+ PyStr.utf8 233 +:+ "al"))
    with ["plumbing"; "montr" +:+ PyStr.utf8 233 +:+ "al"].
  cbn [length list_fmap fmap sites app].
  change (PyStr.replace "-" " " ("montr" +:+ PyStr.utf8 233 +:+ "al"))
    with ("montr" +:+ PyStr.utf8 233 +:+ "al").
  by rewrite (title_cased_letter Hc Hl).
Qed.

(** C4.  An accepted submission whose slug is unknown and has no underscore,
    or more than one, appends one Site whose city is "Unknown" and whose
    niche is the slug as submitted. *)
Theorem create_lead_new_site_unknown_city {UCD : PyStr.UnicodeData} db now site_slug name phone email service message :
  PyStr.strip name ≠ "" → PyStr.strip phone ≠ "" →
  PyStr.count "_" site_slug ≠ 1%nat →
  query_site_by_slug db site_slug = None →
  let out := create_lead db now site_slug name phone email service message in
  sites (db_after out) =
    sites db ++ [Site.mk (next_rowid (Site.id <$> sites db)) site_slug
                         site_slug "Unknown" None].
Proof.
  intros Hn Hp Hc Hq out.
  destruct (create_lead_accepted db now site_slug name phone email service
              message Hn Hp) as (Hs & _ & _).
  fold out in Hs. rewrite Hs, (find_or_create_site_new _ _ Hq).
  unfold niche_city_of_slug.
  pose proof (split_length "_" site_slug) as Hlen.
  destruct (PyStr.split "_" site_slug) as [|x [|y [|z l]]]; simpl in *; try done.
  lia.
Qed.

Lemma create_lead_new_site_unknown_city_witness :
  let out := create_lead (mkDB [] []) 0 "water-damage-restoration"
                         "Jane Doe" "555-123-4567" None None None in
  sites (db_after out) =
    [Site.mk 1 "water-damage-restoration" "water-damage-restoration" "Unknown" None].
Proof.
  apply (create_lead_new_site_unknown_city (mkDB [] []) 0 "water-damage-restoration"
           "Jane Doe" "555-123-4567" None None None); by vm_compute.
Defined.

Example create_lead_two_underscores :
  sites (db_after (create_lead (mkDB [] []) 0 "water_damage_dallas" "Jane Doe"
                               "555-123-4567" None None None)) =
    [Site.mk 1 "water_damage_dallas" "water_damage_dallas" "Unknown" None].
Proof. reflexivity. Qed.

(** C10.  An accepted submission appends one Lead whose name, phone, email,
    service and message are the submitted values as received: trimming
    happens in the validation test only, so surrounding whitespace is
    stored. *)
Theorem create_lead_stores_fields_verbatim {UCD : PyStr.UnicodeData} db now site_slug name phone email service message :
  PyStr.strip name ≠ "" → PyStr.strip phone ≠ "" →
  let out := create_lead db now site_slug name phone email service message in
  ∃ lead,
    leads (db_after out) = leads db ++ [lead] ∧
    Lead.name lead = name ∧ Lead.phone lead = phone ∧ Lead.email lead = email ∧
    Lead.service lead = service ∧ Lead.message lead = message.
Proof.
  intros Hn Hp out.
  destruct (create_lead_accepted db now site_slug name phone email service
              message Hn Hp) as (_ & Hl & _).
  eexists. split; [exact Hl|done].
Qed.

Lemma create_lead_stores_fields_verbatim_witness :
  let out := create_lead (mkDB [] []) 0 "roofing_denver" "  Jane Doe " " 555-123-4567	"
                         (Some " jane@example.com") None (Some "") in
  ∃ lead,
    leads (db_after out) = [] ++ [lead] ∧
    Lead.name lead = "  Jane Doe " ∧ Lead.phone lead = " 555-123-4567	" ∧
    Lead.email lead = Some " jane@example.com" ∧
    Lead.service lead = None ∧ Lead.message lead = Some "".
Proof.
  apply (create_lead_stores_fields_verbatim (mkDB [] []) 0 "roofing_denver" "  Jane Doe "
           " 555-123-4567	" (Some " jane@example.com") None (Some "")); by vm_compute.
Defined.

(** C9.  When the slug resolves to a Site whose partner contact is the
    empty string (not null, but empty), the routing test, which is a truth
    test on the contact, fails: the new Lead keeps [routed = false] and the
    "we will reach out shortly" message is returned. *)
Theorem create_lead_empty_partner_unrouted {UCD : PyStr.UnicodeData} db now site_slug name phone email service message site :
  PyStr.strip name ≠ "" → PyStr.strip phone ≠ "" →
  query_site_by_slug db site_slug = Some site →
  Site.partner_email site = Some "" →
  let out := create_lead db now site_slug name phone email service message in
  ∃ lead,
    leads (db_after out) = leads db ++ [lead] ∧
    Lead.site_id lead = Site.id site ∧
    Lead.routed lead = false ∧
    result out = inr (mkLeadResponse unrouted_message).
Proof.
  intros Hn Hp Hq He out.
  destruct (create_lead_accepted db now site_slug name phone email service
              message Hn Hp) as (_ & Hl & Hr).
  fold out in Hl, Hr.
  rewrite (find_or_create_site_found _ _ _ Hq) in Hl, Hr. simpl in Hl, Hr.
  rewrite He in Hl, Hr. simpl in Hl, Hr.
  eexists. split; [exact Hl|done].
Qed.

Lemma create_lead_empty_partner_unrouted_witness :
  let site := Site.mk 4 "roofing_denver" "Roofing" "Denver" (Some "") in
  let db := mkDB [site] [] in
  let out := create_lead db 0 "roofing_denver" "Jane Doe" "555-123-4567" None None None in
  ∃ lead,
    leads (db_after out) = leads db ++ [lead] ∧
    Lead.site_id lead = Site.id site ∧
    Lead.routed lead = false ∧
    result out = inr (mkLeadResponse unrouted_message).
Proof.
  apply create_lead_empty_partner_unrouted; by vm_compute.
Defined.

(** C1, as stated, fails when the partner contact is a non-null empty
    string: here the slug resolves to a Site whose contact is [Some ""],
    and the Lead created has [routed = false] with the "we will reach out
    shortly" message. *)
Lemma create_lead_non_null_partner_not_routed :
  let site := Site.mk 1 "plumbing_austin" "Plumbing" "Austin" (Some "") in
  let db := mkDB [site] [] in
  let out := create_lead db 0 "plumbing_austin" "Jane Doe" "555-123-4567" None None None in
  PyStr.strip "Jane Doe" ≠ "" ∧ PyStr.strip "555-123-4567" ≠ "" ∧
  query_site_by_slug db "plumbing_austin" = Some site ∧
  Site.partner_email site ≠ None ∧
  leads (db_after out) =
    [Lead.mk 1 1 "Jane Doe" "555-123-4567" None None None (Some 0) false] ∧
  result out = inr (mkLeadResponse unrouted_message) ∧
  result out ≠ inr (mkLeadResponse routed_message).
Proof. by vm_compute. Qed.

(** C1, amended.  For an accepted submission, let [site] be the Site the
    slug resolves to (the one already there, or the one just created) and
    [lead] the Lead appended.  If [site] has a partner contact that is
    neither null nor the empty string, [lead] has [routed = true] and the
    "routed to our local partner" message is returned; otherwise [lead] has
    [routed = false] and the "we will reach out shortly" message is
    returned. *)
Theorem create_lead_routed_iff_partner_assigned {UCD : PyStr.UnicodeData} db now site_slug name phone email service message :
  PyStr.strip name ≠ "" → PyStr.strip phone ≠ "" →
  let out := create_lead db now site_slug name phone email service message in
  ∃ site lead,
    query_site_by_slug (db_after out) site_slug = Some site ∧
    (∀ site0, query_site_by_slug db site_slug = Some site0 → site = site0) ∧
    leads (db_after out) = leads db ++ [lead] ∧
    Lead.site_id lead = Site.id site ∧
    ((∃ e, Site.partner_email site = Some e ∧ e ≠ "") →
       Lead.routed lead = true ∧
       result out = inr (mkLeadResponse routed_message)) ∧
    (¬ (∃ e, Site.partner_email site = Some e ∧ e ≠ "") →
       Lead.routed lead = false ∧
       result out = inr (mkLeadResponse unrouted_message)).
Proof.
  intros Hn Hp out.
  destruct (create_lead_accepted db now site_slug name phone email service
              message Hn Hp) as (Hs & Hl & Hr).
  fold out in Hs, Hl, Hr.
  exists (find_or_create_site db site_slug).2. eexists.
  split_and!; [| |exact Hl|done| |].
  - unfold query_site_by_slug. rewrite Hs. apply find_or_create_site_resolves.
  - intros site0 Hq. by rewrite (find_or_create_site_found _ _ _ Hq).
  - intros Ha%partner_assigned_true_iff. simpl. rewrite Hr, Ha. done.
  - intros Ha. simpl. rewrite Hr.
    destruct (partner_assigned _) eqn:Hpa; [|done].
    by apply partner_assigned_true_iff in Hpa.
Qed.

Lemma create_lead_routed_iff_partner_assigned_witness :
  let db := mkDB [Site.mk 3 "roofing_denver" "Roofing" "Denver" (Some "ops@roofco.example")] [] in
  let out := create_lead db 50 "roofing_denver" "Jane Doe" "555-123-4567" None None None in
  ∃ site lead,
    query_site_by_slug (db_after out) "roofing_denver" = Some site ∧
    (∀ site0, query_site_by_slug db "roofing_denver" = Some site0 → site = site0) ∧
    leads (db_after out) = leads db ++ [lead] ∧
    Lead.site_id lead = Site.id site ∧
    ((∃ e, Site.partner_email site = Some e ∧ e ≠ "") →
       Lead.routed lead = true ∧
       result out = inr (mkLeadResponse routed_message)) ∧
    (¬ (∃ e, Site.partner_email site = Some e ∧ e ≠ "") →
       Lead.routed lead = false ∧
       result out = inr (mkLeadResponse unrouted_message)).
Proof.
  apply create_lead_routed_iff_partner_assigned; by vm_compute.
Defined.

Example create_lead_routed_example :
  let db := mkDB [Site.mk 3 "roofing_denver" "Roofing" "Denver" (Some "ops@roofco.example")]
                 [Lead.mk 8 3 "Al" "555" None None None (Some 10) false] in
  let out := create_lead db 50 "roofing_denver" "Jane Doe" "555-123-4567" None None None in
  leads (db_after out) =
    [Lead.mk 8 3 "Al" "555" None None None (Some 10) false;
     Lead.mk 9 3 "Jane Doe" "555-123-4567" None None None (Some 50) true] ∧
  printed out = ["Routed lead 9 to partner ops@roofco.example for site roofing_denver"] ∧
  result out = inr (mkLeadResponse routed_message).
Proof. by vm_compute. Qed.

(** C6.  An accepted submission whose slug resolves to an existing Site
    leaves the whole [sites] table as it was.  The one Site write of the
    flow is the creation for an unknown slug: then the table is the old one
    with a single row appended, carrying the submitted slug and no partner
    contact. *)
Theorem create_lead_sites_frame {UCD : PyStr.UnicodeData} db now site_slug name phone email service message :
  PyStr.strip name ≠ "" → PyStr.strip phone ≠ "" →
  let out := create_lead db now site_slug name phone email service message in
  (∀ site, query_site_by_slug db site_slug = Some site →
     sites (db_after out) = sites db) ∧
  (query_site_by_slug db site_slug = None →
     ∃ new, sites (db_after out) = sites db ++ [new] ∧
            Site.slug new = site_slug ∧ Site.partner_email new = None).
Proof.
  intros Hn Hp out.
  destruct (create_lead_accepted db now site_slug name phone email service
              message Hn Hp) as (Hs & _ & _).
  fold out in Hs. split.
  - intros site Hq. by rewrite Hs, (find_or_create_site_found _ _ _ Hq).
  - intros Hq. rewrite Hs, (find_or_create_site_new _ _ Hq). simpl. by eexists.
Qed.

Lemma create_lead_sites_frame_witness :
  let db := mkDB [Site.mk 3 "roofing_denver" "Roofing" "Denver" (Some "ops@roofco.example");
                  Site.mk 5 "plumbing_austin" "Plumbing" "Austin" None] [] in
  let out := create_lead db 50 "plumbing_austin" "Jane Doe" "555-123-4567" None None None in
  (∀ site, query_site_by_slug db "plumbing_austin" = Some site →
     sites (db_after out) = sites db) ∧
  (query_site_by_slug db "plumbing_austin" = None →
     ∃ new, sites (db_after out) = sites db ++ [new] ∧
            Site.slug new = "plumbing_austin" ∧ Site.partner_email new = None).
Proof.
  apply create_lead_sites_frame; by vm_compute.
Defined.

(** C5.  Starting from a database with no Site for a slug, two accepted
    submissions with that slug leave exactly one Site row with the slug,
    the only row added to [sites], and add exactly two Lead rows, both
    referencing that Site, which is the only row with its key. *)
Theorem create_lead_twice_one_site {UCD : PyStr.UnicodeData} db now1 now2 site_slug
    name1 phone1 email1 service1 message1 name2 phone2 email2 service2 message2 :
  PyStr.strip name1 ≠ "" → PyStr.strip phone1 ≠ "" →
  PyStr.strip name2 ≠ "" → PyStr.strip phone2 ≠ "" →
  query_site_by_slug db site_slug = None →
  let out1 := create_lead db now1 site_slug name1 phone1 email1 service1 message1 in
  let out2 := create_lead (db_after out1) now2 site_slug name2 phone2 email2 service2 message2 in
  ∃ site lead1 lead2,
    sites (db_after out2) = sites db ++ [site] ∧
    filter (λ s, Site.slug s = site_slug) (sites (db_after out2)) = [site] ∧
    filter (λ s, Site.id s = Site.id site) (sites (db_after out2)) = [site] ∧
    leads (db_after out2) = leads db ++ [lead1; lead2] ∧
    Lead.site_id lead1 = Site.id site ∧
    Lead.site_id lead2 = Site.id site.
Proof.
  intros Hn1 Hp1 Hn2 Hp2 Hq out1 out2.
  destruct (create_lead_accepted db now1 site_slug name1 phone1 email1 service1
              message1 Hn1 Hp1) as (Hs1 & Hl1 & _).
  destruct (create_lead_accepted (db_after out1) now2 site_slug name2 phone2 email2
              service2 message2 Hn2 Hp2) as (Hs2 & Hl2 & _).
  fold out1 in Hs1, Hl1, Hs2, Hl2. fold out2 in Hs2, Hl2.
  rewrite (find_or_create_site_new _ _ Hq) in Hs1, Hl1. simpl in Hs1, Hl1.
  set (site := Site.mk (next_rowid (Site.id <$> sites db)) site_slug
                 (niche_city_of_slug site_slug).1 (niche_city_of_slug site_slug).2 None)
    in Hs1, Hl1.
  assert (filter (λ s, Site.slug s = site_slug) (sites db ++ [site]) = [site]) as Hf.
  { rewrite filter_app, (filter_slug_none _ _ Hq). simpl. by rewrite filter_cons_True. }
  assert (query_site_by_slug (db_after out1) site_slug = Some site) as Hq1.
  { unfold query_site_by_slug. by rewrite Hs1, Hf. }
  rewrite (find_or_create_site_found _ _ _ Hq1) in Hs2, Hl2. simpl in Hs2, Hl2.
  exists site. eexists. eexists. split_and!.
  - by rewrite Hs2, Hs1.
  - by rewrite Hs2, Hs1.
  - rewrite Hs2, Hs1, filter_app. simpl. rewrite filter_cons_True by done.
    replace (filter (λ s, Site.id s = next_rowid (Site.id <$> sites db)) (sites db))
      with (@nil Site.t); [done|].
    symmetry. apply filter_all_False. intros s0 Hin Heq.
    assert (Site.id s0 ∈ Site.id <$> sites db) as Hid
      by (apply list_elem_of_fmap; by exists s0).
    apply next_rowid_fresh in Hid. lia.
  - rewrite Hl2, Hl1, <- app_assoc. reflexivity.
  - done.
  - done.
Qed.

Lemma create_lead_twice_one_site_witness :
  let db := mkDB [Site.mk 3 "roofing_denver" "Roofing" "Denver" None] [] in
  let out1 := create_lead db 10 "plumbing_austin" "Jane Doe" "555-123-4567" None None None in
  let out2 := create_lead (db_after out1) 20 "plumbing_austin" "John Roe" "555-765-4321"
                          (Some "john@example.com") None None in
  ∃ site lead1 lead2,
    sites (db_after out2) = sites db ++ [site] ∧
    filter (λ s, Site.slug s = "plumbing_austin") (sites (db_after out2)) = [site] ∧
    filter (λ s, Site.id s = Site.id site) (sites (db_after out2)) = [site] ∧
    leads (db_after out2) = leads db ++ [lead1; lead2] ∧
    Lead.site_id lead1 = Site.id site ∧
    Lead.site_id lead2 = Site.id site.
Proof.
  apply create_lead_twice_one_site; by vm_compute.
Defined.

End IntakeClaims.

(** ** The outreach trigger *)

Section OutreachFacts.
Import Database SalesAutomation.

Example timedelta_30_days : timedelta_days 30 = 2592000000000.
Proof. reflexivity. Qed.

Lemma timestamp_ge_iff l cutoff :
  timestamp_ge l cutoff = true ↔ ∃ t, Lead.timestamp l = Some t ∧ cutoff ≤ t.
Proof.
  unfold timestamp_ge. destruct (Lead.timestamp l) as [t|].
  - rewrite Z.leb_le. split; [by exists t|by intros (? & [= <-] & ?)].
  - split; [done|by intros (? & ? & _)].
Qed.

(** When no lead is stamped later than [now], the leads counted are those
    stamped within the thirty days that end at [now]. *)
Lemma recent_lead_count_trailing_window db site now :
  (∀ l t, l ∈ leads db → Lead.timestamp l = Some t → t ≤ now) →
  recent_lead_count db site (now - timedelta_days 30) =
  Z.of_nat (length (filter (λ l, Lead.site_id l = Site.id site ∧
                                 timestamp_within l (now - timedelta_days 30) now = true)
                           (leads db))).
Proof.
  intros Hpast. unfold recent_lead_count. do 2 f_equal.
  induction (leads db) as [|l ls IH]; [done|].
  rewrite !filter_cons.
  rewrite IH by (intros l' t Hin; apply Hpast, elem_of_cons; by right).
  assert (timestamp_ge l (now - timedelta_days 30)
          = timestamp_within l (now - timedelta_days 30) now) as ->; [|done].
  unfold timestamp_ge, timestamp_within.
  destruct (Lead.timestamp l) as [t|] eqn:Ht; [|done].
  assert (t ≤ now) as Hle by (eapply Hpast; [apply elem_of_cons; by left|done]).
  apply Z.leb_le in Hle. by rewrite Hle, andb_true_r.
Qed.

(** The run drafts exactly the outreach of the sites with no partner
    contact whose recent leads reach the threshold. *)
Lemma check_leads_and_trigger_outreach_elem db now o :
  o ∈ check_leads_and_trigger_outreach db now ↔
  ∃ s, s ∈ sites db ∧ Site.partner_email s = None ∧
       LEAD_THRESHOLD ≤ recent_lead_count db s (now - timedelta_days 30) ∧
       o = draft_outreach s (recent_lead_count db s (now - timedelta_days 30)).
Proof.
  unfold check_leads_and_trigger_outreach. rewrite list_elem_of_bind. split.
  - intros (s & Ho & [Hp Hs]%list_elem_of_filter).
    destruct (LEAD_THRESHOLD <=? _) eqn:Hc; [|by apply elem_of_nil in Ho].
    apply list_elem_of_singleton in Ho. apply Z.leb_le in Hc. by exists s.
  - intros (s & Hs & Hp & Hc & ->). exists s. split.
    + apply Z.leb_le in Hc. rewrite Hc. by apply list_elem_of_singleton.
    + by apply list_elem_of_filter.
Qed.

(** C7 as stated fails.  A Site without partner contact whose five Leads
    are stamped after the time of the run has no Lead within the thirty
    days that end at the run, and outreach is drafted for it all the
    same: the query has a lower bound only. *)
Lemma outreach_counts_leads_stamped_after_now :
  let site0 := Site.mk 1 "roofing_denver" "Roofing" "Denver" None in
  let lead_of (id : Z) := Lead.mk id 1 "n" "p" None None None (Some 8726400000000) false in
  let now := 8640000000000 in
  let db := mkDB [site0] (lead_of <$> [1; 2; 3; 4; 5]) in
  (∃ o, o ∈ check_leads_and_trigger_outreach db now ∧ site o = site0) ∧
  Site.partner_email site0 = None ∧
  filter (λ l, Lead.site_id l = Site.id site0 ∧
               timestamp_within l (now - 2592000000000) now = true) (leads db) = [].
Proof.
  split_and!; [|done|done].
  eexists. split; [vm_compute; apply list_elem_of_here|reflexivity].
Qed.

(** C7, amended.  For every database and every time [now] of the run,
    outreach is drafted for a Site if and only if the Site is in the
    table, has no partner contact (null), and at least 5 of its Leads carry
    a timestamp not earlier than 30 days before [now]; Leads stamped after
    [now] count as well.  A Site with a partner contact, or with fewer such
    Leads, gets none. *)
Theorem outreach_iff_unpartnered_and_threshold db now site0 :
  (∃ o, o ∈ check_leads_and_trigger_outreach db now ∧ site o = site0) ↔
  site0 ∈ sites db ∧
  Site.partner_email site0 = None ∧
  5 ≤ Z.of_nat (length (filter (λ l, Lead.site_id l = Site.id site0 ∧
                                     stamped_since (now - 2592000000000) l)
                               (leads db))).
Proof.
  assert (Z.of_nat (length (filter (λ l, Lead.site_id l = Site.id site0 ∧
                                         stamped_since (now - 2592000000000) l)
                                   (leads db)))
          = recent_lead_count db site0 (now - timedelta_days 30)) as ->.
  { unfold recent_lead_count. do 2 f_equal. apply list_filter_iff.
    intros l. by rewrite timestamp_ge_iff. }
  change 5 with LEAD_THRESHOLD. split.
  - intros (o & (s & Hs & Hp & Hc & ->)%check_leads_and_trigger_outreach_elem & <-).
    done.
  - intros (Hs & Hp & Hc). eexists. split.
    + apply check_leads_and_trigger_outreach_elem. by exists site0.
    + done.
Qed.

Example outreach_example :
  let quiet := Site.mk 1 "roofing_denver" "Roofing" "Denver" None in
  let busy := Site.mk 2 "plumbing_austin" "Plumbing" "Austin" None in
  let taken := Site.mk 3 "hvac_reno" "Hvac" "Reno" (Some "ops@hvac.example") in
  let lead_of (site_id t : Z) := Lead.mk 0 site_id "n" "p" None None None (Some t) false in
  let now := timedelta_days 100 in
  let db := mkDB [quiet; busy; taken]
                 ((lead_of 2 ∘ timedelta_days <$> [70; 71; 80; 90; 100; 69])
                  ++ (lead_of 3 ∘ timedelta_days <$> [95; 96; 97; 98; 99])
                  ++ (lead_of 1 ∘ timedelta_days <$> [96; 97; 98; 99])) in
  check_leads_and_trigger_outreach db now = [draft_outreach busy 5].
Proof. by vm_compute. Qed.

End OutreachFacts.

(** ** Site generation *)

Section GeneratorFacts.
Import GenerateSite.

Context {UCD : PyStr.UnicodeData}.
Context (DATA_DIR TEMPLATE_DIR OUTPUT_DIR STATIC_SRC : string).
Context (json_loads : string → option json) (json_dumps : json → string).
Context (jinja_render : string → gmap string json → PyError + string).

Abbreviation main := (main DATA_DIR TEMPLATE_DIR OUTPUT_DIR STATIC_SRC
                           json_loads json_dumps jinja_render).

Lemma truthy_empty_list : truthy (JList []) = false.
Proof. reflexivity. Qed.

(** [load_top_niche] on a file holding the empty list raises [ValueError]
    and changes nothing. *)
Lemma load_top_niche_empty data_path text (w : World) :
  files w !! data_path = Some text →
  json_loads text = Some (JList []) →
  load_top_niche json_loads data_path w =
    (w, inl (ValueError "No niche data found. Run niche_selection.py first.")).
Proof.
  intros Hf Hj. unfold load_top_niche, bind, read_file. by rewrite Hf, Hj.
Qed.

(** C8.  When the ranked-niche file [top_niches.json] is absent, [main]
    raises [FileNotFoundError] naming the path; when the file is there and
    holds the empty list, [main] raises [ValueError] "No niche data found.
    Run niche_selection.py first.".  In both cases the world is left as it
    was: no file is written, no directory made, nothing printed. *)
Theorem main_fails_without_niche_data (year : Z) (w : World) :
  let json_path := path_join DATA_DIR "top_niches.json" in
  (files w !! json_path = None ∧ json_path ∉ dirs w) ∨
  (∃ text, files w !! json_path = Some text ∧ json_loads text = Some (JList [])) →
  ∃ e, main year w = (w, inl e) ∧
       (files w !! json_path = None →
          e = FileNotFoundError (json_path +:+ " not found. Run niche_selection.py first.")) ∧
       (is_Some (files w !! json_path) →
          e = ValueError "No niche data found. Run niche_selection.py first.").
Proof.
  intros json_path [[Hf Hd]|(text & Hf & Hj)].
  - eexists. split_and!.
    + unfold GenerateSite.main, bind, path_exists. fold json_path.
      rewrite Hf. rewrite (bool_decide_eq_false_2 (is_Some None)) by (by intros [? ?]).
      rewrite (bool_decide_eq_false_2 _ Hd). reflexivity.
    + done.
    + rewrite Hf. by intros [? ?].
  - eexists. split_and!.
    + unfold GenerateSite.main, bind at 1, path_exists. fold json_path.
      rewrite Hf. rewrite (bool_decide_eq_true_2 (is_Some (Some text))) by done.
      simpl. unfold bind. rewrite (load_top_niche_empty _ _ _ Hf Hj). reflexivity.
    + by rewrite Hf.
    + done.
Qed.

End GeneratorFacts.

Lemma main_fails_without_niche_data_witness :
  let loads := λ text : string,
    if decide (text = "[]") then Some (GenerateSite.JList []) else None in
  let dumps := λ _ : GenerateSite.json, "{}" in
  let jinja := λ (source : string) (_ : gmap string GenerateSite.json),
    inr source : GenerateSite.PyError + string in
  let main := GenerateSite.main "/srv/data" "/srv/site_generator/templates" "/srv/output"
                "/srv/site_generator/static" loads dumps jinja 2026 in
  let json_path := GenerateSite.path_join "/srv/data" "top_niches.json" in
  let bare := GenerateSite.mkWorld ∅ ∅ [] in
  let empty_list := GenerateSite.mkWorld {[ "/srv/data/top_niches.json" := "[]" ]} ∅ [] in
  (∃ e, main bare = (bare, inl e) ∧
        (GenerateSite.files bare !! json_path = None →
           e = GenerateSite.FileNotFoundError
                 (json_path +:+ " not found. Run niche_selection.py first.")) ∧
        (is_Some (GenerateSite.files bare !! json_path) →
           e = GenerateSite.ValueError "No niche data found. Run niche_selection.py first.")) ∧
  (∃ e, main empty_list = (empty_list, inl e) ∧
        (GenerateSite.files empty_list !! json_path = None →
           e = GenerateSite.FileNotFoundError
                 (json_path +:+ " not found. Run niche_selection.py first.")) ∧
        (is_Some (GenerateSite.files empty_list !! json_path) →
           e = GenerateSite.ValueError "No niche data found. Run niche_selection.py first.")).
Proof.
  intros loads dumps jinja main json_path bare empty_list. split.
  - apply (main_fails_without_niche_data "/srv/data" "/srv/site_generator/templates"
             "/srv/output" "/srv/site_generator/static" loads dumps jinja 2026 bare).
    left. split; [reflexivity|]. apply not_elem_of_empty.
  - apply (main_fails_without_niche_data "/srv/data" "/srv/site_generator/templates"
             "/srv/output" "/srv/site_generator/static" loads dumps jinja 2026 empty_list).
    right. exists "[]". split; [|reflexivity]. vm_compute. reflexivity.
Defined.

(** With a ranked niche in place the run does write the site: the error
    paths above are the ones that leave the output untouched. *)
Example main_writes_site :
  let loads := λ text : string,
    if decide (text = "[...]")
    then Some (GenerateSite.JList
                 [GenerateSite.JDict [("rank", GenerateSite.JInt 1);
                                      ("niche", GenerateSite.JStr "Water Damage Restoration");
                                      ("city", GenerateSite.JStr "Dallas")]])
    else None in
  let dumps := λ _ : GenerateSite.json, "{}" in
  let jinja := λ (source : string) (_ : gmap string GenerateSite.json),
    inr source : GenerateSite.PyError + string in
  let w := GenerateSite.mkWorld
             (list_to_map [("/srv/data/top_niches.json", "[...]");
                           ("/srv/site_generator/templates/home.html", "home");
                           ("/srv/site_generator/templates/service.html", "service");
                           ("/srv/site_generator/templates/faq.html", "faq")]) ∅ [] in
  let out := GenerateSite.main "/srv/data" "/srv/site_generator/templates" "/srv/output"
               "/srv/site_generator/static" loads dumps jinja 2026 w in
  out.2 = inr () ∧
  GenerateSite.files out.1 !! "/srv/output/water-damage-restoration_dallas/index.html"
    = Some "home" ∧
  GenerateSite.files out.1 !! "/srv/output/water-damage-restoration_dallas/robots.txt"
    = Some "User-agent: *
Allow: /
Sitemap: /water-damage-restoration_dallas/sitemap.xml
" ∧
  GenerateSite.stdout out.1 =
    ["Generated site for Water Damage Restoration in Dallas at /srv/output/water-damage-restoration_dallas"].
Proof. vm_compute. done. Qed.

(** * Further properties of the code *)

(** ** The intake handler, one call *)

Section IntakeMore.
Import Database App Traffic.

(** A submission either fails validation or passes it. *)
Lemma blank_or_accepted name phone :
  (PyStr.strip name = "" ∨ PyStr.strip phone = "") ∨
  (PyStr.strip name ≠ "" ∧ PyStr.strip phone ≠ "").
Proof.
  destruct (decide (PyStr.strip name = "")); [by left; left|].
  destruct (decide (PyStr.strip phone = "")); [by left; right|by right].
Qed.

(** X1.  Called with its arguments, the handler raises the 400 error
    exactly when [name] or [phone] holds whitespace characters only (the
    empty text included): tabs, line breaks, the no-break space and every
    other character [str.isspace] accepts count as blank. *)
Theorem create_lead_rejects_iff_all_whitespace {UCD : PyStr.UnicodeData} db now site_slug name phone email service message :
  result (create_lead db now site_slug name phone email service message)
    = inl (mkHTTPException 400 "Name and phone are required.") ↔
  PyStr.all_whitespace name = true ∨ PyStr.all_whitespace phone = true.
Proof.
  rewrite <- !strip_empty_iff.
  destruct (blank_or_accepted name phone) as [Hb|[Hn Hp]].
  - by rewrite (create_lead_blank_unchanged _ _ _ _ _ _ _ _ Hb).
  - destruct (create_lead_accepted db now site_slug name phone email service
                message Hn Hp) as (_ & _ & Hr).
    rewrite Hr. split; [done|]. by intros [?|?].
Qed.

Example create_lead_rejects_no_break_space :
  result (create_lead (mkDB [] []) 0 "roofing_denver" (PyStr.utf8 160) "555"
                      None None None)
    = inl (mkHTTPException 400 "Name and phone are required.").
Proof. reflexivity. Qed.

Example create_lead_rejects_line_breaks :
  result (create_lead (mkDB [] []) 0 "roofing_denver" "Jane" (String "010" (String "013" ""))
                      None None None)
    = inl (mkHTTPException 400 "Name and phone are required.").
Proof. reflexivity. Qed.

Lemma next_rowid_not_in (ids : list Z) : next_rowid ids ∉ ids.
Proof. intros H%next_rowid_fresh. lia. Qed.

Lemma NoDup_snoc_fresh (ids : list Z) : NoDup ids → NoDup (ids ++ [next_rowid ids]).
Proof.
  intros H. apply NoDup_app. split_and!; [done| |apply NoDup_singleton].
  intros x Hx ->%list_elem_of_singleton. by apply next_rowid_not_in in Hx.
Qed.

Lemma find_or_create_site_consistent {UCD : PyStr.UnicodeData} db site_slug :
  NoDup (Site.id <$> sites db) → NoDup (Site.slug <$> sites db) →
  let r := find_or_create_site db site_slug in
  NoDup (Site.id <$> sites r.1) ∧ NoDup (Site.slug <$> sites r.1) ∧
  r.2 ∈ sites r.1 ∧ (∀ s, s ∈ sites db → s ∈ sites r.1).
Proof.
  intros Hid Hslug. destruct (query_site_by_slug db site_slug) as [site|] eqn:Hq.
  - rewrite (find_or_create_site_found _ _ _ Hq). simpl.
    by apply query_site_by_slug_Some in Hq as [? _].
  - rewrite (find_or_create_site_new _ _ Hq). simpl. rewrite !fmap_app. simpl.
    split_and!.
    + by apply NoDup_snoc_fresh.
    + apply NoDup_app. split_and!; [done| |apply NoDup_singleton].
      intros x (s & -> & Hs)%list_elem_of_fmap Heq%list_elem_of_singleton.
      by eapply query_site_by_slug_None in Hq.
    + apply elem_of_app. right. by apply list_elem_of_singleton.
    + intros s Hs. apply elem_of_app. by left.
Qed.

(** One call.  Whatever is submitted, the handler keeps the schema's
    constraints: keys stay unique, slugs stay unique, every lead references
    a site. *)
Lemma create_lead_consistent {UCD : PyStr.UnicodeData} db now site_slug name phone email service message :
  consistent db →
  consistent (db_after (create_lead db now site_slug name phone email service message)).
Proof.
  intros [Hsk Hsl Hlk Hfk].
  destruct (blank_or_accepted name phone) as [Hb|[Hn Hp]].
  { by rewrite (create_lead_blank_unchanged _ _ _ _ _ _ _ _ Hb). }
  destruct (create_lead_accepted db now site_slug name phone email service
              message Hn Hp) as (Hs & Hl & _).
  destruct (find_or_create_site_consistent db site_slug Hsk Hsl) as (Hk' & Hs' & Hin & Hmono).
  split.
  - by rewrite Hs.
  - by rewrite Hs.
  - rewrite Hl, fmap_app. by apply NoDup_snoc_fresh.
  - rewrite Hl, Hs. intros l [Hl0| ->%list_elem_of_singleton]%elem_of_app.
    + apply Hfk in Hl0 as (s & -> & Hs0)%list_elem_of_fmap.
      apply list_elem_of_fmap. exists s. split; [done|]. by apply Hmono.
    + simpl. apply list_elem_of_fmap. by eexists.
Qed.

End IntakeMore.

(** ** The intake handler under traffic, and the outreach trigger *)

Section TrafficFacts.
Import Database App SalesAutomation Traffic.

Lemma submit_all_snoc {UCD : PyStr.UnicodeData} db subs s :
  submit_all db (subs ++ [s]) = db_after (submit (submit_all db subs) s).
Proof. unfold submit_all. by rewrite foldl_app. Qed.

(** X2.  Under any sequence of submissions, valid or not, the handler keeps
    the constraints of the schema: unique site keys, unique slugs, unique
    lead keys, and every lead referencing an existing site. *)
Theorem submit_all_consistent {UCD : PyStr.UnicodeData} subs db :
  consistent db → consistent (submit_all db subs).
Proof.
  revert db. induction subs as [|s subs IH]; intros db Hdb; [done|].
  simpl. apply IH. by apply create_lead_consistent.
Qed.

Lemma submit_all_consistent_witness :
  consistent (submit_all (mkDB [] [])
                [mkSubmission 10 "roofing_denver" "Jane Doe" "555-123-4567" None None None;
                 mkSubmission 11 "roofing_denver" " " "555" None None None;
                 mkSubmission 12 "plumbing" "John Roe" "555-765-4321" None None None]).
Proof.
  apply submit_all_consistent.
  split; simpl; [apply NoDup_nil_2..|]. intros l Hl. by apply elem_of_nil in Hl.
Defined.

(** One call on a database whose sites all lack a partner. *)
Lemma create_lead_partnerless {UCD : PyStr.UnicodeData} db now site_slug name phone email service message :
  (∀ s, s ∈ sites db → Site.partner_email s = None) →
  let out := create_lead db now site_slug name phone email service message in
  (∀ s, s ∈ sites (db_after out) → Site.partner_email s = None) ∧
  (∀ l, l ∈ leads (db_after out) → l ∈ leads db ∨ Lead.routed l = false) ∧
  result out ≠ inr (mkLeadResponse routed_message).
Proof.
  intros Hdb out. unfold out.
  destruct (blank_or_accepted name phone) as [Hb|[Hn Hp]].
  { rewrite (create_lead_blank_unchanged _ _ _ _ _ _ _ _ Hb). simpl. by auto. }
  destruct (create_lead_accepted db now site_slug name phone email service
              message Hn Hp) as (Hs & Hl & Hr).
  assert (∀ s, s ∈ sites (find_or_create_site db site_slug).1 →
               Site.partner_email s = None) as Hsites.
  { destruct (query_site_by_slug db site_slug) as [site|] eqn:Hq.
    - by rewrite (find_or_create_site_found _ _ _ Hq).
    - rewrite (find_or_create_site_new _ _ Hq). simpl.
      intros s [?| ->%list_elem_of_singleton]%elem_of_app; by auto. }
  assert (Site.partner_email (find_or_create_site db site_slug).2 = None) as Hnone.
  { apply Hsites. pose proof (find_or_create_site_resolves db site_slug) as Hq.
    by apply query_site_by_slug_Some in Hq as [? _]. }
  rewrite Hnone in Hl, Hr. simpl in Hl, Hr. split_and!.
  - by rewrite Hs.
  - rewrite Hl. intros l [?| ->%list_elem_of_singleton]%elem_of_app; by auto.
  - by rewrite Hr.
Qed.

(** X3.  Intake alone never routes.  Starting from a database in which no
    site has a partner contact, after any sequence of submissions still no
    site has one, every lead added is unrouted, and no further submission
    is answered with the "routed" message. *)
Theorem intake_alone_never_routes {UCD : PyStr.UnicodeData} subs db s :
  (∀ site, site ∈ sites db → Site.partner_email site = None) →
  let db' := submit_all db subs in
  (∀ site, site ∈ sites db' → Site.partner_email site = None) ∧
  (∀ l, l ∈ leads db' → l ∈ leads db ∨ Lead.routed l = false) ∧
  result (submit db' s) ≠ inr (mkLeadResponse routed_message).
Proof.
  intros Hdb db'.
  assert ((∀ site, site ∈ sites db' → Site.partner_email site = None) ∧
          (∀ l, l ∈ leads db' → l ∈ leads db ∨ Lead.routed l = false)) as [Hs Hl].
  { unfold db'. clear s db'. induction subs as [|s subs IH] using rev_ind; [by auto|].
    rewrite submit_all_snoc. destruct IH as [IHs IHl].
    destruct (create_lead_partnerless (submit_all db subs) (at_time s) (site_slug s)
                (name s) (phone s) (email s) (service s) (message s) IHs)
      as (Hs & Hl & _).
    split; [done|]. intros l [Hold|?]%Hl; [by apply IHl|by right]. }
  split_and!; [done..|].
  by destruct (create_lead_partnerless db' (at_time s) (site_slug s) (name s) (phone s)
                 (email s) (service s) (message s) Hs) as (_ & _ & ?).
Qed.

Lemma intake_alone_never_routes_witness :
  let db' := submit_all (mkDB [Site.mk 4 "roofing_denver" "Roofing" "Denver" None] [])
               [mkSubmission 10 "roofing_denver" "Jane Doe" "555-123-4567" None None None;
                mkSubmission 12 "plumbing_austin" "John Roe" "555-765-4321" None None None] in
  (∀ site, site ∈ sites db' → Site.partner_email site = None) ∧
  (∀ l, l ∈ leads db' → l ∈ [] ∨ Lead.routed l = false) ∧
  result (submit db' (mkSubmission 13 "roofing_denver" "Al" "555" None None None))
    ≠ inr (mkLeadResponse routed_message).
Proof.
  apply (intake_alone_never_routes _ (mkDB [Site.mk 4 "roofing_denver" "Roofing" "Denver" None] [])).
  intros site ->%list_elem_of_singleton. reflexivity.
Defined.

End TrafficFacts.

Section OutreachMore.
Import Database App SalesAutomation Traffic.

(** X9.  One run drafts exactly one outreach per qualifying row of [sites],
    in table order: the sites of the list drafted are the rows with no
    partner contact whose recent leads reach the threshold. *)
Theorem outreach_sites_in_table_order db now :
  site <$> check_leads_and_trigger_outreach db now =
  filter (λ s, Site.partner_email s = None ∧
               LEAD_THRESHOLD ≤ recent_lead_count db s (now - timedelta_days 30))
         (sites db).
Proof.
  unfold check_leads_and_trigger_outreach.
  induction (sites db) as [|s ss IH]; [done|].
  rewrite !filter_cons. destruct (decide (Site.partner_email s = None)) as [Hp|Hp].
  - rewrite bind_cons, fmap_app, IH.
    destruct (LEAD_THRESHOLD <=? _) eqn:Hc.
    + apply Z.leb_le in Hc. by rewrite decide_True.
    + apply Z.leb_gt in Hc. rewrite decide_False; [done|]. intros [_ ?]. lia.
  - rewrite IH, decide_False; [done|]. by intros [? _].
Qed.

(** The leads counted for a site only grow when a lead is appended. *)
Lemma recent_lead_count_app db db' (new : list Lead.t) s cutoff :
  leads db' = leads db ++ new →
  recent_lead_count db s cutoff ≤ recent_lead_count db' s cutoff.
Proof.
  intros Hl. unfold recent_lead_count. rewrite Hl, filter_app, length_app. lia.
Qed.

Lemma create_lead_grows {UCD : PyStr.UnicodeData} db now site_slug name phone email service message :
  let db' := db_after (create_lead db now site_slug name phone email service message) in
  (∀ s, s ∈ sites db → s ∈ sites db') ∧ ∃ new, leads db' = leads db ++ new.
Proof.
  simpl. destruct (blank_or_accepted name phone) as [Hb|[Hn Hp]].
  { rewrite (create_lead_blank_unchanged _ _ _ _ _ _ _ _ Hb). simpl.
    split; [done|]. exists []. by rewrite app_nil_r. }
  destruct (create_lead_accepted db now site_slug name phone email service
              message Hn Hp) as (Hs & Hl & _).
  split; [|by eexists]. rewrite Hs. intros s Hin.
  destruct (query_site_by_slug db site_slug) as [site|] eqn:Hq.
  - by rewrite (find_or_create_site_found _ _ _ Hq).
  - rewrite (find_or_create_site_new _ _ Hq). simpl. apply elem_of_app. by left.
Qed.

(** X6.  Intake never cancels a due outreach: if a run at [now] would draft
    outreach for a site, it still does after any sequence of submissions,
    and the number of leads it reports has not gone down. *)
Theorem intake_keeps_outreach_due {UCD : PyStr.UnicodeData} subs db now o :
  o ∈ check_leads_and_trigger_outreach db now →
  ∃ o', o' ∈ check_leads_and_trigger_outreach (submit_all db subs) now ∧
        site o' = site o ∧ count o ≤ count o'.
Proof.
  revert db o. induction subs as [|s subs IH]; intros db o Ho.
  { exists o. split_and!; [done|done|lia]. }
  simpl.
  destruct (create_lead_grows db (at_time s) (Traffic.site_slug s) (name s) (phone s)
              (email s) (service s) (message s)) as [Hsites [new Hleads]].
  apply check_leads_and_trigger_outreach_elem in Ho as (s0 & Hs0 & Hp & Hc & ->).
  fold (submit db s) in Hsites, Hleads.
  set (db1 := db_after (submit db s)) in *.
  pose proof (recent_lead_count_app db db1 new s0 (now - timedelta_days 30) Hleads) as Hle.
  destruct (IH db1 (draft_outreach s0 (recent_lead_count db1 s0 (now - timedelta_days 30))))
    as (o' & Ho' & Hsite & Hcount).
  { apply check_leads_and_trigger_outreach_elem. exists s0.
    split_and!; [by apply Hsites|done|lia|done]. }
  exists o'. split_and!; [done|done|]. simpl in *. lia.
Qed.

Lemma intake_keeps_outreach_due_witness :
  let quiet := Site.mk 1 "roofing_denver" "Roofing" "Denver" None in
  let lead_at (t : Z) := Lead.mk 0 1 "n" "p" None None None (Some t) false in
  let db := mkDB [quiet] (lead_at <$> [1; 2; 3; 4; 5]) in
  let subs := [mkSubmission 6 "roofing_denver" "Jane Doe" "555-123-4567" None None None] in
  ∃ o', o' ∈ check_leads_and_trigger_outreach (submit_all db subs) 7 ∧
        site o' = site (draft_outreach quiet 5) ∧ count (draft_outreach quiet 5) ≤ count o'.
Proof.
  apply intake_keeps_outreach_due. vm_compute. apply list_elem_of_here.
Defined.

(** X11.  A site whose partner contact is the empty string gets neither
    routing nor outreach: no run, at any time and whatever the leads, drafts
    outreach for it, and a submission for its slug is answered with the
    "we will reach out shortly" message. *)
Theorem empty_partner_no_outreach_no_routing {UCD : PyStr.UnicodeData} db now t site_slug name phone email service message s :
  query_site_by_slug db site_slug = Some s →
  Site.partner_email s = Some "" →
  (∀ o, o ∈ check_leads_and_trigger_outreach db now → site o ≠ s) ∧
  result (create_lead db t site_slug name phone email service message)
    ≠ inr (mkLeadResponse routed_message).
Proof.
  intros Hq He. split.
  - intros o (s0 & _ & Hp & _ & ->)%check_leads_and_trigger_outreach_elem Heq.
    simpl in Heq. subst s0. congruence.
  - destruct (blank_or_accepted name phone) as [Hb|[Hn Hp]].
    { by rewrite (create_lead_blank_unchanged _ _ _ _ _ _ _ _ Hb). }
    destruct (create_lead_accepted db t site_slug name phone email service
                message Hn Hp) as (_ & _ & Hr).
    rewrite Hr, (find_or_create_site_found _ _ _ Hq). simpl. by rewrite He.
Qed.

Lemma empty_partner_no_outreach_no_routing_witness :
  let s := Site.mk 1 "roofing_denver" "Roofing" "Denver" (Some "") in
  let lead_at (t : Z) := Lead.mk 0 1 "n" "p" None None None (Some t) false in
  let db := mkDB [s] (lead_at <$> [1; 2; 3; 4; 5; 6]) in
  (∀ o, o ∈ check_leads_and_trigger_outreach db 7 → site o ≠ s) ∧
  result (create_lead db 8 "roofing_denver" "Jane Doe" "555-123-4567" None None None)
    ≠ inr (mkLeadResponse routed_message).
Proof.
  apply empty_partner_no_outreach_no_routing; reflexivity.
Defined.

End OutreachMore.

Section OutreachAfterTraffic.
Import Database App SalesAutomation Traffic.

Lemma filter_length_all {A} (P : A → Prop) `{!∀ x, Decision (P x)} (l : list A) :
  Forall P l → length (filter P l) = length l.
Proof.
  induction 1 as [|x l Hx _ IH]; [done|].
  rewrite filter_cons_True by done. simpl. by rewrite IH.
Qed.

(** Accepted submissions for a slug that resolves leave [sites] alone and
    append one lead each, referencing the resolved site and stamped with
    the time of the submission. *)
Lemma submit_all_resolved {UCD : PyStr.UnicodeData} subs db slug s :
  query_site_by_slug db slug = Some s →
  Forall (λ sub, PyStr.strip (name sub) ≠ "" ∧ PyStr.strip (phone sub) ≠ "" ∧
                 Traffic.site_slug sub = slug) subs →
  sites (submit_all db subs) = sites db ∧
  ∃ new, leads (submit_all db subs) = leads db ++ new ∧
         Forall2 (λ l sub, Lead.site_id l = Site.id s ∧
                           Lead.timestamp l = Some (at_time sub)) new subs.
Proof.
  revert db. induction subs as [|sub subs IH]; intros db Hq Hall.
  { split; [done|]. exists []. by rewrite app_nil_r. }
  apply Forall_cons in Hall as [(Hn & Hp & Hslug) Hall]. simpl.
  destruct (create_lead_accepted db (at_time sub) (Traffic.site_slug sub) (name sub)
              (phone sub) (email sub) (service sub) (message sub) Hn Hp)
    as (Hs & Hl & _).
  fold (submit db sub) in Hs, Hl. rewrite Hslug in Hs, Hl.
  rewrite (find_or_create_site_found _ _ _ Hq) in Hs, Hl. simpl in Hs, Hl.
  destruct (IH (db_after (submit db sub))) as (Hs' & new & Hl' & Hnew); [|done|].
  { unfold query_site_by_slug in *. by rewrite Hs. }
  split; [by rewrite Hs', Hs|].
  eexists (_ :: new). split.
  - rewrite Hl', Hl, <- app_assoc. reflexivity.
  - by constructor.
Qed.

(** X5.  Enough intake triggers outreach.  If a slug is unknown, or
    resolves to a site with no partner contact, then after at least five
    accepted submissions for it, each made no earlier than 30 days before
    [now], a run at [now] drafts outreach for the site of that slug and
    reports at least as many leads as were submitted. *)
Theorem outreach_after_enough_leads {UCD : PyStr.UnicodeData} subs db slug now :
  (∀ s, query_site_by_slug db slug = Some s → Site.partner_email s = None) →
  Forall (λ sub, PyStr.strip (name sub) ≠ "" ∧ PyStr.strip (phone sub) ≠ "" ∧
                 Traffic.site_slug sub = slug ∧
                 now - timedelta_days 30 ≤ at_time sub) subs →
  LEAD_THRESHOLD ≤ Z.of_nat (length subs) →
  ∃ o, o ∈ check_leads_and_trigger_outreach (submit_all db subs) now ∧
       Site.slug (site o) = slug ∧
       Z.of_nat (length subs) ≤ count o.
Proof.
  intros Hpartner Hall Hlen.
  destruct subs as [|sub subs]; [by compute in Hlen|].
  apply Forall_cons in Hall as [(Hn & Hp & Hslug & Ht) Hall]. simpl submit_all.
  destruct (create_lead_accepted db (at_time sub) (Traffic.site_slug sub) (name sub)
              (phone sub) (email sub) (service sub) (message sub) Hn Hp)
    as (Hs & Hl & _).
  fold (submit db sub) in Hs, Hl. rewrite Hslug in Hs, Hl.
  set (db1 := db_after (submit db sub)) in *.
  set (s := (find_or_create_site db slug).2) in *.
  assert (query_site_by_slug db1 slug = Some s) as Hq1.
  { unfold query_site_by_slug. rewrite Hs. apply find_or_create_site_resolves. }
  assert (Site.partner_email s = None) as Hnone.
  { unfold s. destruct (query_site_by_slug db slug) as [s0|] eqn:Hq.
    - rewrite (find_or_create_site_found _ _ _ Hq). by apply Hpartner.
    - by rewrite (find_or_create_site_new _ _ Hq). }
  destruct (submit_all_resolved subs db1 slug s Hq1) as (Hs' & new & Hl' & Hnew).
  { eapply Forall_impl; [exact Hall|]. simpl. intros x (? & ? & ? & _). done. }
  set (db2 := submit_all db1 subs) in *.
  set (cutoff := now - timedelta_days 30) in *.
  assert (Z.of_nat (length (sub :: subs)) ≤ recent_lead_count db2 s cutoff) as Hcount.
  { unfold recent_lead_count. rewrite Hl', Hl, <- app_assoc, filter_app, length_app.
    rewrite (filter_length_all _ ([_] ++ new)).
    - simpl. rewrite (Forall2_length _ _ _ Hnew). lia.
    - apply Forall_app. split.
      + apply Forall_singleton. simpl. split; [done|].
        unfold timestamp_ge. simpl. by apply Z.leb_le.
      + clear -Hnew Hall. induction Hnew as [|l x new subs [Hid Hts] _ IH]; [done|].
        apply Forall_cons in Hall as [(_ & _ & _ & Ht) Hall].
        constructor; [|by apply IH]. split; [done|].
        unfold timestamp_ge. rewrite Hts. by apply Z.leb_le. }
  exists (draft_outreach s (recent_lead_count db2 s cutoff)). split_and!.
  - apply check_leads_and_trigger_outreach_elem. exists s.
    split_and!; [|done|by etrans|done].
    rewrite Hs'. by apply query_site_by_slug_Some in Hq1 as [? _].
  - simpl. by apply query_site_by_slug_Some in Hq1 as [_ ?].
  - done.
Qed.

Lemma outreach_after_enough_leads_witness :
  let post (t : Z) := mkSubmission t "roofing_denver" "Jane Doe" "555-123-4567" None None None in
  let subs := post <$> [timedelta_days 70; timedelta_days 75; timedelta_days 80;
                        timedelta_days 90; timedelta_days 100] in
  ∃ o, o ∈ check_leads_and_trigger_outreach (submit_all (mkDB [] []) subs) (timedelta_days 100) ∧
       Site.slug (site o) = "roofing_denver" ∧
       Z.of_nat (length subs) ≤ count o.
Proof.
  apply outreach_after_enough_leads.
  - intros s Hs. discriminate Hs.
  - repeat constructor; by vm_compute.
  - by vm_compute.
Defined.

End OutreachAfterTraffic.

(** ** The slug of the generator, read back by the intake handler *)

Section SlugRoundTrip.
Import Database App GenerateSite.

Ltac by_cases_on_char c :=
  destruct c as [[] [] [] [] [] [] [] []]; vm_compute; reflexivity.

Lemma iscased_to_lower c :
  PyStr.isupper (PyStr.to_lower c) || PyStr.islower (PyStr.to_lower c)
  = PyStr.isupper c || PyStr.islower c.
Proof. by_cases_on_char c. Qed.

Lemma to_lower_to_lower c : PyStr.to_lower (PyStr.to_lower c) = PyStr.to_lower c.
Proof. by_cases_on_char c. Qed.

Lemma to_upper_to_lower c : PyStr.to_upper (PyStr.to_lower c) = PyStr.to_upper c.
Proof. by_cases_on_char c. Qed.

Lemma to_lower_ascii c :
  (N_of_ascii (PyStr.to_lower c) <? 128)%N = (N_of_ascii c <? 128)%N.
Proof. by_cases_on_char c. Qed.

(** Hyphenating a character neither makes nor removes an underscore. *)
Lemma hyphenate_underscore s :
  PyStr.count "_" (PyStr.replace " " "-" s) = PyStr.count "_" s.
Proof.
  induction s as [|c s IH]; [done|].
  cbn [PyStr.replace PyStr.count]. rewrite IH. f_equal.
  by destruct (decide (c = " "%char)) as [->|Hc].
Qed.

(** Un-hyphenating a hyphenated lower-cased character gives the lower-cased
    character back, unless it was a hyphen to begin with. *)
Lemma slug_char_back c :
  bool_decide (c = "-"%char)
  || bool_decide
       ((let d := if decide (PyStr.to_lower c = " "%char) then "-"%char
                  else PyStr.to_lower c in
         if decide (d = "-"%char) then " "%char else d) = PyStr.to_lower c) = true.
Proof. by_cases_on_char c. Qed.

Lemma ascii_lower_is_ascii s : PyStr.is_ascii (PyStr.ascii_lower s) = PyStr.is_ascii s.
Proof.
  unfold PyStr.is_ascii. induction s as [|c s IH]; [done|].
  cbn [PyStr.ascii_lower PyStr.all_chars]. by rewrite IH, to_lower_ascii.
Qed.

(** On ASCII text [title] does not look at the case of its input. *)
Lemma ascii_title_from_lower prev s :
  PyStr.ascii_title_from prev (PyStr.ascii_lower s) = PyStr.ascii_title_from prev s.
Proof.
  revert prev. induction s as [|c s IH]; intros prev; [done|].
  cbn [PyStr.ascii_lower PyStr.ascii_title_from].
  by rewrite iscased_to_lower, to_lower_to_lower, to_upper_to_lower, IH.
Qed.

Lemma title_lower_ascii {UCD : PyStr.UnicodeData} s :
  PyStr.is_ascii s = true → PyStr.title (PyStr.lower s) = PyStr.title s.
Proof.
  intros Hs. rewrite (lower_ascii s Hs), (title_ascii s Hs).
  rewrite title_ascii by (by rewrite ascii_lower_is_ascii).
  apply ascii_title_from_lower.
Qed.

(** A part of the slug has the underscores of the text it is made from. *)
Lemma slug_part_no_underscore {UCD : PyStr.UnicodeData} s :
  PyStr.count "_" (PyStr.replace " " "-" (PyStr.lower s)) = PyStr.count "_" s.
Proof. by rewrite hyphenate_underscore, count_lower. Qed.

Lemma slug_part_back s :
  PyStr.count "-" s = 0%nat →
  PyStr.replace "-" " " (PyStr.replace " " "-" (PyStr.ascii_lower s)) = PyStr.ascii_lower s.
Proof.
  induction s as [|c s IH]; [done|].
  cbn [PyStr.ascii_lower PyStr.replace PyStr.count]. case_decide as Hc; [done|].
  intros Hs. rewrite (IH Hs). f_equal.
  pose proof (slug_char_back c) as Hb.
  rewrite (bool_decide_eq_false_2 _ Hc) in Hb. by apply bool_decide_eq_true in Hb.
Qed.

(** X4.  The slug the generator builds is read back by the intake handler.
    For an ASCII niche and an ASCII city without hyphen or underscore, the
    first accepted submission carrying the generated slug creates the Site
    with the title-cased niche and city.  The original texts come back
    exactly when they are in title case already. *)
Theorem create_lead_reads_generated_slug {UCD : PyStr.UnicodeData} db now niche city name phone email service message :
  PyStr.is_ascii niche = true → PyStr.is_ascii city = true →
  PyStr.count "-" niche = 0%nat → PyStr.count "_" niche = 0%nat →
  PyStr.count "-" city = 0%nat → PyStr.count "_" city = 0%nat →
  PyStr.strip name ≠ "" → PyStr.strip phone ≠ "" →
  query_site_by_slug db (site_slug_of niche city) = None →
  sites (db_after (create_lead db now (site_slug_of niche city) name phone
                               email service message)) =
    sites db ++ [Site.mk (next_rowid (Site.id <$> sites db)) (site_slug_of niche city)
                         (PyStr.title niche) (PyStr.title city) None].
Proof.
  intros Han Hac Hhn Hun Hhc Huc Hn Hp Hq.
  destruct (create_lead_accepted db now (site_slug_of niche city) name phone email
              service message Hn Hp) as (Hs & _ & _).
  rewrite Hs, (find_or_create_site_new _ _ Hq). simpl. do 3 f_equal.
  all: unfold niche_city_of_slug, site_slug_of.
  all: change (?a +:+ "_" +:+ ?b) with (a +:+ String "_" b).
  all: rewrite split_two by (by rewrite slug_part_no_underscore).
  all: simpl.
  - rewrite <- (title_lower_ascii niche Han). rewrite (lower_ascii niche Han).
    by rewrite slug_part_back.
  - rewrite <- (title_lower_ascii city Hac). rewrite (lower_ascii city Hac).
    by rewrite slug_part_back.
Qed.

Lemma create_lead_reads_generated_slug_witness :
  sites (db_after (create_lead (mkDB [] []) 0
                               (site_slug_of "HVAC Repair Services" "Las Vegas")
                               "Jane Doe" "555-123-4567" None None None)) =
    [] ++ [Site.mk 1 "hvac-repair-services_las-vegas" "Hvac Repair Services" "Las Vegas" None].
Proof.
  apply (create_lead_reads_generated_slug (mkDB [] []) 0 "HVAC Repair Services" "Las Vegas");
    by vm_compute.
Defined.

End SlugRoundTrip.

(** ** The file system *)

Section FileSystemFacts.
Import GenerateSite.

Lemma append_assoc x y z : (x +:+ y) +:+ z = x +:+ (y +:+ z).
Proof.
  induction x as [|c x IH]; [done|]. exact (f_equal (String c) IH).
Qed.

Lemma rsplit_slash_none b : PyStr.count "/" b = 0%nat → rsplit_slash b = None.
Proof.
  induction b as [|c b IH]; [done|]. cbn [PyStr.count rsplit_slash].
  case_decide; [done|]. intros Hb. by rewrite IH.
Qed.

Lemma rsplit_slash_child a b :
  PyStr.count "/" b = 0%nat → rsplit_slash (a +:+ "/" +:+ b) = Some (a +:+ "/", b).
Proof.
  intros Hb. induction a as [|c a IH].
  - change ("" +:+ "/" +:+ b) with (String "/" b). cbn [rsplit_slash].
    by rewrite rsplit_slash_none.
  - change (String c a +:+ "/" +:+ b) with (String c (a +:+ "/" +:+ b)).
    cbn [rsplit_slash]. by rewrite IH.
Qed.

Lemma rstrip_slashes_child a :
  PyStr.endswith "/" a = false → rstrip_slashes (a +:+ "/") = a.
Proof.
  induction a as [|c a IH]; [done|].
  change (String c a +:+ "/") with (String c (a +:+ "/")). cbn [rstrip_slashes].
  destruct a as [|d a].
  - simpl. intros Hc%bool_decide_eq_false. by rewrite decide_False.
  - intros Ha. rewrite IH by done. done.
Qed.

(** Splitting the path of an entry of a directory gives the directory and
    the name of the entry. *)
Lemma path_split_child a b :
  a ≠ "" → PyStr.endswith "/" a = false → PyStr.count "/" b = 0%nat →
  path_split (a +:+ "/" +:+ b) = (a, b).
Proof.
  intros Ha Hs Hb. unfold path_split.
  rewrite rsplit_slash_child, rstrip_slashes_child by done. by destruct a.
Qed.

Lemma path_join_child a b :
  a ≠ "" → PyStr.endswith "/" a = false → PyStr.count "/" b = 0%nat →
  path_join a b = a +:+ "/" +:+ b.
Proof.
  intros Ha Hs Hb. unfold path_join. rewrite Hs.
  destruct b as [|c b]; [by destruct a|].
  cbn [PyStr.count] in Hb. case_decide as Hc; [done|].
  replace (PyStr.startswith "/" (String c b)) with false; [by destruct a|].
  unfold PyStr.startswith. cbn [String.prefix].
  by destruct (ascii_dec "/" c) as [<-|].
Qed.

Lemma endswith_child a b :
  b ≠ "" → PyStr.count "/" b = 0%nat → PyStr.endswith "/" (a +:+ "/" +:+ b) = false.
Proof.
  intros Hb Hc. induction a as [|c a IH].
  - change ("" +:+ "/" +:+ b) with (String "/" b). cbn [PyStr.endswith].
    destruct b as [|d b]; [done|]. clear Hb.
    revert d Hc. induction b as [|e b IHb]; intros d Hc.
    + cbn in *. case_decide; [done|]. by apply bool_decide_eq_false.
    + cbn [PyStr.endswith]. apply IHb. cbn [PyStr.count] in *.
      case_decide; [done|]. done.
  - change (String c a +:+ "/" +:+ b) with (String c (a +:+ "/" +:+ b)).
    cbn [PyStr.endswith]. by destruct (a +:+ "/" +:+ b) eqn:E; [destruct a|].
Qed.

Lemma is_root_child a b :
  b ≠ "" → PyStr.count "/" b = 0%nat → is_root (a +:+ "/" +:+ b) = false.
Proof.
  intros Hb Hc. unfold is_root. apply andb_false_iff. right.
  induction a as [|c a IH].
  - change ("" +:+ "/" +:+ b) with (String "/" b). cbn [PyStr.all_chars].
    destruct b as [|d b]; [done|]. cbn in *. case_decide as Hd; [done|].
    by rewrite (bool_decide_eq_false_2 _ Hd).
  - change (String c a +:+ "/" +:+ b) with (String c (a +:+ "/" +:+ b)).
    cbn [PyStr.all_chars]. rewrite IH. apply andb_false_r.
Qed.

Lemma child_not_parent a b : a +:+ "/" +:+ b ≠ a.
Proof.
  induction a as [|c a IH]; [done|]. intros H. apply IH.
  change (String c a +:+ "/" +:+ b) with (String c (a +:+ "/" +:+ b)) in H.
  by injection H.
Qed.

Lemma rsplit_slash_length path head tail :
  rsplit_slash path = Some (head, tail) →
  (String.length head + String.length tail = String.length path)%nat.
Proof.
  revert head tail. induction path as [|c path IH]; intros head tail; [done|].
  cbn [rsplit_slash]. destruct (rsplit_slash path) as [[h t]|].
  - intros [= <- <-]. simpl. by rewrite (IH h t).
  - case_decide; [|done]. intros [= <- <-]. simpl. lia.
Qed.

Lemma rstrip_slashes_length s :
  (String.length (rstrip_slashes s) ≤ String.length s)%nat.
Proof.
  induction s as [|c s IH]; [done|]. cbn [rstrip_slashes].
  destruct (rstrip_slashes s); [case_decide|]; simpl in *; lia.
Qed.

(** The two parts of a path are no longer than the path. *)
Lemma path_split_length path :
  (String.length (path_split path).1 + String.length (path_split path).2
   ≤ String.length path)%nat.
Proof.
  unfold path_split. destruct (rsplit_slash path) as [[head tail]|] eqn:Hs; [|done].
  apply rsplit_slash_length in Hs. pose proof (rstrip_slashes_length head).
  destruct (rstrip_slashes head); simpl in *; lia.
Qed.

(** [makedirs_within] does not run out of depth: from the length of the
    path on, the depth allowed makes no difference. *)
Lemma makedirs_within_enough d1 d2 name (w : World) :
  (String.length name ≤ d1)%nat → (String.length name ≤ d2)%nat →
  makedirs_within d1 name w = makedirs_within d2 name w.
Proof.
  revert d2 name w. induction d1 as [|d1 IH]; intros d2 name w H1 H2.
  - destruct name; [|simpl in H1; lia]. by destruct d2.
  - destruct d2 as [|d2].
    { destruct name; [done|simpl in H2; lia]. }
    cbn [makedirs_within].
    pose proof (path_split_length name) as Hlen.
    destruct (path_split name) as [head tail] eqn:Hname. simpl in Hlen.
    assert (∀ h t, (String.length h + String.length t ≤ String.length name)%nat →
                   PyStr.truthy h && PyStr.truthy t = true →
                   (String.length h ≤ d1)%nat ∧ (String.length h ≤ d2)%nat) as Hshort.
    { intros h t Hht [_ Ht]%andb_prop. destruct t; [done|]. simpl in Hht. lia. }
    case_decide as Htail.
    + pose proof (path_split_length head) as Hlen'.
      destruct (path_split head) as [head' tail'] eqn:Hhead. simpl in Hlen'.
      unfold bind. destruct (PyStr.truthy head' && PyStr.truthy tail') eqn:Hc; [|done].
      destruct (Hshort head' tail') as [Ha Hb]; [lia|done|].
      unfold path_exists. destruct (_ || _); [done|].
      unfold pass_file_exists. by rewrite (IH d2 head' w Ha Hb).
    + unfold bind. destruct (PyStr.truthy head && PyStr.truthy tail) eqn:Hc; [|done].
      destruct (Hshort head tail) as [Ha Hb]; [lia|done|].
      unfold path_exists. destruct (_ || _); [done|].
      unfold pass_file_exists. by rewrite (IH d2 head w Ha Hb).
Qed.

(** [os.makedirs] on an entry of a directory that is there: the entry
    becomes a directory, unless a regular file has its name. *)
Lemma makedirs_child a b (w : World) :
  a ≠ "" → PyStr.endswith "/" a = false →
  b ≠ "" → PyStr.count "/" b = 0%nat →
  a ∈ dirs w →
  files w !! (a +:+ "/" +:+ b) = None →
  makedirs (a +:+ "/" +:+ b) w =
    (mkWorld (files w) ({[a +:+ "/" +:+ b]} ∪ dirs w) (stdout w), inr tt).
Proof.
  intros Ha Hs Hb Hc Hd Hf.
  assert (makedirs (a +:+ "/" +:+ b) w = mkdir_exist_ok (a +:+ "/" +:+ b) w) as ->.
  { unfold makedirs.
    destruct (String.length (a +:+ "/" +:+ b)); cbn [makedirs_within];
      rewrite path_split_child by done.
    all: rewrite decide_False by done.
    all: unfold bind, path_exists.
    all: replace (PyStr.truthy a && PyStr.truthy b) with true
      by (by destruct a, b).
    all: by rewrite (bool_decide_eq_true_2 _ Hd), orb_true_r. }
  unfold mkdir_exist_ok, mkdir, isfile, isdir, holds_entries, parent_of.
  replace (PyStr.truthy (a +:+ "/" +:+ b)) with true by (by destruct a).
  rewrite Hf, (bool_decide_eq_false_2 (is_Some None)) by (by intros [? ?]).
  rewrite is_root_child by done. rewrite path_split_child by done.
  rewrite decide_False by done.
  cbn [negb orb].
  destruct (decide (a +:+ "/" +:+ b ∈ dirs w)) as [Hin|Hout].
  - rewrite (bool_decide_eq_true_2 _ Hin). cbn [orb].
    rewrite (bool_decide_eq_true_2 _ Hin). cbn [orb].
    destruct w as [f d o]. simpl in *. do 2 f_equal. symmetry.
    by apply subseteq_union_1_L, singleton_subseteq_l.
  - rewrite (bool_decide_eq_false_2 _ Hout). cbn [orb]. unfold isdir.
    by rewrite (bool_decide_eq_true_2 _ Hd), orb_true_r.
Qed.

(** Writing a file into a directory that is there, under a name that no
    directory has. *)
Lemma write_file_child a b text (w : World) :
  a ≠ "" → PyStr.endswith "/" a = false →
  b ≠ "" → PyStr.count "/" b = 0%nat →
  a ∈ dirs w →
  a +:+ "/" +:+ b ∉ dirs w →
  write_file (a +:+ "/" +:+ b) text w =
    (mkWorld (<[a +:+ "/" +:+ b := text]> (files w)) (dirs w) (stdout w), inr tt).
Proof.
  intros Ha Hs Hb Hc Hd Hout. unfold write_file, isdir, holds_entries.
  rewrite path_split_child by done. cbn [fst snd].
  rewrite (bool_decide_eq_false_2 _ Hout), is_root_child by done.
  replace (PyStr.truthy b) with true by (by destruct b). cbn [negb orb].
  unfold isdir. by rewrite (bool_decide_eq_true_2 _ Hd), orb_true_r.
Qed.

(** A write that went through put the text at the path and left the rest
    of the world alone. *)
Lemma write_file_inv path text (w w' : World) :
  write_file path text w = (w', inr tt) →
  w' = mkWorld (<[path := text]> (files w)) (dirs w) (stdout w).
Proof.
  unfold write_file. repeat case_match; congruence.
Qed.

End FileSystemFacts.

(** ** Site generation: failures and what is left behind *)

Section GeneratorMore.
Import GenerateSite.

Context {UCD : PyStr.UnicodeData}.
Context (DATA_DIR TEMPLATE_DIR OUTPUT_DIR STATIC_SRC : string).
Context (json_loads : string → option json) (json_dumps : json → string).
Context (jinja_render : string → gmap string json → PyError + string).

Abbreviation load_top_niche := (load_top_niche json_loads).
Abbreviation render_pages := (render_pages TEMPLATE_DIR OUTPUT_DIR STATIC_SRC
                                           json_dumps jinja_render).
Abbreviation main := (main DATA_DIR TEMPLATE_DIR OUTPUT_DIR STATIC_SRC
                           json_loads json_dumps jinja_render).

(** Loading never changes the world. *)
Lemma load_top_niche_frame data_path (w : World) :
  (load_top_niche data_path w).1 = w.
Proof.
  unfold GenerateSite.load_top_niche, bind, read_file, lift, raise.
  destruct (files w !! data_path) as [text|]; [|by case_bool_decide].
  destruct (json_loads text) as [data|]; [|done].
  by destruct (truthy data).
Qed.

(** X12.  Every document that Python treats as false is reported as
    missing data: [null], [false], [0], [0.0], the empty string, the empty
    array and the empty object all make [load_top_niche] raise the
    [ValueError] "No niche data found. Run niche_selection.py first.",
    with nothing changed. *)
Theorem load_top_niche_falsy data_path text data (w : World) :
  files w !! data_path = Some text →
  json_loads text = Some data →
  truthy data = false →
  load_top_niche data_path w =
    (w, inl (ValueError "No niche data found. Run niche_selection.py first.")).
Proof.
  intros Hf Hj Ht. unfold GenerateSite.load_top_niche, bind, read_file.
  by rewrite Hf, Hj, Ht.
Qed.

(** X13.  Only the first entry of the ranking is used: when the file holds
    an array, [main] does exactly what [render_pages] does on its first
    element, whatever follows it. *)
Theorem main_renders_first_entry year text first others (w : World) :
  files w !! path_join DATA_DIR "top_niches.json" = Some text →
  json_loads text = Some (JList (first :: others)) →
  main year w = render_pages first year w.
Proof.
  intros Hf Hj. unfold GenerateSite.main, bind at 1, path_exists.
  rewrite Hf, (bool_decide_eq_true_2 (is_Some (Some text))) by done. simpl.
  unfold bind at 1, GenerateSite.load_top_niche, bind at 1, read_file.
  by rewrite Hf, Hj.
Qed.

(** X14.  Whatever goes wrong while loading the ranking (a directory in
    place of the file, text that is not JSON, an object or a number in
    place of the array), [main] fails with that error and leaves the world
    as it was. *)
Theorem main_load_failure_leaves_world year e (w w' : World) :
  is_Some (files w !! path_join DATA_DIR "top_niches.json")
    ∨ path_join DATA_DIR "top_niches.json" ∈ dirs w →
  load_top_niche (path_join DATA_DIR "top_niches.json") w = (w', inl e) →
  main year w = (w, inl e).
Proof.
  intros Hex Hload.
  pose proof (load_top_niche_frame (path_join DATA_DIR "top_niches.json") w) as Hw.
  rewrite Hload in Hw. simpl in Hw. subst w'.
  unfold GenerateSite.main, bind at 1, path_exists.
  assert (bool_decide (is_Some (files w !! path_join DATA_DIR "top_niches.json"))
          || bool_decide (path_join DATA_DIR "top_niches.json" ∈ dirs w) = true) as ->.
  { apply orb_true_iff. destruct Hex; [left|right]; by apply bool_decide_eq_true. }
  simpl. unfold bind at 1. by rewrite Hload.
Qed.

(** X15.  An entry that does not carry a string under "niche" and a string
    under "city" makes [render_pages] fail before it creates anything. *)
Theorem render_pages_bad_entry niche_data year (w : World) :
  (∀ n c, ¬ (getitem niche_data "niche" = inr (JStr n) ∧
             getitem niche_data "city" = inr (JStr c))) →
  ∃ e, render_pages niche_data year w = (w, inl e).
Proof.
  intros Hbad. unfold GenerateSite.render_pages, bind, lift.
  destruct (getitem niche_data "niche") as [e|niche]; [by eexists|].
  destruct (str_lower niche) as [e|lo] eqn:Hlo; [by eexists|].
  destruct (getitem niche_data "city") as [e|city]; [by eexists|].
  destruct (str_lower city) as [e|lo'] eqn:Hlo'; [by eexists|].
  destruct niche; try done. destruct city; try done. by destruct (Hbad s s0).
Qed.

(** The slug is not empty: it holds an underscore. *)
Lemma site_slug_of_nonempty n c : site_slug_of n c ≠ "".
Proof. unfold site_slug_of. by destruct (PyStr.replace " " "-" (PyStr.lower n)). Qed.

(** X16.  With a proper entry but no [home.html] template, [render_pages]
    raises [TemplateNotFound] after having created the site directory,
    named by the slug of the niche and the city; no file is written and
    nothing is printed.  The output directory is there, the slug holds no
    slash, and no regular file has the name of the site directory. *)
Theorem render_pages_without_home_template niche_data n c year (w : World) :
  getitem niche_data "niche" = inr (JStr n) →
  getitem niche_data "city" = inr (JStr c) →
  OUTPUT_DIR ≠ "" → PyStr.endswith "/" OUTPUT_DIR = false →
  OUTPUT_DIR ∈ dirs w →
  PyStr.count "/" (site_slug_of n c) = 0%nat →
  files w !! path_join OUTPUT_DIR (site_slug_of n c) = None →
  files w !! path_join TEMPLATE_DIR "home.html" = None →
  render_pages niche_data year w =
    (mkWorld (files w) ({[path_join OUTPUT_DIR (site_slug_of n c)]} ∪ dirs w) (stdout w),
     inl (TemplateNotFound "home.html")).
Proof.
  intros Hn Hc Ho Hs Hd Hslash Hfree Ht.
  unfold GenerateSite.render_pages, bind, lift.
  rewrite Hn, Hc. simpl str_lower. cbv beta iota.
  fold (site_slug_of n c). rewrite path_join_child in Hfree |- * by done.
  rewrite makedirs_child by (done || apply site_slug_of_nonempty).
  unfold get_template. simpl files. by rewrite Ht.
Qed.

End GeneratorMore.

Lemma load_top_niche_falsy_witness :
  let loads := λ text : string,
    if decide (text = "{}") then Some (GenerateSite.JDict []) else None in
  let w := GenerateSite.mkWorld {[ "/srv/data/top_niches.json" := "{}" ]} ∅ [] in
  GenerateSite.load_top_niche loads "/srv/data/top_niches.json" w =
    (w, inl (GenerateSite.ValueError "No niche data found. Run niche_selection.py first.")).
Proof.
  intros loads w.
  apply (load_top_niche_falsy loads "/srv/data/top_niches.json" "{}" (GenerateSite.JDict []) w).
  - vm_compute. reflexivity.
  - reflexivity.
  - reflexivity.
Defined.

Lemma main_renders_first_entry_witness :
  let first := GenerateSite.JDict [("niche", GenerateSite.JStr "Pest Control");
                                   ("city", GenerateSite.JStr "Miami")] in
  let second := GenerateSite.JDict [("niche", GenerateSite.JStr "Roof Leak Repair");
                                    ("city", GenerateSite.JStr "Las Vegas")] in
  let loads := λ text : string,
    if decide (text = "[first, second]") then Some (GenerateSite.JList [first; second])
    else None in
  let dumps := λ _ : GenerateSite.json, "{}" in
  let jinja := λ (source : string) (_ : gmap string GenerateSite.json),
    inr source : GenerateSite.PyError + string in
  let w := GenerateSite.mkWorld {[ "/srv/data/top_niches.json" := "[first, second]" ]} ∅ [] in
  GenerateSite.main "/srv/data" "/srv/templates" "/srv/output" "/srv/static"
                    loads dumps jinja 2026 w =
  GenerateSite.render_pages "/srv/templates" "/srv/output" "/srv/static" dumps jinja
                            first 2026 w.
Proof.
  intros first second loads dumps jinja w.
  apply (main_renders_first_entry "/srv/data" "/srv/templates" "/srv/output" "/srv/static"
           loads dumps jinja 2026 "[first, second]" first [second] w).
  - vm_compute. reflexivity.
  - reflexivity.
Defined.

Lemma main_load_failure_leaves_world_witness :
  let loads := λ text : string,
    if decide (text = "{...}")
    then Some (GenerateSite.JDict [("niche", GenerateSite.JStr "Pest Control")])
    else None in
  let dumps := λ _ : GenerateSite.json, "{}" in
  let jinja := λ (source : string) (_ : gmap string GenerateSite.json),
    inr source : GenerateSite.PyError + string in
  let w := GenerateSite.mkWorld {[ "/srv/data/top_niches.json" := "{...}" ]} ∅ [] in
  GenerateSite.main "/srv/data" "/srv/templates" "/srv/output" "/srv/static"
                    loads dumps jinja 2026 w =
    (w, inl (GenerateSite.KeyError "0")).
Proof.
  intros loads dumps jinja w.
  apply (main_load_failure_leaves_world "/srv/data" "/srv/templates" "/srv/output"
           "/srv/static" loads dumps jinja 2026 (GenerateSite.KeyError "0") w w).
  - left. vm_compute. by eexists.
  - vm_compute. reflexivity.
Defined.

Lemma render_pages_bad_entry_witness :
  let dumps := λ _ : GenerateSite.json, "{}" in
  let jinja := λ (source : string) (_ : gmap string GenerateSite.json),
    inr source : GenerateSite.PyError + string in
  let entry := GenerateSite.JDict [("niche", GenerateSite.JInt 3);
                                   ("city", GenerateSite.JStr "Dallas")] in
  let w := GenerateSite.mkWorld {[ "/srv/templates/home.html" := "home" ]} ∅ [] in
  ∃ e, GenerateSite.render_pages "/srv/templates" "/srv/output" "/srv/static" dumps jinja
                                 entry 2026 w = (w, inl e).
Proof.
  intros dumps jinja entry w.
  apply (render_pages_bad_entry "/srv/templates" "/srv/output" "/srv/static" dumps jinja
           entry 2026 w).
  intros n c [Hn _]. vm_compute in Hn. discriminate Hn.
Defined.

Lemma render_pages_without_home_template_witness :
  let dumps := λ _ : GenerateSite.json, "{}" in
  let jinja := λ (source : string) (_ : gmap string GenerateSite.json),
    inr source : GenerateSite.PyError + string in
  let entry := GenerateSite.JDict [("niche", GenerateSite.JStr "Pest Control");
                                   ("city", GenerateSite.JStr "Miami")] in
  let w := GenerateSite.mkWorld ∅ {["/srv/output"]} [] in
  GenerateSite.render_pages "/srv/templates" "/srv/output" "/srv/static" dumps jinja
                            entry 2026 w =
    (GenerateSite.mkWorld ∅ ({["/srv/output/pest-control_miami"]} ∪ {["/srv/output"]}) [],
     inl (GenerateSite.TemplateNotFound "home.html")).
Proof.
  intros dumps jinja entry w.
  apply (render_pages_without_home_template "/srv/templates" "/srv/output" "/srv/static"
           dumps jinja entry "Pest Control" "Miami" 2026 w).
  - reflexivity.
  - reflexivity.
  - done.
  - reflexivity.
  - apply (bool_decide_unpack _). vm_compute. exact I.
  - reflexivity.
  - vm_compute. reflexivity.
  - vm_compute. reflexivity.
Defined.

(** ** Site generation: a successful run *)

Section RenderSuccess.
Import GenerateSite.

Context {UCD : PyStr.UnicodeData}.
Context (TEMPLATE_DIR OUTPUT_DIR STATIC_SRC : string).
Context (json_dumps : json → string).
Context (jinja_render : string → gmap string json → PyError + string).

Abbreviation render_pages := (render_pages TEMPLATE_DIR OUTPUT_DIR STATIC_SRC
                                           json_dumps jinja_render).

Lemma rev_app_app x b acc :
  String.rev_app (x +:+ b) acc = String.rev_app b (String.rev_app x acc).
Proof.
  revert acc. induction x as [|c x IH]; intros acc; [done|].
  change (String c x +:+ b) with (String c (x +:+ b)). simpl. apply IH.
Qed.

Lemma path_join_differs a a' b b' :
  PyStr.startswith "/" b = false → PyStr.startswith "/" b' = false →
  (∀ x y, x +:+ b ≠ y +:+ b') →
  path_join a b ≠ path_join a' b'.
Proof.
  intros Hb Hb' Hne. unfold path_join. rewrite Hb, Hb'.
  repeat destruct (_ || _); rewrite <- ?append_assoc; apply Hne.
Qed.

Ltac names_differ :=
  let H := fresh in
  intros ? ? H; apply (f_equal (λ s, String.rev_app s "")) in H;
  rewrite !rev_app_app in H; cbn [String.rev_app] in H; discriminate H.


Lemma path_join_same_dir a b b' :
  PyStr.startswith "/" b = false → PyStr.startswith "/" b' = false →
  path_join a b = path_join a b' → b = b'.
Proof.
  unfold path_join. intros -> ->. destruct (_ || _); intros H.
  - by apply (inj (String.app a)) in H.
  - apply (inj (String.app a)) in H. by apply (inj (String.app "/")) in H.
Qed.

Ltac run_step :=
  cbv beta iota zeta delta [bind lift get_template render files dirs
                            stdout for_each sub_services ret print path_exists raise].

(** Writing a page into the site directory. *)
Lemma write_file_joined dir name text (w : World) :
  dir ≠ "" → PyStr.endswith "/" dir = false →
  name ≠ "" → PyStr.count "/" name = 0%nat →
  dir ∈ dirs w →
  path_join dir name ∉ dirs w →
  write_file (path_join dir name) text w =
    (mkWorld (<[path_join dir name := text]> (files w)) (dirs w) (stdout w), inr tt).
Proof.
  intros Hd Hs Hn Hc Hin Hout. rewrite path_join_child in Hout |- * by done.
  by apply write_file_child.
Qed.

Lemma render_pages_run niche_data n c year (w : World) h sv fq
    (R : string → gmap string json → string) :
  let slug := site_slug_of n c in
  let site_dir := path_join OUTPUT_DIR slug in
  getitem niche_data "niche" = inr (JStr n) →
  getitem niche_data "city" = inr (JStr c) →
  OUTPUT_DIR ≠ "" → PyStr.endswith "/" OUTPUT_DIR = false →
  OUTPUT_DIR ∈ dirs w →
  PyStr.count "/" slug = 0%nat →
  files w !! site_dir = None →
  (∀ name, name ∈ page_names → path_join site_dir name ∉ dirs w) →
  files w !! path_join TEMPLATE_DIR "home.html" = Some h →
  files w !! path_join TEMPLATE_DIR "service.html" = Some sv →
  files w !! path_join TEMPLATE_DIR "faq.html" = Some fq →
  (∀ src ctx, jinja_render src ctx = inr (R src ctx)) →
  files w !! STATIC_SRC = None →
  STATIC_SRC ∉ dirs w →
  STATIC_SRC ∉ site_dir :: (path_join site_dir <$> page_names) →
  ∃ ctx we sd mr faq,
    render_pages niche_data year w =
      (mkWorld
         (<[path_join site_dir "robots.txt" := robots_txt slug]>
          (<[path_join site_dir "sitemap.xml" := sitemap_xml slug]>
           (<[path_join site_dir "faq.html" := faq]>
            (<[path_join site_dir "mold-remediation.html" := mr]>
             (<[path_join site_dir "structural-drying.html" := sd]>
              (<[path_join site_dir "water-extraction.html" := we]>
               (<[path_join site_dir "index.html" := R h ctx]> (files w))))))))
         ({[site_dir]} ∪ dirs w)
         (stdout w ++ ["Generated site for " +:+ n +:+ " in " +:+ c +:+ " at " +:+ site_dir]),
       inr ()) ∧
    ctx !! "niche" = Some (JStr n) ∧ ctx !! "city" = Some (JStr c) ∧
    ctx !! "site_slug" = Some (JStr slug).
Proof.
  intros slug site_dir Hn Hc Ho Hos Hod Hslash Hfree Hnodir Hh Hsv Hfq HR Hsf Hsd Hstatic.
  destruct w as [f d o]. simpl in Hod, Hfree, Hnodir, Hh, Hsv, Hfq, Hsf, Hsd |- *.
  assert (∀ name, name ∈ page_names → path_join site_dir name ≠ STATIC_SRC) as Hpages.
  { intros name Hin Heq. apply Hstatic. right. rewrite <- Heq.
    apply list_elem_of_fmap. by exists name. }
  assert (STATIC_SRC ∉ ({[site_dir]} ∪ d : gset string)) as Hdir.
  { intros [Heq%elem_of_singleton|?]%elem_of_union; [|done].
    apply Hstatic. rewrite Heq. left. }
  assert (site_dir = OUTPUT_DIR +:+ "/" +:+ slug) as Hsite
    by (by apply path_join_child).
  assert (site_dir ≠ "") as Hne by (rewrite Hsite; by destruct OUTPUT_DIR).
  assert (PyStr.endswith "/" site_dir = false) as Hend.
  { rewrite Hsite. apply endswith_child; [apply site_slug_of_nonempty|done]. }
  assert (site_dir ∈ ({[site_dir]} ∪ d : gset string)) as Hin
    by (apply elem_of_union; left; by apply elem_of_singleton).
  assert (∀ name, name ∈ page_names →
            path_join site_dir name ∉ ({[site_dir]} ∪ d : gset string)) as Hnew.
  { intros name Hname [Heq%elem_of_singleton|Hd]%elem_of_union.
    - unfold page_names in Hname.
      repeat (apply elem_of_cons in Hname as [->|Hname]);
        [..|by apply elem_of_nil in Hname].
      all: rewrite path_join_child in Heq by done.
      all: by apply child_not_parent in Heq.
    - by apply (Hnodir name). }
  assert (∀ name text fs out,
            name ∈ page_names →
            write_file (path_join site_dir name) text (mkWorld fs ({[site_dir]} ∪ d) out) =
              (mkWorld (<[path_join site_dir name := text]> fs) ({[site_dir]} ∪ d) out,
               inr tt)) as Hwrite.
  { intros name text fs out Hname. apply write_file_joined; simpl; try done.
    - unfold page_names in Hname.
      repeat (apply elem_of_cons in Hname as [->|Hname]);
        [..|by apply elem_of_nil in Hname]; done.
    - unfold page_names in Hname.
      repeat (apply elem_of_cons in Hname as [->|Hname]);
        [..|by apply elem_of_nil in Hname]; done.
    - by apply Hnew. }
  unfold GenerateSite.render_pages. run_step. rewrite Hn, Hc. simpl str_lower. cbv beta iota.
  fold (site_slug_of n c). fold slug. fold site_dir.
  assert (makedirs site_dir (mkWorld f d o) = (mkWorld f ({[site_dir]} ∪ d) o, inr tt))
    as ->.
  { rewrite Hsite in Hfree |- *.
    by apply (makedirs_child OUTPUT_DIR slug (mkWorld f d o));
      [..|apply site_slug_of_nonempty| | |]. }
  run_step. rewrite Hh, HR.
  match goal with |- context [R h ?x] => set (ctx := x) end.
  rewrite Hwrite by (unfold page_names; repeat first [apply list_elem_of_here | apply list_elem_of_further]).
  run_step.
  rewrite lookup_insert_ne by (apply path_join_differs; [done|done|names_differ]).
  rewrite Hsv, !HR.
  repeat match goal with
         | |- context [service_slug ?l +:+ ".html"] =>
             let v := eval vm_compute in (service_slug l +:+ ".html") in
             change (service_slug l +:+ ".html") with v
         end.
  rewrite !Hwrite by (unfold page_names; repeat first [apply list_elem_of_here | apply list_elem_of_further]).
  run_step.
  rewrite !lookup_insert_ne by (apply path_join_differs; [done|done|names_differ]).
  rewrite Hfq, HR.
  rewrite !Hwrite by (unfold page_names; repeat first [apply list_elem_of_here | apply list_elem_of_further]).
  run_step.
  rewrite !lookup_insert_ne by (apply Hpages; unfold page_names; repeat first [apply list_elem_of_here | apply list_elem_of_further]).
  rewrite Hsf.
  rewrite (bool_decide_eq_false_2 (is_Some None)) by (by intros [? ?]).
  rewrite (bool_decide_eq_false_2 _ Hdir).
  cbv beta iota zeta delta [orb].
  exists ctx. do 4 eexists. split; [reflexivity|].
  subst ctx. split_and!; reflexivity.
Qed.

(** X17.  A successful run.  For an entry with string niche and city whose
    slug holds no slash, with the output directory and the three templates
    in place, the templates rendering without error, no regular file named
    as the site directory, no directory named as one of the pages, and no
    static source directory, [render_pages] returns normally; it creates
    the site directory named by the slug, writes the seven pages into it
    (the homepage being the home template rendered under a context that
    carries the niche, the city and the slug; [robots.txt] and
    [sitemap.xml] as given), prints one line, and leaves every other file
    as it was. *)
Theorem render_pages_writes_site niche_data n c year (w : World) h sv fq
    (R : string → gmap string json → string) :
  let slug := site_slug_of n c in
  let site_dir := path_join OUTPUT_DIR slug in
  getitem niche_data "niche" = inr (JStr n) →
  getitem niche_data "city" = inr (JStr c) →
  OUTPUT_DIR ≠ "" → PyStr.endswith "/" OUTPUT_DIR = false →
  OUTPUT_DIR ∈ dirs w →
  PyStr.count "/" slug = 0%nat →
  files w !! site_dir = None →
  (∀ name, name ∈ page_names → path_join site_dir name ∉ dirs w) →
  files w !! path_join TEMPLATE_DIR "home.html" = Some h →
  files w !! path_join TEMPLATE_DIR "service.html" = Some sv →
  files w !! path_join TEMPLATE_DIR "faq.html" = Some fq →
  (∀ src ctx, jinja_render src ctx = inr (R src ctx)) →
  files w !! STATIC_SRC = None →
  STATIC_SRC ∉ dirs w →
  STATIC_SRC ∉ site_dir :: (path_join site_dir <$> page_names) →
  ∃ w', render_pages niche_data year w = (w', inr ()) ∧
        dirs w' = {[site_dir]} ∪ dirs w ∧
        stdout w' = stdout w ++ ["Generated site for " +:+ n +:+ " in " +:+ c
                                   +:+ " at " +:+ site_dir] ∧
        (∀ name, name ∈ page_names → is_Some (files w' !! path_join site_dir name)) ∧
        files w' !! path_join site_dir "robots.txt" = Some (robots_txt slug) ∧
        files w' !! path_join site_dir "sitemap.xml" = Some (sitemap_xml slug) ∧
        (∃ ctx, files w' !! path_join site_dir "index.html" = Some (R h ctx) ∧
                ctx !! "niche" = Some (JStr n) ∧ ctx !! "city" = Some (JStr c) ∧
                ctx !! "site_slug" = Some (JStr slug)) ∧
        (∀ p, p ∉ path_join site_dir <$> page_names → files w' !! p = files w !! p).
Proof.
  intros slug site_dir Hn Hc Ho Hos Hod Hslash Hfree Hnodir Hh Hsv Hfq HR Hsf Hsd Hstatic.
  destruct (render_pages_run niche_data n c year w h sv fq R Hn Hc Ho Hos Hod Hslash Hfree
              Hnodir Hh Hsv Hfq HR Hsf Hsd Hstatic) as (ctx & we & sd & mr & faq & Hrun & Hctx).
  fold slug site_dir in Hrun.
  eexists. split; [exact Hrun|]. simpl.
  assert (∀ a b, a ≠ b → PyStr.startswith "/" a = false → PyStr.startswith "/" b = false →
                 path_join site_dir a ≠ path_join site_dir b) as Hne.
  { intros a b Hab Ha Hb Heq. by apply path_join_same_dir in Heq. }
  split_and!; [done|done| | | | |].
  - intros name Hin. unfold page_names in Hin.
    repeat (apply elem_of_cons in Hin as [->|Hin]); [..|by apply elem_of_nil in Hin].
    all: rewrite ?lookup_insert_ne by (by apply Hne).
    all: rewrite lookup_insert_eq; by eexists.
  - by rewrite lookup_insert_eq.
  - rewrite lookup_insert_ne by (by apply Hne). by rewrite lookup_insert_eq.
  - exists ctx. split; [|done].
    rewrite !lookup_insert_ne by (by apply Hne). by rewrite lookup_insert_eq.
  - intros p Hp. rewrite !lookup_insert_ne; [done|..].
    all: intros <-; apply Hp.
    all: repeat first [apply list_elem_of_here | apply list_elem_of_further].
Qed.

End RenderSuccess.

Lemma render_pages_writes_site_witness :
  let dumps := λ _ : GenerateSite.json, "{}" in
  let R := λ (source : string) (_ : gmap string GenerateSite.json), source in
  let jinja := λ source ctx, inr (R source ctx) : GenerateSite.PyError + string in
  let entry := GenerateSite.JDict [("niche", GenerateSite.JStr "Pest Control");
                                   ("city", GenerateSite.JStr "Miami")] in
  let w := GenerateSite.mkWorld
             (list_to_map [("/srv/templates/home.html", "home");
                           ("/srv/templates/service.html", "service");
                           ("/srv/templates/faq.html", "faq")])
             {["/srv/output"]} [] in
  let site_dir := "/srv/output/pest-control_miami" in
  ∃ w', GenerateSite.render_pages "/srv/templates" "/srv/output" "/srv/static" dumps jinja
                                  entry 2026 w = (w', inr ()) ∧
        GenerateSite.dirs w' = {[site_dir]} ∪ {["/srv/output"]} ∧
        GenerateSite.stdout w' =
          [] ++ ["Generated site for Pest Control in Miami at /srv/output/pest-control_miami"] ∧
        (∀ name, name ∈ GenerateSite.page_names →
           is_Some (GenerateSite.files w' !! GenerateSite.path_join site_dir name)) ∧
        GenerateSite.files w' !! GenerateSite.path_join site_dir "robots.txt"
          = Some (GenerateSite.robots_txt "pest-control_miami") ∧
        GenerateSite.files w' !! GenerateSite.path_join site_dir "sitemap.xml"
          = Some (GenerateSite.sitemap_xml "pest-control_miami") ∧
        (∃ ctx, GenerateSite.files w' !! GenerateSite.path_join site_dir "index.html"
                  = Some (R "home" ctx) ∧
                ctx !! "niche" = Some (GenerateSite.JStr "Pest Control") ∧
                ctx !! "city" = Some (GenerateSite.JStr "Miami") ∧
                ctx !! "site_slug" = Some (GenerateSite.JStr "pest-control_miami")) ∧
        (∀ p, p ∉ GenerateSite.path_join site_dir <$> GenerateSite.page_names →
           GenerateSite.files w' !! p = GenerateSite.files w !! p).
Proof.
  intros dumps R jinja entry w site_dir.
  apply (render_pages_writes_site "/srv/templates" "/srv/output" "/srv/static" dumps jinja
           entry "Pest Control" "Miami" 2026 w "home" "service" "faq" R).
  - reflexivity.
  - reflexivity.
  - done.
  - reflexivity.
  - apply (bool_decide_unpack _). vm_compute. exact I.
  - reflexivity.
  - vm_compute. reflexivity.
  - intros name Hname. unfold GenerateSite.page_names in Hname.
    repeat (apply elem_of_cons in Hname as [->|Hname]);
      [..|by apply elem_of_nil in Hname].
    all: apply (bool_decide_unpack _); vm_compute; exact I.
  - vm_compute. reflexivity.
  - vm_compute. reflexivity.
  - vm_compute. reflexivity.
  - reflexivity.
  - vm_compute. reflexivity.
  - apply (bool_decide_unpack _). vm_compute. exact I.
  - apply (bool_decide_unpack _). vm_compute. exact I.
Defined.

(** ** The scale engine *)

Section ScaleFacts.
Import GenerateSite.

Context {UCD : PyStr.UnicodeData}.
Context (DATA_DIR TEMPLATE_DIR OUTPUT_DIR STATIC_SRC : string).
Context (json_loads : string → option json) (json_dumps : json → string).
Context (jinja_render : string → gmap string json → PyError + string).
Context (py_str : json → string).

Abbreviation scale_main := (ScaleEngine.main DATA_DIR TEMPLATE_DIR OUTPUT_DIR STATIC_SRC
                              json_loads json_dumps jinja_render py_str).
Abbreviation generate_one := (ScaleEngine.generate_one TEMPLATE_DIR OUTPUT_DIR STATIC_SRC
                                json_dumps jinja_render py_str).
Abbreviation site_main := (GenerateSite.main DATA_DIR TEMPLATE_DIR OUTPUT_DIR STATIC_SRC
                             json_loads json_dumps jinja_render).

(** A loop over two stretches of entries runs the first stretch, and the
    second only if the first went through. *)
Lemma for_each_app {A} (xs ys : list A) (body : A → Run unit) (w : World) :
  for_each (xs ++ ys) body w =
    match for_each xs body w with
    | (w1, inr _) => for_each ys body w1
    | (w1, inl e) => (w1, inl e)
    end.
Proof.
  revert w. induction xs as [|x xs IH]; intros w; [done|].
  simpl. unfold bind. destruct (body x w) as [w1 [e|[]]]; [done|]. apply IH.
Qed.

(** X18.  Without the ranking file the scale engine raises
    [FileNotFoundError] "top_niches.json not found. Run niche_selection.py
    first." and touches nothing. *)
Theorem scale_main_missing_file year (w : World) :
  files w !! path_join DATA_DIR "top_niches.json" = None →
  path_join DATA_DIR "top_niches.json" ∉ dirs w →
  scale_main year w =
    (w, inl (FileNotFoundError "top_niches.json not found. Run niche_selection.py first.")).
Proof.
  intros Hf Hd. unfold ScaleEngine.main, bind, path_exists.
  rewrite Hf, (bool_decide_eq_false_2 (is_Some None)) by (by intros [? ?]).
  by rewrite (bool_decide_eq_false_2 _ Hd).
Qed.

(** X19.  An empty ranking is no error for the scale engine: it generates
    nothing, prints "All sites generated." and returns normally, where the
    single-site generator raises [ValueError] on the same file. *)
Theorem scale_main_empty_ranking year text (w : World) :
  files w !! path_join DATA_DIR "top_niches.json" = Some text →
  json_loads text = Some (JList []) →
  scale_main year w =
    (mkWorld (files w) (dirs w) (stdout w ++ ["All sites generated."]), inr ()) ∧
  site_main year w =
    (w, inl (ValueError "No niche data found. Run niche_selection.py first.")).
Proof.
  intros Hf Hj. split.
  - unfold ScaleEngine.main, bind at 1, path_exists.
    rewrite Hf, (bool_decide_eq_true_2 (is_Some (Some text))) by done. simpl.
    unfold bind at 1, read_file. by rewrite Hf, Hj.
  - unfold GenerateSite.main, bind at 1, path_exists.
    rewrite Hf, (bool_decide_eq_true_2 (is_Some (Some text))) by done. simpl.
    unfold bind. by rewrite (load_top_niche_empty json_loads _ _ _ Hf Hj).
Qed.

(** X20.  The scale engine stops at the first entry that fails and does not
    undo what it did: if the entries before it went through, leaving the
    world [w1], and the failing entry leaves [w2] with error [e], the run
    ends in [w2] with [e]; the entries after it are never looked at and
    "All sites generated." is not printed. *)
Theorem scale_main_stops_at_first_failure year text before bad after e (w w1 w2 : World) :
  files w !! path_join DATA_DIR "top_niches.json" = Some text →
  json_loads text = Some (JList (before ++ bad :: after)) →
  for_each before (generate_one year) w = (w1, inr ()) →
  generate_one year bad w1 = (w2, inl e) →
  scale_main year w = (w2, inl e).
Proof.
  intros Hf Hj Hbefore Hbad.
  unfold ScaleEngine.main, bind at 1, path_exists.
  rewrite Hf, (bool_decide_eq_true_2 (is_Some (Some text))) by done. simpl.
  unfold bind at 1, read_file. rewrite Hf, Hj.
  unfold bind at 1, lift. simpl iterate. cbv beta iota.
  unfold bind at 1. rewrite for_each_app, Hbefore. simpl. unfold bind at 1.
  by rewrite Hbad.
Qed.

End ScaleFacts.

Lemma scale_main_missing_file_witness :
  let loads := λ text : string, @None GenerateSite.json in
  let dumps := λ _ : GenerateSite.json, "{}" in
  let jinja := λ (source : string) (_ : gmap string GenerateSite.json),
    inr source : GenerateSite.PyError + string in
  let w := GenerateSite.mkWorld {[ "/srv/data/top_niches.csv" := "rank" ]} ∅ [] in
  ScaleEngine.main "/srv/data" "/srv/templates" "/srv/output" "/srv/static"
                   loads dumps jinja dumps 2026 w =
    (w, inl (GenerateSite.FileNotFoundError
               "top_niches.json not found. Run niche_selection.py first.")).
Proof.
  intros loads dumps jinja w. apply scale_main_missing_file.
  - vm_compute. reflexivity.
  - apply not_elem_of_empty.
Defined.

Lemma scale_main_empty_ranking_witness :
  let loads := λ text : string,
    if decide (text = "[]") then Some (GenerateSite.JList []) else None in
  let dumps := λ _ : GenerateSite.json, "{}" in
  let jinja := λ (source : string) (_ : gmap string GenerateSite.json),
    inr source : GenerateSite.PyError + string in
  let w := GenerateSite.mkWorld {[ "/srv/data/top_niches.json" := "[]" ]} ∅ [] in
  ScaleEngine.main "/srv/data" "/srv/templates" "/srv/output" "/srv/static"
                   loads dumps jinja dumps 2026 w =
    (GenerateSite.mkWorld (GenerateSite.files w) (GenerateSite.dirs w)
                          ([] ++ ["All sites generated."]), inr ()) ∧
  GenerateSite.main "/srv/data" "/srv/templates" "/srv/output" "/srv/static"
                    loads dumps jinja 2026 w =
    (w, inl (GenerateSite.ValueError "No niche data found. Run niche_selection.py first.")).
Proof.
  intros loads dumps jinja w.
  apply (scale_main_empty_ranking "/srv/data" "/srv/templates" "/srv/output" "/srv/static"
           loads dumps jinja dumps 2026 "[]" w).
  - vm_compute. reflexivity.
  - reflexivity.
Defined.

Lemma scale_main_stops_at_first_failure_witness :
  let good := GenerateSite.JDict [("niche", GenerateSite.JStr "Pest Control");
                                  ("city", GenerateSite.JStr "Miami")] in
  let bad := GenerateSite.JDict [("niche", GenerateSite.JStr "Roof Leak Repair")] in
  let loads := λ text : string,
    if decide (text = "[good, bad, good]") then Some (GenerateSite.JList [good; bad; good])
    else None in
  let dumps := λ _ : GenerateSite.json, "{}" in
  let jinja := λ (source : string) (_ : gmap string GenerateSite.json),
    inr source : GenerateSite.PyError + string in
  let w := GenerateSite.mkWorld
             (list_to_map [("/srv/data/top_niches.json", "[good, bad, good]");
                           ("/srv/templates/home.html", "home");
                           ("/srv/templates/service.html", "service");
                           ("/srv/templates/faq.html", "faq")]) ∅ [] in
  let out := ScaleEngine.main "/srv/data" "/srv/templates" "/srv/output" "/srv/static"
               loads dumps jinja dumps 2026 w in
  out.2 = inl (GenerateSite.KeyError "city") ∧
  GenerateSite.files out.1 !! "/srv/output/pest-control_miami/index.html" = Some "home" ∧
  GenerateSite.stdout out.1 =
    ["Generating site for Pest Control in Miami...";
     "Generated site for Pest Control in Miami at /srv/output/pest-control_miami"].
Proof.
  intros good bad loads dumps jinja w out.
  set (gen := ScaleEngine.generate_one "/srv/templates" "/srv/output" "/srv/static"
                dumps jinja dumps 2026).
  set (w1 := (GenerateSite.for_each [good] gen w).1).
  assert (out = (w1, inl (GenerateSite.KeyError "city"))) as ->.
  { apply (scale_main_stops_at_first_failure "/srv/data" "/srv/templates" "/srv/output"
             "/srv/static" loads dumps jinja dumps 2026 "[good, bad, good]"
             [good] bad [good] (GenerateSite.KeyError "city") w w1 w1).
    - vm_compute. reflexivity.
    - reflexivity.
    - vm_compute. reflexivity.
    - vm_compute. reflexivity. }
  split_and!; vm_compute; reflexivity.
Defined.

(** ** Niche selection *)

Section NicheFacts.
Import GenerateSite NicheSelection.

Lemma by_rank_trans : Transitive by_rank.
Proof. intros a b c. unfold by_rank. lia. Qed.

Lemma sort_by_rank_sorted (l : list Niche) :
  Sorted by_rank l → sort_by_rank l = l.
Proof.
  induction 1 as [|n l _ IH Hhd]; [done|].
  unfold sort_by_rank in *. simpl. rewrite IH.
  destruct Hhd as [|m l Hnm]; [done|]. simpl.
  unfold by_rank in Hnm. apply Z.leb_le in Hnm. by rewrite Hnm.
Qed.

Lemma filter_StronglySorted {A} (R : relation A) (P : A → Prop)
    `{!∀ x, Decision (P x)} (l : list A) :
  StronglySorted R l → StronglySorted R (filter P l).
Proof.
  induction 1 as [|x l _ IH Hall]; [constructor|].
  rewrite filter_cons. case_decide; [|done].
  constructor; [done|]. apply Forall_forall. intros y [_ Hy]%list_elem_of_filter.
  by eapply Forall_forall in Hall.
Qed.

(** X21.  Filtering keeps the ranking order, so the sort that [main] applies
    afterwards changes nothing: for niches listed by ascending rank, the
    stable sort by rank of what [filter_niches] returns is that same list,
    whatever the thresholds. *)
Theorem sort_after_filter_is_identity niches min_cpc max_difficulty :
  Sorted by_rank niches →
  sort_by_rank (filter_niches niches min_cpc max_difficulty)
    = filter_niches niches min_cpc max_difficulty.
Proof.
  intros Hs. apply sort_by_rank_sorted, StronglySorted_Sorted.
  by apply filter_StronglySorted, (@Sorted_StronglySorted _ _ by_rank_trans).
Qed.

Lemma sort_after_filter_is_identity_witness :
  sort_by_rank (filter_niches get_seed_data (float_lit 5629499534213120 (-47)) 25)
    = filter_niches get_seed_data (float_lit 5629499534213120 (-47)) 25.
Proof.
  apply sort_after_filter_is_identity.
  unfold get_seed_data. repeat (constructor; [|try (constructor; by vm_compute)]).
  constructor.
Defined.

Example filter_niches_on_seed :
  rank <$> filter_niches get_seed_data (float_lit 5629499534213120 (-47)) 25 = [1; 2; 3] ∧
  filter_niches get_seed_data default_min_cpc default_max_difficulty = get_seed_data ∧
  filter_niches get_seed_data (float_lit 8796093022208000 (-43)) 1 = [].
Proof. split_and!; by vm_compute. Qed.

(** X22.  NaN never passes the CPC test: with a NaN threshold
    [filter_niches] returns the empty list, and with any threshold no niche
    whose CPC is NaN is kept. *)
Theorem filter_niches_nan niches min_cpc max_difficulty :
  filter_niches niches S754_nan max_difficulty = [] ∧
  ∀ n, n ∈ filter_niches niches min_cpc max_difficulty → cpc n ≠ S754_nan.
Proof.
  split.
  - apply filter_all_False. intros n _ [Hge _]. unfold float_ge, SFleb in Hge.
    by destruct (cpc n).
  - intros n [[Hge _] _]%list_elem_of_filter Hnan. rewrite Hnan in Hge.
    unfold float_ge, SFleb in Hge. by destruct min_cpc.
Qed.

Context (json_loads : string → option json) (json_dumps : json → string).
Context (csv_text : list string → list json → string).

(** The export goes through when the data directory is there and no
    directory has the name of one of the two files. *)
Lemma export_results_succeeds niches dir (w : World) :
  dir ≠ "" → PyStr.endswith "/" dir = false →
  dir ∈ dirs w →
  path_join dir "top_niches.json" ∉ dirs w →
  path_join dir "top_niches.csv" ∉ dirs w →
  ∃ w1, export_results json_dumps csv_text niches (path_join dir "top_niches.json")
                       (path_join dir "top_niches.csv") w = (w1, inr ()).
Proof.
  intros Hd Hs Hin Hj Hc. unfold export_results, bind.
  rewrite write_file_joined by done.
  rewrite write_file_joined by done. by eexists.
Qed.

(** X23.  What the export writes is what the generator loads.  After
    [export_results] has returned normally, provided the JSON text written
    parses back to the exported list, [load_top_niche] on the JSON file
    returns the first niche as a dictionary; when the list exported is
    empty (the filter kept nothing) it raises the [ValueError] "No niche
    data found. Run niche_selection.py first.". *)
Theorem export_then_load_top_niche niches json_path csv_path (w w1 : World) :
  json_path ≠ csv_path →
  json_loads (json_dumps (JList (asdict <$> niches))) = Some (JList (asdict <$> niches)) →
  export_results json_dumps csv_text niches json_path csv_path w = (w1, inr ()) →
  load_top_niche json_loads json_path w1 =
    (w1, match niches with
         | [] => inl (ValueError "No niche data found. Run niche_selection.py first.")
         | first :: _ => inr (asdict first)
         end).
Proof.
  intros Hne Hj Hrun.
  assert (files w1 !! json_path = Some (json_dumps (JList (asdict <$> niches)))) as Hf.
  { unfold export_results, bind in Hrun.
    destruct (write_file json_path _ w) as [wa [e|[]]] eqn:Ha; [done|].
    apply write_file_inv in Ha, Hrun. subst wa w1. simpl.
    rewrite lookup_insert_ne by done. by rewrite lookup_insert_eq. }
  unfold load_top_niche, bind, read_file, lift. rewrite Hf, Hj.
  by destruct niches.
Qed.

End NicheFacts.

Lemma export_then_load_top_niche_witness :
  let doc := GenerateSite.JList (NicheSelection.asdict <$> NicheSelection.get_seed_data) in
  let loads := λ text : string, if decide (text = "doc") then Some doc else None in
  let dumps := λ _ : GenerateSite.json, "doc" in
  let csv := λ (_ : list string) (_ : list GenerateSite.json), "rank,niche" in
  let w := GenerateSite.mkWorld ∅ {["/srv/data"]} [] in
  let w1 := GenerateSite.mkWorld
              (<["/srv/data/top_niches.csv" := "rank,niche"]>
                 (<["/srv/data/top_niches.json" := "doc"]> ∅)) {["/srv/data"]} [] in
  GenerateSite.load_top_niche loads "/srv/data/top_niches.json" w1 =
    (w1, inr (GenerateSite.JDict
                [("rank", GenerateSite.JInt 1);
                 ("niche", GenerateSite.JStr "Water Damage Restoration");
                 ("city", GenerateSite.JStr "Dallas");
                 ("cpc", GenerateSite.JFloat (S754_finite false 8823888676158177 (-45)));
                 ("difficulty", GenerateSite.JInt 18);
                 ("rationale",
                  GenerateSite.JStr "Highest CPC in home services; low keyword difficulty")])).
Proof.
  intros doc loads dumps csv w w1.
  apply (export_then_load_top_niche loads dumps csv NicheSelection.get_seed_data
           "/srv/data/top_niches.json" "/srv/data/top_niches.csv" w w1).
  - discriminate.
  - reflexivity.
  - unfold NicheSelection.export_results, GenerateSite.bind.
    rewrite (write_file_child "/srv/data" "top_niches.json" _ w);
      [|done|done|done|done|apply (bool_decide_unpack _); vm_compute; exact I
       |apply (bool_decide_unpack _); vm_compute; exact I].
    rewrite (write_file_child "/srv/data" "top_niches.csv");
      [done|done|done|done|done|apply (bool_decide_unpack _); vm_compute; exact I
       |apply (bool_decide_unpack _); vm_compute; exact I].
Defined.

(** ** More on traffic: lead counts, timestamps, slugs that do not read back *)

Section TrafficMore.
Import Database App SalesAutomation Traffic GenerateSite.

(** One submission adds one lead when it passes validation, none when it
    does not. *)
Lemma submit_leads_length {UCD : PyStr.UnicodeData} db s :
  length (leads (db_after (submit db s))) =
  (length (leads db) +
   length (filter (λ s, PyStr.strip (name s) ≠ "" ∧ PyStr.strip (phone s) ≠ "") [s]))%nat.
Proof.
  unfold submit. destruct (blank_or_accepted (name s) (phone s)) as [Hb|[Hn Hp]].
  - rewrite (create_lead_blank_unchanged _ _ _ _ _ _ _ _ Hb). simpl.
    rewrite filter_cons_False; [simpl; lia|]. intros [? ?]. by destruct Hb.
  - destruct (create_lead_accepted db (at_time s) (Traffic.site_slug s) (name s) (phone s)
                (email s) (service s) (message s) Hn Hp) as (_ & Hl & _).
    rewrite Hl, length_app, filter_cons_True by done. simpl. lia.
Qed.

(** X7.  No lead is lost and none is invented: after any sequence of
    submissions the [leads] table has grown by exactly the number of
    submissions whose name and phone are both non-blank. *)
Theorem submit_all_leads_length {UCD : PyStr.UnicodeData} subs db :
  length (leads (submit_all db subs)) =
  (length (leads db) +
   length (filter (λ s, PyStr.strip (name s) ≠ "" ∧ PyStr.strip (phone s) ≠ "") subs))%nat.
Proof.
  revert db. induction subs as [|s subs IH]; intros db; [simpl; lia|].
  simpl submit_all. rewrite IH, submit_leads_length.
  change (s :: subs) with ([s] ++ subs). rewrite (filter_app _ [s] subs), length_app. lia.
Qed.

Lemma submit_timestamps {UCD : PyStr.UnicodeData} db s bound :
  (∀ l t, l ∈ leads db → Lead.timestamp l = Some t → t ≤ bound) →
  at_time s ≤ bound →
  ∀ l t, l ∈ leads (db_after (submit db s)) → Lead.timestamp l = Some t → t ≤ bound.
Proof.
  intros Hdb Hs. unfold submit.
  destruct (blank_or_accepted (name s) (phone s)) as [Hb|[Hn Hp]].
  - by rewrite (create_lead_blank_unchanged _ _ _ _ _ _ _ _ Hb).
  - destruct (create_lead_accepted db (at_time s) (Traffic.site_slug s) (name s) (phone s)
                (email s) (service s) (message s) Hn Hp) as (_ & Hl & _).
    rewrite Hl. intros l t [?| ->%list_elem_of_singleton]%elem_of_app; [by eauto|].
    simpl. by intros [= <-].
Qed.

(** X8.  When every lead was recorded by the handler no later than the run
    (the database held no lead stamped after [now], and every submission
    was made at or before [now]), the leads a run at [now] counts for a site
    are exactly those stamped within the thirty days that end at [now]. *)
Theorem recent_lead_count_after_traffic {UCD : PyStr.UnicodeData} subs db site now :
  (∀ l t, l ∈ leads db → Lead.timestamp l = Some t → t ≤ now) →
  Forall (λ s, at_time s ≤ now) subs →
  recent_lead_count (submit_all db subs) site (now - timedelta_days 30) =
  Z.of_nat (length (filter (λ l, Lead.site_id l = Site.id site ∧
                                 timestamp_within l (now - timedelta_days 30) now = true)
                           (leads (submit_all db subs)))).
Proof.
  intros Hdb Hsubs. apply recent_lead_count_trailing_window.
  revert db Hdb. induction Hsubs as [|s subs Hs _ IH]; intros db Hdb; [done|].
  simpl submit_all. apply IH. by apply submit_timestamps.
Qed.

Lemma recent_lead_count_after_traffic_witness :
  let site := Site.mk 1 "roofing_denver" "Roofing" "Denver" None in
  let post (t : Z) := mkSubmission t "roofing_denver" "Jane Doe" "555-123-4567" None None None in
  let db := mkDB [site] [] in
  let subs := post <$> [timedelta_days 10; timedelta_days 50; timedelta_days 60] in
  let now := timedelta_days 60 in
  recent_lead_count (submit_all db subs) site (now - timedelta_days 30) =
  Z.of_nat (length (filter (λ l, Lead.site_id l = Site.id site ∧
                                 timestamp_within l (now - timedelta_days 30) now = true)
                           (leads (submit_all db subs)))).
Proof.
  apply recent_lead_count_after_traffic.
  - intros l t Hl. by apply elem_of_nil in Hl.
  - repeat constructor; by vm_compute.
Defined.

Lemma site_slug_of_underscores {UCD : PyStr.UnicodeData} niche city :
  PyStr.count "_" (site_slug_of niche city) =
  (PyStr.count "_" niche + 1 + PyStr.count "_" city)%nat.
Proof.
  unfold site_slug_of. rewrite !count_app, !slug_part_no_underscore.
  change (PyStr.count "_" "_") with 1%nat. lia.
Qed.

(** X10.  A generated slug does not read back when the niche or the city
    contains an underscore: the slug then has more than one underscore, and
    the Site the handler creates for it has the whole slug as niche and
    "Unknown" as city. *)
Theorem create_lead_generated_slug_with_underscore {UCD : PyStr.UnicodeData} db now niche city name phone email service message :
  (0 < PyStr.count "_" niche + PyStr.count "_" city)%nat →
  PyStr.strip name ≠ "" → PyStr.strip phone ≠ "" →
  query_site_by_slug db (site_slug_of niche city) = None →
  sites (db_after (create_lead db now (site_slug_of niche city) name phone
                               email service message)) =
    sites db ++ [Site.mk (next_rowid (Site.id <$> sites db)) (site_slug_of niche city)
                         (site_slug_of niche city) "Unknown" None].
Proof.
  intros Hu Hn Hp Hq.
  destruct (create_lead_accepted db now (site_slug_of niche city) name phone email
              service message Hn Hp) as (Hs & _ & _).
  rewrite Hs, (find_or_create_site_new _ _ Hq). simpl.
  unfold niche_city_of_slug.
  pose proof (split_length "_" (site_slug_of niche city)) as Hlen.
  rewrite site_slug_of_underscores in Hlen.
  destruct (PyStr.split "_" (site_slug_of niche city)) as [|x [|y [|z l]]];
    simpl in *; try done; lia.
Qed.

Lemma create_lead_generated_slug_with_underscore_witness :
  sites (db_after (create_lead (mkDB [] []) 0 (site_slug_of "Heating_Cooling" "Reno")
                               "Jane Doe" "555-123-4567" None None None)) =
    [] ++ [Site.mk 1 "heating_cooling_reno" "heating_cooling_reno" "Unknown" None].
Proof.
  apply (create_lead_generated_slug_with_underscore (mkDB [] []) 0 "Heating_Cooling" "Reno");
    by vm_compute.
Defined.

End TrafficMore.
